(** * Workshop notebooks: dialogue summarisation, RLHF detoxification,
      environment setup and the Spark data-quality job

    The repository consists of four Jupyter notebooks: the setup of the
    workshop's dependencies, the data-quality job on Spark, the supervised
    fine-tuning of a summarisation model (full and with LoRA) and its
    detoxification with PPO.

    - Part I gives the abstract syntax of the notebooks' code cells and the
      four notebooks themselves, cell by cell (markdown cells are left out,
      the cell numbers are those of the notebook files).
    - Part II gives the analyses over that syntax: call sites, try
      statements, name binding, IPython magics, an execution skeleton
      for Python exceptions and the strings built with [str.format] and
      handed to the shell.
    - Part III embeds the functions and loops the notebooks define
      ([print_number_of_trainable_model_parameters], [tokenize_function],
      [build_dataset], [evaluate_toxicity], the PPO loop, [load_dataset],
      [collator] and the cells that compare the models)
      over an interface for the third-party libraries they call.
    - Part IV states and proves the properties. *)

From Stdlib Require Import String List ZArith Lia Bool Ascii Arith PeanoNat.
From Stdlib Require Import DecimalString ZifyNat.
Import ListNotations.

Set Warnings "-register-all".

Local Open Scope string_scope.
Local Open Scope list_scope.

(* ================================================================== *)
(** * Part I: the notebooks *)
(* ================================================================== *)

(** Characters that cannot be written inside a string literal. *)
Definition dq : string := String (ascii_of_nat 34) EmptyString.
Definition nl : string := String (ascii_of_nat 10) EmptyString.
Definition tab : string := String (ascii_of_nat 9) EmptyString.

(** ** Abstract syntax of a code cell

    The constructors follow the node classes of Python's [ast] module.
    [Compare] and [BoolOp] nodes are written [EBinOp] with the operator's
    text; float, boolean and [None] constants are [EConst] with their
    source text. *)
Inductive expr : Type :=
| EName (id : string)
| EStr (s : string)
| ENum (n : Z)
| EConst (text : string)
| EAttribute (value : expr) (attr : string)
| ESubscript (value : expr) (slice : expr)
| ESlice (lower upper : option expr)
| ECall (func : expr) (args : list expr) (keywords : list (option string * expr))
| EBinOp (op : string) (left right : expr)
| EUnaryOp (op : string) (operand : expr)
| EIfExp (test body orelse : expr)
| EList (elts : list expr)
| ETuple (elts : list expr)
| EDict (items : list (expr * expr))
| EJoinedStr (values : list expr)
| EFormattedValue (value : expr) (format_spec : string)
| ELambda (args : list string) (body : expr)
| EListComp (elt target iter : expr)
| EGeneratorExp (elt target iter : expr).

Arguments ENum n%_Z.

(** Statements.  A line magic ([%store x], [%pip install ...]) and a shell
    escape ([!aws s3 cp ...]) keep their text, one string per physical line
    with the leading [%] or [!] and the continuation backslash removed; a
    cell magic ([%%html]) keeps the lines of its body. *)
Inductive stmt : Type :=
| SImport (names : list (string * option string))
| SImportFrom (module : string) (names : list (string * option string))
| SAssign (targets : list expr) (value : expr)
| SAugAssign (target : expr) (op : string) (value : expr)
| SExpr (value : expr)
| SFor (target iter : expr) (body : list stmt)
| SIf (test : expr) (body orelse : list stmt)
| STry (body : list stmt) (handlers : list (option expr * list stmt))
| SFunctionDef (name : string) (args : list string) (body : list stmt)
| SReturn (value : option expr)
| SBreak
| SPass
| SLineMagic (lines : list string)
| SShell (lines : list string)
| SCellMagic (name : string) (body : list string).

(** A code cell with its number in the notebook file, and a notebook. *)
Definition cell : Type := nat * list stmt.
Definition notebook : Type := list cell.

(** ** The setup notebook (src/unnamed/part_001, Setup All Workshop Dependencies) *)
Definition setup_notebook : notebook :=
  [
  (3,
    [
      SShell ["python --version"] ]);
  (4,
    [
      SImport [("psutil", None)];
      SAssign [(EName "notebook_memory")]
        (ECall (EAttribute (EName "psutil") "virtual_memory") [] []);
      SExpr (ECall (EName "print") [(EName "notebook_memory")] []);
      SIf (EBinOp "<" (EAttribute (EName "notebook_memory") "total") (EBinOp "*" (EBinOp "*" (EBinOp "*" (ENum 32) (ENum 1000)) (ENum 1000)) (ENum 1000))) [
        SExpr (ECall (EName "print") [(EStr "*******************************************")] []);
        SExpr (ECall (EName "print") [(EStr "YOU ARE NOT USING THE CORRECT INSTANCE TYPE")] []);
        SExpr (ECall (EName "print") [(EStr "PLEASE CHANGE INSTANCE TYPE TO  m5.2xlarge ")] []);
        SExpr (ECall (EName "print") [(EStr "*******************************************")] []) ] [
        SAssign [(EName "correct_instance_type")]
          (EConst "True") ] ]);
  (5,
    [
      SImport [("boto3", None)];
      SImport [("sagemaker", None)];
      SAssign [(EName "sess")]
        (ECall (EAttribute (EName "sagemaker") "Session") [] []);
      SAssign [(EName "bucket")]
        (ECall (EAttribute (EName "sess") "default_bucket") [] []);
      SAssign [(EName "region")]
        (EAttribute (ECall (EAttribute (EName "boto3") "Session") [] []) "region_name") ]);
  (7,
    [
      SLineMagic ["pip install --disable-pip-version-check -q sagemaker==2.136.0"] ]);
  (8,
    [
      SLineMagic ["pip install --disable-pip-version-check -q sagemaker-experiments==0.1.28"] ]);
  (11,
    [
      SLineMagic ["pip uninstall -y --disable-pip-version-check"; "torch==1.13.1"; "torchdata==0.5.1 --quiet"] ]);
  (12,
    [
      SLineMagic ["pip install --disable-pip-version-check"; "torch==1.13.1"; "torchdata==0.5.1 --quiet"] ]);
  (15,
    [
      SLineMagic ["pip install --disable-pip-version-check"; "transformers==4.27.2"; "datasets==2.11.0"; "accelerate==0.17.0"; "bitsandbytes==0.37.0"; "promptsource==0.2.3"; "evaluate==0.4.0"; "py7zr==0.20.4"; "sentencepiece==0.1.99"; "rouge_score==0.1.2"; "loralib==0.1.1"; "peft==0.3.0"; "git+https://github.com/lvwerra/trl.git@25fa1bd --quiet"] ]);
  (18,
    [
      SLineMagic ["pip install --disable-pip-version-check -q ray==2.5.0"] ]);
  (21,
    [
      SLineMagic ["pip install --disable-pip-version-check -q PyAthena==2.1.1"] ]);
  (24,
    [
      SShell ["pip install --disable-pip-version-check -q SQLAlchemy==1.3.23"];
      SShell ["pip install --disable-pip-version-check -q psycopg2-binary==2.9.1"] ]);
  (27,
    [
      SLineMagic ["conda install -q -y zip"] ]);
  (29,
    [
      SLineMagic ["pip install --disable-pip-version-check -q matplotlib==3.1.3"] ]);
  (32,
    [
      SLineMagic ["pip install --disable-pip-version-check -q seaborn==0.10.0"] ]);
  (35,
    [
      SLineMagic ["pip install --disable-pip-version-check -q scikit-learn==0.23.1"] ]);
  (37,
    [
      SImport [("sagemaker", None)];
      STry [
        SAssign [(EName "role")]
          (ECall (EAttribute (EName "sagemaker") "get_execution_role") [] []);
        SExpr (ECall (EName "print") [(EName "role")] []) ]
        [(None, [
        SExpr (ECall (EName "print") [(EStr ("If there is an exception, please set the role directly by uncommenting the " ++ dq ++ "role=..." ++ dq ++ " line above.")%string)] []);
        SPass ])];
      SLineMagic ["store role"] ]);
  (39,
    [
      SShell ["python --version"] ]);
  (40,
    [
      SShell ["pip list"] ]);
  (43,
    [
      SAssign [(EName "s3_public_path_tsv")]
        (EStr "s3://dsoaws/amazon-reviews-pds/tsv") ]);
  (44,
    [
      SAssign [(EName "s3_private_path_tsv")]
        (ECall (EAttribute (EStr "s3://{}/amazon-reviews-pds/tsv") "format") [(EName "bucket")] []);
      SExpr (ECall (EName "print") [(EName "s3_private_path_tsv")] []) ]);
  (45,
    [
      SShell [("aws s3 cp --recursive $s3_public_path_tsv/ $s3_private_path_tsv/ --exclude " ++ dq ++ "*" ++ dq ++ " --include " ++ dq ++ "amazon_reviews_us_Digital_Software_v1_00.tsv.gz" ++ dq)%string];
      SShell [("aws s3 cp --recursive $s3_public_path_tsv/ $s3_private_path_tsv/ --exclude " ++ dq ++ "*" ++ dq ++ " --include " ++ dq ++ "amazon_reviews_us_Digital_Video_Games_v1_00.tsv.gz" ++ dq)%string];
      SShell [("aws s3 cp --recursive $s3_public_path_tsv/ $s3_private_path_tsv/ --exclude " ++ dq ++ "*" ++ dq ++ " --include " ++ dq ++ "amazon_reviews_us_Gift_Card_v1_00.tsv.gz" ++ dq)%string] ]);
  (46,
    [
      SLineMagic ["store s3_public_path_tsv"] ]);
  (47,
    [
      SLineMagic ["store s3_private_path_tsv"] ]);
  (49,
    [
      SExpr (ECall (EAttribute (EName "sess") "upload_data") [(EStr "./data-summarization/dialogsum-1.csv")] [((Some "bucket"), (EName "bucket")); ((Some "key_prefix"), (EStr "data-summarization"))]);
      SExpr (ECall (EAttribute (EName "sess") "upload_data") [(EStr "./data-summarization/dialogsum-2.csv")] [((Some "bucket"), (EName "bucket")); ((Some "key_prefix"), (EStr "data-summarization"))]) ]);
  (50,
    [
      SAssign [(EName "raw_input_data_s3_uri")]
        (EJoinedStr [(EStr "s3://"); (EFormattedValue (EName "bucket") ""); (EStr "/data-summarization/")]);
      SExpr (ECall (EName "print") [(EName "raw_input_data_s3_uri")] []) ]);
  (51,
    [
      SShell ["aws s3 ls $raw_input_data_s3_uri"] ]);
  (52,
    [
      SLineMagic ["store raw_input_data_s3_uri"] ]);
  (53,
    [
      SAssign [(EName "setup_dependencies_passed")]
        (EConst "True") ]);
  (55,
    [
      SAssign [(EName "model_checkpoint")]
        (EStr "google/flan-t5-base") ]);
  (56,
    [
      SLineMagic ["store model_checkpoint"] ]);
  (57,
    [
      SLineMagic ["store setup_dependencies_passed"] ]);
  (58,
    [
      SLineMagic ["store"] ]);
  (60,
    [
      SCellMagic "html"
        [ "";
          "<p><b>Shutting down your kernel for this notebook to release resources.</b></p>";
          ("<button class=" ++ dq ++ "sm-command-button" ++ dq ++ " data-commandlinker-command=" ++ dq ++ "kernelmenu:shutdown" ++ dq ++ " style=" ++ dq ++ "display:none;" ++ dq ++ ">Shutdown Kernel</button>")%string;
          "        ";
          "<script>";
          "try {";
          ("    els = document.getElementsByClassName(" ++ dq ++ "sm-command-button" ++ dq ++ ");")%string;
          "    els[0].click();";
          "}";
          "catch(err) {";
          "    // NoOp";
          "}    ";
          "</script>" ] ])
  ].

(** ** The data-quality notebook
       (src/01c_Analyze_Data_Quality_ProcessingJob_Spark.ipynb) *)
Definition data_quality_notebook : notebook :=
  [
  (5,
    [
      SLineMagic ["store -r setup_dependencies_passed"] ]);
  (6,
    [
      STry [
        SExpr (EName "setup_dependencies_passed") ]
        [((Some (EName "NameError")), [
        SExpr (ECall (EName "print") [(EStr "++++++++++++++++++++++++++++++++++++++++++++++")] []);
        SExpr (ECall (EName "print") [(EStr "[ERROR] YOU HAVE TO RUN THE PREVIOUS NOTEBOOKS")] []);
        SExpr (ECall (EName "print") [(EStr "++++++++++++++++++++++++++++++++++++++++++++++")] []) ])] ]);
  (7,
    [
      SExpr (ECall (EName "print") [(EName "setup_dependencies_passed")] []) ]);
  (9,
    [
      SImport [("sagemaker", None)];
      SImport [("boto3", None)];
      SAssign [(EName "sess")]
        (ECall (EAttribute (EName "sagemaker") "Session") [] []);
      SAssign [(EName "bucket")]
        (ECall (EAttribute (EName "sess") "default_bucket") [] []);
      SAssign [(EName "role")]
        (ECall (EAttribute (EName "sagemaker") "get_execution_role") [] []);
      SAssign [(EName "region")]
        (EAttribute (ECall (EAttribute (EName "boto3") "Session") [] []) "region_name");
      SImport [("botocore.config", None)];
      SAssign [(EName "config")]
        (ECall (EAttribute (EAttribute (EName "botocore") "config") "Config") [] [((Some "user_agent_extra"), (EStr "dsoaws/2.0"))]) ]);
  (11,
    [
      SShell ["pygmentize preprocess_deequ_pyspark.py"] ]);
  (12,
    [
      SImportFrom "sagemaker.spark.processing" [("PySparkProcessor", None)];
      SAssign [(EName "processor")]
        (ECall (EName "PySparkProcessor") [] [((Some "base_job_name"), (EStr "spark-amazon-reviews-analyzer")); ((Some "role"), (EName "role")); ((Some "framework_version"), (EStr "2.4")); ((Some "instance_count"), (ENum 2)); ((Some "instance_type"), (EStr "ml.m5.2xlarge")); ((Some "max_runtime_in_seconds"), (ENum 300))]) ]);
  (13,
    [
      SAssign [(EName "s3_input_data")]
        (ECall (EAttribute (EStr "s3://{}/amazon-reviews-pds/tsv/") "format") [(EName "bucket")] []);
      SExpr (ECall (EName "print") [(EName "s3_input_data")] []) ]);
  (14,
    [
      SShell ["aws s3 ls $s3_input_data"] ]);
  (16,
    [
      SImportFrom "time" [("gmtime", None); ("strftime", None)];
      SAssign [(EName "timestamp_prefix")]
        (ECall (EName "strftime") [(EStr "%Y-%m-%d-%H-%M-%S"); (ECall (EName "gmtime") [] [])] []);
      SAssign [(EName "output_prefix")]
        (ECall (EAttribute (EStr "amazon-reviews-spark-analyzer-{}") "format") [(EName "timestamp_prefix")] []);
      SAssign [(EName "processing_job_name")]
        (ECall (EAttribute (EStr "amazon-reviews-spark-analyzer-{}") "format") [(EName "timestamp_prefix")] []);
      SExpr (ECall (EName "print") [(ECall (EAttribute (EStr "Processing job name:  {}") "format") [(EName "processing_job_name")] [])] []) ]);
  (17,
    [
      SAssign [(EName "s3_output_analyze_data")]
        (ECall (EAttribute (EStr "s3://{}/{}/output") "format") [(EName "bucket"); (EName "output_prefix")] []);
      SExpr (ECall (EName "print") [(EName "s3_output_analyze_data")] []) ]);
  (19,
    [
      SImportFrom "sagemaker.processing" [("ProcessingOutput", None)];
      SExpr (ECall (EAttribute (EName "processor") "run") [] [((Some "submit_app"), (EStr "preprocess_deequ_pyspark.py")); ((Some "submit_jars"), (EList [(EStr "deequ-1.0.3-rc2.jar")])); ((Some "arguments"), (EList [(EStr "s3_input_data"); (EName "s3_input_data"); (EStr "s3_output_analyze_data"); (EName "s3_output_analyze_data")])); ((Some "logs"), (EConst "True")); ((Some "wait"), (EConst "False"))]) ]);
  (20,
    [
      SImportFrom "IPython.core.display" [("display", None); ("HTML", None)];
      SAssign [(EName "processing_job_name")]
        (ESubscript (ECall (EAttribute (ESubscript (EAttribute (EName "processor") "jobs") (EUnaryOp "-" (ENum 1))) "describe") [] []) (EStr "ProcessingJobName"));
      SExpr (ECall (EName "display") [(ECall (EName "HTML") [(ECall (EAttribute (EStr ("<b>Review <a target=" ++ dq ++ "blank" ++ dq ++ " href=" ++ dq ++ "https://console.aws.amazon.com/sagemaker/home?region={}#/processing-jobs/{}" ++ dq ++ ">Processing Job</a></b>")%string) "format") [(EName "region"); (EName "processing_job_name")] [])] [])] []) ]);
  (21,
    [
      SImportFrom "IPython.core.display" [("display", None); ("HTML", None)];
      SAssign [(EName "processing_job_name")]
        (ESubscript (ECall (EAttribute (ESubscript (EAttribute (EName "processor") "jobs") (EUnaryOp "-" (ENum 1))) "describe") [] []) (EStr "ProcessingJobName"));
      SExpr (ECall (EName "display") [(ECall (EName "HTML") [(ECall (EAttribute (EStr ("<b>Review <a target=" ++ dq ++ "blank" ++ dq ++ " href=" ++ dq ++ "https://console.aws.amazon.com/cloudwatch/home?region={}#logStream:group=/aws/sagemaker/ProcessingJobs;prefix={};streamFilter=typeLogStreamPrefix" ++ dq ++ ">CloudWatch Logs</a> After a Few Minutes</b>")%string) "format") [(EName "region"); (EName "processing_job_name")] [])] [])] []) ]);
  (22,
    [
      SImportFrom "IPython.core.display" [("display", None); ("HTML", None)];
      SAssign [(EName "s3_job_output_prefix")]
        (EName "output_prefix");
      SExpr (ECall (EName "display") [(ECall (EName "HTML") [(ECall (EAttribute (EStr ("<b>Review <a target=" ++ dq ++ "blank" ++ dq ++ " href=" ++ dq ++ "https://s3.console.aws.amazon.com/s3/buckets/{}/{}/?region={}&tab=overview" ++ dq ++ ">S3 Output Data</a> After The Spark Job Has Completed</b>")%string) "format") [(EName "bucket"); (EName "s3_job_output_prefix"); (EName "region")] [])] [])] []) ]);
  (24,
    [
      SAssign [(EName "running_processor")]
        (ECall (EAttribute (EAttribute (EAttribute (EName "sagemaker") "processing") "ProcessingJob") "from_processing_name") [] [((Some "processing_job_name"), (EName "processing_job_name")); ((Some "sagemaker_session"), (EName "sess"))]);
      SAssign [(EName "processing_job_description")]
        (ECall (EAttribute (EName "running_processor") "describe") [] []);
      SExpr (ECall (EName "print") [(EName "processing_job_description")] []) ]);
  (25,
    [
      SExpr (ECall (EAttribute (EName "running_processor") "wait") [] []) ]);
  (28,
    [
      SShell ["aws s3 ls --recursive $s3_output_analyze_data/"] ]);
  (30,
    [
      SShell [("aws s3 cp --recursive $s3_output_analyze_data ./amazon-reviews-spark-analyzer/ --exclude=" ++ dq ++ "*" ++ dq ++ " --include=" ++ dq ++ "*.csv" ++ dq)%string] ]);
  (32,
    [
      SImport [("glob", None)];
      SImport [("pandas", (Some "pd"))];
      SFunctionDef "load_dataset" ["path"; "sep"; "header"] [
        SAssign [(EName "data")]
          (ECall (EAttribute (EName "pd") "concat") [(EListComp (ECall (EAttribute (EName "pd") "read_csv") [(EName "f")] [((Some "sep"), (EName "sep")); ((Some "header"), (EName "header"))]) (EName "f") (ECall (EAttribute (EName "glob") "glob") [(ECall (EAttribute (EStr "{}/*.csv") "format") [(EName "path")] [])] []))] [((Some "ignore_index"), (EConst "True"))]);
        SReturn (Some (EName "data")) ] ]);
  (33,
    [
      SAssign [(EName "df_constraint_checks")]
        (ECall (EName "load_dataset") [] [((Some "path"), (EStr "./amazon-reviews-spark-analyzer/constraint-checks/")); ((Some "sep"), (EStr tab)); ((Some "header"), (ENum 0))]);
      SExpr (ESubscript (EName "df_constraint_checks") (EList [(EStr "check"); (EStr "constraint"); (EStr "constraint_status"); (EStr "constraint_message")])) ]);
  (35,
    [
      SAssign [(EName "df_dataset_metrics")]
        (ECall (EName "load_dataset") [] [((Some "path"), (EStr "./amazon-reviews-spark-analyzer/dataset-metrics/")); ((Some "sep"), (EStr tab)); ((Some "header"), (ENum 0))]);
      SExpr (EName "df_dataset_metrics") ]);
  (37,
    [
      SAssign [(EName "df_success_metrics")]
        (ECall (EName "load_dataset") [] [((Some "path"), (EStr "./amazon-reviews-spark-analyzer/success-metrics/")); ((Some "sep"), (EStr tab)); ((Some "header"), (ENum 0))]);
      SExpr (EName "df_success_metrics") ]);
  (39,
    [
      SExpr (ECall (EAttribute (EName "pd") "set_option") [(EStr "max_colwidth"); (ENum 999)] []);
      SAssign [(EName "df_constraint_suggestions")]
        (ECall (EName "load_dataset") [] [((Some "path"), (EStr "./amazon-reviews-spark-analyzer/constraint-suggestions/")); ((Some "sep"), (EStr tab)); ((Some "header"), (ENum 0))]);
      SExpr (EName "df_constraint_suggestions") ]);
  (41,
    [
      SCellMagic "html"
        [ "";
          "<p><b>Shutting down your kernel for this notebook to release resources.</b></p>";
          ("<button class=" ++ dq ++ "sm-command-button" ++ dq ++ " data-commandlinker-command=" ++ dq ++ "kernelmenu:shutdown" ++ dq ++ " style=" ++ dq ++ "display:none;" ++ dq ++ ">Shutdown Kernel</button>")%string;
          "        ";
          "<script>";
          "try {";
          ("    els = document.getElementsByClassName(" ++ dq ++ "sm-command-button" ++ dq ++ ");")%string;
          "    els[0].click();";
          "}";
          "catch(err) {";
          "    // NoOp";
          "}    ";
          "</script>" ] ]);
  (42, [])
  ].

(** ** The supervised fine-tuning notebook (src/unnamed/part_000, first
       notebook: PEFT Fine-Tune a Generative AI Model for Dialogue
       Summarization) *)
Definition peft_notebook : notebook :=
  [
  (2,
    [
      SImportFrom "datasets" [("load_dataset", None)];
      SImportFrom "transformers" [("AutoModelForSeq2SeqLM", None); ("AutoTokenizer", None); ("GenerationConfig", None); ("TrainingArguments", None); ("Trainer", None)];
      SImport [("torch", None)];
      SImport [("time", None)];
      SImport [("evaluate", None)];
      SImport [("pandas", (Some "pd"))];
      SImport [("numpy", (Some "np"))];
      SImportFrom "tqdm" [("tqdm", None)];
      SExpr (ECall (EAttribute (EName "tqdm") "pandas") [] []) ]);
  (4,
    [
      SAssign [(EName "huggingface_dataset_name")]
        (EStr "knkarthick/dialogsum");
      SAssign [(EName "dataset")]
        (ECall (EName "load_dataset") [(EName "huggingface_dataset_name")] []);
      SExpr (EName "dataset") ]);
  (5,
    [
      SAssign [(EName "model_name")]
        (EStr "google/flan-t5-base");
      SAssign [(EName "original_model")]
        (ECall (EAttribute (EName "AutoModelForSeq2SeqLM") "from_pretrained") [(EName "model_name")] [((Some "torch_dtype"), (EAttribute (EName "torch") "bfloat16"))]);
      SAssign [(EName "tokenizer")]
        (ECall (EAttribute (EName "AutoTokenizer") "from_pretrained") [(EName "model_name")] []) ]);
  (6,
    [
      SFunctionDef "print_number_of_trainable_model_parameters" ["model"] [
        SAssign [(EName "trainable_model_params")]
          (ENum 0);
        SAssign [(EName "all_model_params")]
          (ENum 0);
        SFor (ETuple [(EName "_"); (EName "param")]) (ECall (EAttribute (EName "model") "named_parameters") [] []) [
          SAugAssign (EName "all_model_params") "+" (ECall (EAttribute (EName "param") "numel") [] []);
          SIf (EAttribute (EName "param") "requires_grad") [
            SAugAssign (EName "trainable_model_params") "+" (ECall (EAttribute (EName "param") "numel") [] []) ] [] ];
        SReturn (Some (EJoinedStr [(EStr "trainable model parameters: "); (EFormattedValue (EName "trainable_model_params") ""); (EStr (nl ++ "all model parameters: ")%string); (EFormattedValue (EName "all_model_params") ""); (EStr (nl ++ "percentage of trainable model parameters: ")%string); (EFormattedValue (EBinOp "/" (EBinOp "*" (ENum 100) (EName "trainable_model_params")) (EName "all_model_params")) ""); (EStr "%")])) ];
      SExpr (ECall (EName "print") [(ECall (EName "print_number_of_trainable_model_parameters") [(EName "original_model")] [])] []) ]);
  (8,
    [
      SAssign [(EName "index")]
        (ENum 200);
      SAssign [(EName "dialogue")]
        (ESubscript (ESubscript (ESubscript (EName "dataset") (EStr "test")) (EName "index")) (EStr "dialogue"));
      SAssign [(EName "summary")]
        (ESubscript (ESubscript (ESubscript (EName "dataset") (EStr "test")) (EName "index")) (EStr "summary"));
      SAssign [(EName "prompt")]
        (EJoinedStr [(EStr (nl ++ "Summarize the following conversation." ++ nl ++ nl)%string); (EFormattedValue (EName "dialogue") ""); (EStr (nl ++ nl ++ "Summary:" ++ nl)%string)]);
      SAssign [(EName "inputs")]
        (ECall (EName "tokenizer") [(EName "prompt")] [((Some "return_tensors"), (EStr "pt"))]);
      SAssign [(EName "output")]
        (ECall (EAttribute (EName "tokenizer") "decode") [(ESubscript (ECall (EAttribute (EName "original_model") "generate") [(ESubscript (EName "inputs") (EStr "input_ids"))] [((Some "max_new_tokens"), (ENum 200))]) (ENum 0))] [((Some "skip_special_tokens"), (EConst "True"))]);
      SAssign [(EName "dash_line")]
        (ECall (EAttribute (EStr "-") "join") [(EGeneratorExp (EStr "") (EName "x") (ECall (EName "range") [(ENum 100)] []))] []);
      SExpr (ECall (EName "print") [(EName "dash_line")] []);
      SExpr (ECall (EName "print") [(EJoinedStr [(EStr ("INPUT PROMPT:" ++ nl)%string); (EFormattedValue (EName "prompt") "")])] []);
      SExpr (ECall (EName "print") [(EName "dash_line")] []);
      SExpr (ECall (EName "print") [(EJoinedStr [(EStr ("BASELINE HUMAN SUMMARY:" ++ nl)%string); (EFormattedValue (EName "summary") ""); (EStr nl)])] []);
      SExpr (ECall (EName "print") [(EName "dash_line")] []);
      SExpr (ECall (EName "print") [(EJoinedStr [(EStr ("MODEL GENERATION - ZERO SHOT:" ++ nl)%string); (EFormattedValue (EName "output") "")])] []) ]);
  (10,
    [
      SFunctionDef "tokenize_function" ["example"] [
        SAssign [(EName "start_prompt")]
          (EStr ("Summarize the following conversation." ++ nl ++ nl)%string);
        SAssign [(EName "end_prompt")]
          (EStr (nl ++ nl ++ "Summary: ")%string);
        SAssign [(EName "prompt")]
          (EListComp (EBinOp "+" (EBinOp "+" (EName "start_prompt") (EName "dialogue")) (EName "end_prompt")) (EName "dialogue") (ESubscript (EName "example") (EStr "dialogue")));
        SAssign [(ESubscript (EName "example") (EStr "input_ids"))]
          (EAttribute (ECall (EName "tokenizer") [(EName "prompt")] [((Some "padding"), (EStr "max_length")); ((Some "truncation"), (EConst "True")); ((Some "return_tensors"), (EStr "pt"))]) "input_ids");
        SAssign [(ESubscript (EName "example") (EStr "labels"))]
          (EAttribute (ECall (EName "tokenizer") [(ESubscript (EName "example") (EStr "summary"))] [((Some "padding"), (EStr "max_length")); ((Some "truncation"), (EConst "True")); ((Some "return_tensors"), (EStr "pt"))]) "input_ids");
        SReturn (Some (EName "example")) ];
      SAssign [(EName "tokenized_datasets")]
        (ECall (EAttribute (EName "dataset") "map") [(EName "tokenize_function")] [((Some "batched"), (EConst "True"))]);
      SAssign [(EName "tokenized_datasets")]
        (ECall (EAttribute (EName "tokenized_datasets") "remove_columns") [(EList [(EStr "id"); (EStr "topic"); (EStr "dialogue"); (EStr "summary")])] []) ]);
  (11,
    [
      SAssign [(EName "tokenized_datasets")]
        (ECall (EAttribute (EName "tokenized_datasets") "filter") [(ELambda ["example"; "index"] (EBinOp "==" (EBinOp "%" (EName "index") (ENum 100)) (ENum 0)))] [((Some "with_indices"), (EConst "True"))]) ]);
  (12,
    [
      SExpr (ECall (EName "print") [(EJoinedStr [(EStr "Shapes of the datasets:")])] []);
      SExpr (ECall (EName "print") [(EJoinedStr [(EStr "Training: "); (EFormattedValue (EAttribute (ESubscript (EName "tokenized_datasets") (EStr "train")) "shape") "")])] []);
      SExpr (ECall (EName "print") [(EJoinedStr [(EStr "Validation: "); (EFormattedValue (EAttribute (ESubscript (EName "tokenized_datasets") (EStr "validation")) "shape") "")])] []);
      SExpr (ECall (EName "print") [(EJoinedStr [(EStr "Test: "); (EFormattedValue (EAttribute (ESubscript (EName "tokenized_datasets") (EStr "test")) "shape") "")])] []);
      SExpr (ECall (EName "print") [(EName "tokenized_datasets")] []) ]);
  (13,
    [
      SAssign [(EName "output_dir")]
        (EJoinedStr [(EStr "./dialogue-summary-training-"); (EFormattedValue (ECall (EName "str") [(ECall (EName "int") [(ECall (EAttribute (EName "time") "time") [] [])] [])] []) "")]);
      SAssign [(EName "training_args")]
        (ECall (EName "TrainingArguments") [] [((Some "output_dir"), (EName "output_dir")); ((Some "learning_rate"), (EConst "1e-5")); ((Some "num_train_epochs"), (ENum 1)); ((Some "weight_decay"), (EConst "0.01")); ((Some "logging_steps"), (ENum 1)); ((Some "max_steps"), (ENum 1))]);
      SAssign [(EName "trainer")]
        (ECall (EName "Trainer") [] [((Some "model"), (EName "original_model")); ((Some "args"), (EName "training_args")); ((Some "train_dataset"), (ESubscript (EName "tokenized_datasets") (EStr "train"))); ((Some "eval_dataset"), (ESubscript (EName "tokenized_datasets") (EStr "validation")))]) ]);
  (14,
    [
      SExpr (ECall (EAttribute (EName "trainer") "train") [] []) ]);
  (15,
    [
      SShell ["aws s3 cp --recursive s3://dsoaws/models/flan-dialogue-summary-checkpoint/ ./flan-dialogue-summary-checkpoint/"] ]);
  (16,
    [
      SShell ["ls -al ./flan-dialogue-summary-checkpoint/pytorch_model.bin"] ]);
  (17,
    [
      SAssign [(EName "instruct_model")]
        (ECall (EAttribute (EName "AutoModelForSeq2SeqLM") "from_pretrained") [(EStr "./flan-dialogue-summary-checkpoint")] [((Some "torch_dtype"), (EAttribute (EName "torch") "bfloat16"))]) ]);
  (19,
    [
      SAssign [(EName "index")]
        (ENum 200);
      SAssign [(EName "dialogue")]
        (ESubscript (ESubscript (ESubscript (EName "dataset") (EStr "test")) (EName "index")) (EStr "dialogue"));
      SAssign [(EName "human_baseline_summary")]
        (ESubscript (ESubscript (ESubscript (EName "dataset") (EStr "test")) (EName "index")) (EStr "summary"));
      SAssign [(EName "prompt")]
        (EJoinedStr [(EStr (nl ++ "Summarize the following conversation." ++ nl ++ nl)%string); (EFormattedValue (EName "dialogue") ""); (EStr (nl ++ nl ++ "Summary:" ++ nl)%string)]);
      SAssign [(EName "input_ids")]
        (EAttribute (ECall (EName "tokenizer") [(EName "prompt")] [((Some "return_tensors"), (EStr "pt"))]) "input_ids");
      SAssign [(EName "original_model_outputs")]
        (ECall (EAttribute (EName "original_model") "generate") [] [((Some "input_ids"), (EName "input_ids")); ((Some "generation_config"), (ECall (EName "GenerationConfig") [] [((Some "max_new_tokens"), (ENum 200)); ((Some "num_beams"), (ENum 1))]))]);
      SAssign [(EName "original_model_text_output")]
        (ECall (EAttribute (EName "tokenizer") "decode") [(ESubscript (EName "original_model_outputs") (ENum 0))] [((Some "skip_special_tokens"), (EConst "True"))]);
      SAssign [(EName "instruct_model_outputs")]
        (ECall (EAttribute (EName "instruct_model") "generate") [] [((Some "input_ids"), (EName "input_ids")); ((Some "generation_config"), (ECall (EName "GenerationConfig") [] [((Some "max_new_tokens"), (ENum 200)); ((Some "num_beams"), (ENum 1))]))]);
      SAssign [(EName "instruct_model_text_output")]
        (ECall (EAttribute (EName "tokenizer") "decode") [(ESubscript (EName "instruct_model_outputs") (ENum 0))] [((Some "skip_special_tokens"), (EConst "True"))]);
      SExpr (ECall (EName "print") [(EName "dash_line")] []);
      SExpr (ECall (EName "print") [(EJoinedStr [(EStr ("BASELINE HUMAN SUMMARY:" ++ nl)%string); (EFormattedValue (EName "human_baseline_summary") "")])] []);
      SExpr (ECall (EName "print") [(EName "dash_line")] []);
      SExpr (ECall (EName "print") [(EJoinedStr [(EStr ("ORIGINAL MODEL:" ++ nl)%string); (EFormattedValue (EName "original_model_text_output") "")])] []);
      SExpr (ECall (EName "print") [(EName "dash_line")] []);
      SExpr (ECall (EName "print") [(EJoinedStr [(EStr ("INSTRUCT MODEL:" ++ nl)%string); (EFormattedValue (EName "instruct_model_text_output") "")])] []) ]);
  (21,
    [
      SAssign [(EName "rouge")]
        (ECall (EAttribute (EName "evaluate") "load") [(EStr "rouge")] []) ]);
  (23,
    [
      SAssign [(EName "dialogues")]
        (ESubscript (ESubscript (ESubscript (EName "dataset") (EStr "test")) (ESlice (Some (ENum 0)) (Some (ENum 10)))) (EStr "dialogue"));
      SAssign [(EName "human_baseline_summaries")]
        (ESubscript (ESubscript (ESubscript (EName "dataset") (EStr "test")) (ESlice (Some (ENum 0)) (Some (ENum 10)))) (EStr "summary"));
      SAssign [(EName "original_model_summaries")]
        (EList []);
      SAssign [(EName "instruct_model_summaries")]
        (EList []);
      SFor (ETuple [(EName "_"); (EName "dialogue")]) (ECall (EName "enumerate") [(ECall (EName "tqdm") [(EName "dialogues")] [])] []) [
        SAssign [(EName "prompt")]
          (EJoinedStr [(EStr (nl ++ "Summarize the following conversation." ++ nl ++ nl)%string); (EFormattedValue (EName "dialogue") ""); (EStr (nl ++ nl ++ "Summary: ")%string)]);
        SAssign [(EName "input_ids")]
          (EAttribute (ECall (EName "tokenizer") [(EName "prompt")] [((Some "return_tensors"), (EStr "pt"))]) "input_ids");
        SAssign [(EName "original_model_outputs")]
          (ECall (EAttribute (EName "original_model") "generate") [] [((Some "input_ids"), (EName "input_ids")); ((Some "generation_config"), (ECall (EName "GenerationConfig") [] [((Some "max_new_tokens"), (ENum 200))]))]);
        SAssign [(EName "original_model_text_output")]
          (ECall (EAttribute (EName "tokenizer") "decode") [(ESubscript (EName "original_model_outputs") (ENum 0))] [((Some "skip_special_tokens"), (EConst "True"))]);
        SExpr (ECall (EAttribute (EName "original_model_summaries") "append") [(EName "original_model_text_output")] []);
        SAssign [(EName "instruct_model_outputs")]
          (ECall (EAttribute (EName "instruct_model") "generate") [] [((Some "input_ids"), (EName "input_ids")); ((Some "generation_config"), (ECall (EName "GenerationConfig") [] [((Some "max_new_tokens"), (ENum 200))]))]);
        SAssign [(EName "instruct_model_text_output")]
          (ECall (EAttribute (EName "tokenizer") "decode") [(ESubscript (EName "instruct_model_outputs") (ENum 0))] [((Some "skip_special_tokens"), (EConst "True"))]);
        SExpr (ECall (EAttribute (EName "instruct_model_summaries") "append") [(EName "instruct_model_text_output")] []) ];
      SAssign [(EName "zipped_summaries")]
        (ECall (EName "list") [(ECall (EName "zip") [(EName "human_baseline_summaries"); (EName "original_model_summaries"); (EName "instruct_model_summaries")] [])] []);
      SExpr (ECall (EAttribute (EName "pd") "set_option") [(EStr "display.max_colwidth"); (ENum 500)] []);
      SAssign [(EName "df")]
        (ECall (EAttribute (EName "pd") "DataFrame") [(EName "zipped_summaries")] [((Some "columns"), (EList [(EStr "human_baseline_summaries"); (EStr "original_model_summaries"); (EStr "instruct_model_summaries")]))]);
      SExpr (EName "df") ]);
  (24,
    [
      SAssign [(EName "original_model_results")]
        (ECall (EAttribute (EName "rouge") "compute") [] [((Some "predictions"), (EName "original_model_summaries")); ((Some "references"), (ESubscript (EName "human_baseline_summaries") (ESlice (Some (ENum 0)) (Some (ECall (EName "len") [(EName "original_model_summaries")] []))))); ((Some "use_aggregator"), (EConst "True")); ((Some "use_stemmer"), (EConst "True"))]);
      SAssign [(EName "instruct_model_results")]
        (ECall (EAttribute (EName "rouge") "compute") [] [((Some "predictions"), (EName "instruct_model_summaries")); ((Some "references"), (ESubscript (EName "human_baseline_summaries") (ESlice (Some (ENum 0)) (Some (ECall (EName "len") [(EName "instruct_model_summaries")] []))))); ((Some "use_aggregator"), (EConst "True")); ((Some "use_stemmer"), (EConst "True"))]);
      SExpr (ECall (EName "print") [(EStr "ORIGINAL MODEL:")] []);
      SExpr (ECall (EName "print") [(EName "original_model_results")] []);
      SExpr (ECall (EName "print") [(EStr "INSTRUCT MODEL:")] []);
      SExpr (ECall (EName "print") [(EName "instruct_model_results")] []) ]);
  (25,
    [
      SAssign [(EName "results")]
        (ECall (EAttribute (EName "pd") "read_csv") [(EStr "data-peft/dialogue-summary-training-results-peft.csv")] []);
      SAssign [(EName "human_baseline_summaries")]
        (EAttribute (ESubscript (EName "results") (EStr "human_baseline_summaries")) "values");
      SAssign [(EName "original_model_summaries")]
        (EAttribute (ESubscript (EName "results") (EStr "original_model_summaries")) "values");
      SAssign [(EName "instruct_model_summaries")]
        (EAttribute (ESubscript (EName "results") (EStr "instruct_model_summaries")) "values");
      SAssign [(EName "original_model_results")]
        (ECall (EAttribute (EName "rouge") "compute") [] [((Some "predictions"), (EName "original_model_summaries")); ((Some "references"), (ESubscript (EName "human_baseline_summaries") (ESlice (Some (ENum 0)) (Some (ECall (EName "len") [(EName "original_model_summaries")] []))))); ((Some "use_aggregator"), (EConst "True")); ((Some "use_stemmer"), (EConst "True"))]);
      SAssign [(EName "instruct_model_results")]
        (ECall (EAttribute (EName "rouge") "compute") [] [((Some "predictions"), (EName "instruct_model_summaries")); ((Some "references"), (ESubscript (EName "human_baseline_summaries") (ESlice (Some (ENum 0)) (Some (ECall (EName "len") [(EName "instruct_model_summaries")] []))))); ((Some "use_aggregator"), (EConst "True")); ((Some "use_stemmer"), (EConst "True"))]);
      SExpr (ECall (EName "print") [(EStr "ORIGINAL MODEL:")] []);
      SExpr (ECall (EName "print") [(EName "original_model_results")] []);
      SExpr (ECall (EName "print") [(EStr "INSTRUCT MODEL:")] []);
      SExpr (ECall (EName "print") [(EName "instruct_model_results")] []) ]);
  (26,
    [
      SExpr (ECall (EName "print") [(EStr "Absolute percentage improvement of INSTRUCT MODEL over HUMAN BASELINE")] []);
      SAssign [(EName "improvement")]
        (EBinOp "-" (ECall (EAttribute (EName "np") "array") [(ECall (EName "list") [(ECall (EAttribute (EName "instruct_model_results") "values") [] [])] [])] []) (ECall (EAttribute (EName "np") "array") [(ECall (EName "list") [(ECall (EAttribute (EName "original_model_results") "values") [] [])] [])] []));
      SFor (ETuple [(EName "key"); (EName "value")]) (ECall (EName "zip") [(ECall (EAttribute (EName "instruct_model_results") "keys") [] []); (EName "improvement")] []) [
        SExpr (ECall (EName "print") [(EJoinedStr [(EFormattedValue (EName "key") ""); (EStr ": "); (EFormattedValue (EBinOp "*" (EName "value") (ENum 100)) ".2f"); (EStr "%")])] []) ] ]);
  (29,
    [
      SImportFrom "peft" [("LoraConfig", None); ("get_peft_model", None); ("TaskType", None)];
      SAssign [(EName "lora_config")]
        (ECall (EName "LoraConfig") [] [((Some "r"), (ENum 32)); ((Some "lora_alpha"), (ENum 32)); ((Some "target_modules"), (EList [(EStr "q"); (EStr "v")])); ((Some "lora_dropout"), (EConst "0.05")); ((Some "bias"), (EStr "none")); ((Some "task_type"), (EAttribute (EName "TaskType") "SEQ_2_SEQ_LM"))]) ]);
  (30,
    [
      SAssign [(EName "peft_model")]
        (ECall (EName "get_peft_model") [(EName "original_model"); (EName "lora_config")] []);
      SExpr (ECall (EName "print") [(ECall (EName "print_number_of_trainable_model_parameters") [(EName "peft_model")] [])] []) ]);
  (31,
    [
      SAssign [(EName "output_dir")]
        (EJoinedStr [(EStr "./peft-dialogue-summary-training-"); (EFormattedValue (ECall (EName "str") [(ECall (EName "int") [(ECall (EAttribute (EName "time") "time") [] [])] [])] []) "")]);
      SAssign [(EName "peft_training_args")]
        (ECall (EName "TrainingArguments") [] [((Some "output_dir"), (EName "output_dir")); ((Some "auto_find_batch_size"), (EConst "True")); ((Some "learning_rate"), (EConst "1e-3")); ((Some "num_train_epochs"), (ENum 1)); ((Some "logging_steps"), (ENum 1)); ((Some "max_steps"), (ENum 1))]);
      SAssign [(EName "peft_trainer")]
        (ECall (EName "Trainer") [] [((Some "model"), (EName "peft_model")); ((Some "args"), (EName "peft_training_args")); ((Some "train_dataset"), (ESubscript (EName "tokenized_datasets") (EStr "train")))]) ]);
  (32,
    [
      SExpr (ECall (EAttribute (EName "peft_trainer") "train") [] []);
      SAssign [(EName "peft_model_path")]
        (EStr "./peft-dialogue-summary-checkpoint-local");
      SExpr (ECall (EAttribute (EAttribute (EName "peft_trainer") "model") "save_pretrained") [(EName "peft_model_path")] []);
      SExpr (ECall (EAttribute (EName "tokenizer") "save_pretrained") [(EName "peft_model_path")] []) ]);
  (33,
    [
      SShell ["aws s3 cp --recursive s3://dsoaws/models/peft-dialogue-summary-checkpoint/ ./peft-dialogue-summary-checkpoint-from-s3/"] ]);
  (34,
    [
      SShell ["ls -al ./peft-dialogue-summary-checkpoint-from-s3/adapter_model.bin"] ]);
  (35,
    [
      SImportFrom "peft" [("PeftModel", None); ("PeftConfig", None)];
      SAssign [(EName "peft_model_base")]
        (ECall (EAttribute (EName "AutoModelForSeq2SeqLM") "from_pretrained") [(EStr "google/flan-t5-base")] [((Some "torch_dtype"), (EAttribute (EName "torch") "bfloat16"))]);
      SAssign [(EName "tokenizer")]
        (ECall (EAttribute (EName "AutoTokenizer") "from_pretrained") [(EStr "google/flan-t5-base")] []);
      SAssign [(EName "peft_model")]
        (ECall (EAttribute (EName "PeftModel") "from_pretrained") [(EName "peft_model_base"); (EStr "./peft-dialogue-summary-checkpoint-from-s3/")] [((Some "torch_dtype"), (EAttribute (EName "torch") "bfloat16")); ((Some "is_trainable"), (EConst "False"))]) ]);
  (36,
    [
      SExpr (ECall (EName "print") [(ECall (EName "print_number_of_trainable_model_parameters") [(EName "peft_model")] [])] []) ]);
  (38,
    [
      SAssign [(EName "index")]
        (ENum 200);
      SAssign [(EName "dialogue")]
        (ESubscript (ESubscript (ESubscript (EName "dataset") (EStr "test")) (EName "index")) (EStr "dialogue"));
      SAssign [(EName "baseline_human_summary")]
        (ESubscript (ESubscript (ESubscript (EName "dataset") (EStr "test")) (EName "index")) (EStr "summary"));
      SAssign [(EName "prompt")]
        (EJoinedStr [(EStr (nl ++ "Summarize the following conversation." ++ nl ++ nl)%string); (EFormattedValue (EName "dialogue") ""); (EStr (nl ++ nl ++ "Summary: ")%string)]);
      SAssign [(EName "input_ids")]
        (EAttribute (ECall (EName "tokenizer") [(EName "prompt")] [((Some "return_tensors"), (EStr "pt"))]) "input_ids");
      SAssign [(EName "original_model_outputs")]
        (ECall (EAttribute (EName "original_model") "generate") [] [((Some "input_ids"), (EName "input_ids")); ((Some "generation_config"), (ECall (EName "GenerationConfig") [] [((Some "max_new_tokens"), (ENum 200)); ((Some "num_beams"), (ENum 1))]))]);
      SAssign [(EName "original_model_text_output")]
        (ECall (EAttribute (EName "tokenizer") "decode") [(ESubscript (EName "original_model_outputs") (ENum 0))] [((Some "skip_special_tokens"), (EConst "True"))]);
      SAssign [(EName "instruct_model_outputs")]
        (ECall (EAttribute (EName "instruct_model") "generate") [] [((Some "input_ids"), (EName "input_ids")); ((Some "generation_config"), (ECall (EName "GenerationConfig") [] [((Some "max_new_tokens"), (ENum 200)); ((Some "num_beams"), (ENum 1))]))]);
      SAssign [(EName "instruct_model_text_output")]
        (ECall (EAttribute (EName "tokenizer") "decode") [(ESubscript (EName "instruct_model_outputs") (ENum 0))] [((Some "skip_special_tokens"), (EConst "True"))]);
      SAssign [(EName "peft_model_outputs")]
        (ECall (EAttribute (EName "peft_model") "generate") [] [((Some "input_ids"), (EName "input_ids")); ((Some "generation_config"), (ECall (EName "GenerationConfig") [] [((Some "max_new_tokens"), (ENum 200)); ((Some "num_beams"), (ENum 1))]))]);
      SAssign [(EName "peft_model_text_output")]
        (ECall (EAttribute (EName "tokenizer") "decode") [(ESubscript (EName "peft_model_outputs") (ENum 0))] [((Some "skip_special_tokens"), (EConst "True"))]);
      SExpr (ECall (EName "print") [(EName "dash_line")] []);
      SExpr (ECall (EName "print") [(EJoinedStr [(EStr ("BASELINE HUMAN SUMMARY:" ++ nl)%string); (EFormattedValue (EName "human_baseline_summary") "")])] []);
      SExpr (ECall (EName "print") [(EName "dash_line")] []);
      SExpr (ECall (EName "print") [(EJoinedStr [(EStr ("ORIGINAL MODEL:" ++ nl)%string); (EFormattedValue (EName "original_model_text_output") "")])] []);
      SExpr (ECall (EName "print") [(EName "dash_line")] []);
      SExpr (ECall (EName "print") [(EJoinedStr [(EStr ("INSTRUCT MODEL:" ++ nl)%string); (EFormattedValue (EName "instruct_model_text_output") "")])] []);
      SExpr (ECall (EName "print") [(EName "dash_line")] []);
      SExpr (ECall (EName "print") [(EJoinedStr [(EStr "PEFT MODEL: "); (EFormattedValue (EName "peft_model_text_output") "")])] []) ]);
  (40,
    [
      SAssign [(EName "dialogues")]
        (ESubscript (ESubscript (ESubscript (EName "dataset") (EStr "test")) (ESlice (Some (ENum 0)) (Some (ENum 10)))) (EStr "dialogue"));
      SAssign [(EName "human_baseline_summaries")]
        (ESubscript (ESubscript (ESubscript (EName "dataset") (EStr "test")) (ESlice (Some (ENum 0)) (Some (ENum 10)))) (EStr "summary"));
      SAssign [(EName "original_model_summaries")]
        (EList []);
      SAssign [(EName "instruct_model_summaries")]
        (EList []);
      SAssign [(EName "peft_model_summaries")]
        (EList []);
      SFor (ETuple [(EName "idx"); (EName "dialogue")]) (ECall (EName "enumerate") [(ECall (EName "tqdm") [(EName "dialogues")] [])] []) [
        SAssign [(EName "prompt")]
          (EJoinedStr [(EStr (nl ++ "Summarize the following conversation." ++ nl ++ nl)%string); (EFormattedValue (EName "dialogue") ""); (EStr (nl ++ nl ++ "Summary: ")%string)]);
        SAssign [(EName "input_ids")]
          (EAttribute (ECall (EName "tokenizer") [(EName "prompt")] [((Some "return_tensors"), (EStr "pt"))]) "input_ids");
        SAssign [(EName "human_baseline_text_output")]
          (ESubscript (EName "human_baseline_summaries") (EName "idx"));
        SAssign [(EName "original_model_outputs")]
          (ECall (EAttribute (EName "original_model") "generate") [] [((Some "input_ids"), (EName "input_ids")); ((Some "generation_config"), (ECall (EName "GenerationConfig") [] [((Some "max_new_tokens"), (ENum 200))]))]);
        SAssign [(EName "original_model_text_output")]
          (ECall (EAttribute (EName "tokenizer") "decode") [(ESubscript (EName "original_model_outputs") (ENum 0))] [((Some "skip_special_tokens"), (EConst "True"))]);
        SAssign [(EName "instruct_model_outputs")]
          (ECall (EAttribute (EName "instruct_model") "generate") [] [((Some "input_ids"), (EName "input_ids")); ((Some "generation_config"), (ECall (EName "GenerationConfig") [] [((Some "max_new_tokens"), (ENum 200))]))]);
        SAssign [(EName "instruct_model_text_output")]
          (ECall (EAttribute (EName "tokenizer") "decode") [(ESubscript (EName "instruct_model_outputs") (ENum 0))] [((Some "skip_special_tokens"), (EConst "True"))]);
        SAssign [(EName "peft_model_outputs")]
          (ECall (EAttribute (EName "peft_model") "generate") [] [((Some "input_ids"), (EName "input_ids")); ((Some "generation_config"), (ECall (EName "GenerationConfig") [] [((Some "max_new_tokens"), (ENum 200))]))]);
        SAssign [(EName "peft_model_text_output")]
          (ECall (EAttribute (EName "tokenizer") "decode") [(ESubscript (EName "peft_model_outputs") (ENum 0))] [((Some "skip_special_tokens"), (EConst "True"))]);
        SExpr (ECall (EAttribute (EName "original_model_summaries") "append") [(EName "original_model_text_output")] []);
        SExpr (ECall (EAttribute (EName "instruct_model_summaries") "append") [(EName "instruct_model_text_output")] []);
        SExpr (ECall (EAttribute (EName "peft_model_summaries") "append") [(EName "peft_model_text_output")] []) ];
      SAssign [(EName "zipped_summaries")]
        (ECall (EName "list") [(ECall (EName "zip") [(EName "human_baseline_summaries"); (EName "original_model_summaries"); (EName "instruct_model_summaries"); (EName "peft_model_summaries")] [])] []);
      SAssign [(EName "df")]
        (ECall (EAttribute (EName "pd") "DataFrame") [(EName "zipped_summaries")] [((Some "columns"), (EList [(EStr "human_baseline_summaries"); (EStr "original_model_summaries"); (EStr "instruct_model_summaries"); (EStr "peft_model_summaries")]))]);
      SExpr (EName "df") ]);
  (41,
    [
      SAssign [(EName "rouge")]
        (ECall (EAttribute (EName "evaluate") "load") [(EStr "rouge")] []);
      SAssign [(EName "original_model_results")]
        (ECall (EAttribute (EName "rouge") "compute") [] [((Some "predictions"), (EName "original_model_summaries")); ((Some "references"), (ESubscript (EName "human_baseline_summaries") (ESlice (Some (ENum 0)) (Some (ECall (EName "len") [(EName "original_model_summaries")] []))))); ((Some "use_aggregator"), (EConst "True")); ((Some "use_stemmer"), (EConst "True"))]);
      SAssign [(EName "instruct_model_results")]
        (ECall (EAttribute (EName "rouge") "compute") [] [((Some "predictions"), (EName "instruct_model_summaries")); ((Some "references"), (ESubscript (EName "human_baseline_summaries") (ESlice (Some (ENum 0)) (Some (ECall (EName "len") [(EName "instruct_model_summaries")] []))))); ((Some "use_aggregator"), (EConst "True")); ((Some "use_stemmer"), (EConst "True"))]);
      SAssign [(EName "peft_model_results")]
        (ECall (EAttribute (EName "rouge") "compute") [] [((Some "predictions"), (EName "peft_model_summaries")); ((Some "references"), (ESubscript (EName "human_baseline_summaries") (ESlice (Some (ENum 0)) (Some (ECall (EName "len") [(EName "peft_model_summaries")] []))))); ((Some "use_aggregator"), (EConst "True")); ((Some "use_stemmer"), (EConst "True"))]);
      SExpr (ECall (EName "print") [(EStr "ORIGINAL MODEL:")] []);
      SExpr (ECall (EName "print") [(EName "original_model_results")] []);
      SExpr (ECall (EName "print") [(EStr "INSTRUCT MODEL:")] []);
      SExpr (ECall (EName "print") [(EName "instruct_model_results")] []);
      SExpr (ECall (EName "print") [(EStr "PEFT MODEL:")] []);
      SExpr (ECall (EName "print") [(EName "peft_model_results")] []) ]);
  (42,
    [
      SAssign [(EName "human_baseline_summaries")]
        (EAttribute (ESubscript (EName "results") (EStr "human_baseline_summaries")) "values");
      SAssign [(EName "original_model_summaries")]
        (EAttribute (ESubscript (EName "results") (EStr "original_model_summaries")) "values");
      SAssign [(EName "instruct_model_summaries")]
        (EAttribute (ESubscript (EName "results") (EStr "instruct_model_summaries")) "values");
      SAssign [(EName "peft_model_summaries")]
        (EAttribute (ESubscript (EName "results") (EStr "peft_model_summaries")) "values");
      SAssign [(EName "original_model_results")]
        (ECall (EAttribute (EName "rouge") "compute") [] [((Some "predictions"), (EName "original_model_summaries")); ((Some "references"), (ESubscript (EName "human_baseline_summaries") (ESlice (Some (ENum 0)) (Some (ECall (EName "len") [(EName "original_model_summaries")] []))))); ((Some "use_aggregator"), (EConst "True")); ((Some "use_stemmer"), (EConst "True"))]);
      SAssign [(EName "instruct_model_results")]
        (ECall (EAttribute (EName "rouge") "compute") [] [((Some "predictions"), (EName "instruct_model_summaries")); ((Some "references"), (ESubscript (EName "human_baseline_summaries") (ESlice (Some (ENum 0)) (Some (ECall (EName "len") [(EName "instruct_model_summaries")] []))))); ((Some "use_aggregator"), (EConst "True")); ((Some "use_stemmer"), (EConst "True"))]);
      SAssign [(EName "peft_model_results")]
        (ECall (EAttribute (EName "rouge") "compute") [] [((Some "predictions"), (EName "peft_model_summaries")); ((Some "references"), (ESubscript (EName "human_baseline_summaries") (ESlice (Some (ENum 0)) (Some (ECall (EName "len") [(EName "peft_model_summaries")] []))))); ((Some "use_aggregator"), (EConst "True")); ((Some "use_stemmer"), (EConst "True"))]);
      SExpr (ECall (EName "print") [(EStr "ORIGINAL MODEL:")] []);
      SExpr (ECall (EName "print") [(EName "original_model_results")] []);
      SExpr (ECall (EName "print") [(EStr "INSTRUCT MODEL:")] []);
      SExpr (ECall (EName "print") [(EName "instruct_model_results")] []);
      SExpr (ECall (EName "print") [(EStr "PEFT MODEL:")] []);
      SExpr (ECall (EName "print") [(EName "peft_model_results")] []) ]);
  (43,
    [
      SExpr (ECall (EName "print") [(EStr "Absolute percentage improvement of PEFT MODEL over HUMAN BASELINE")] []);
      SAssign [(EName "improvement")]
        (EBinOp "-" (ECall (EAttribute (EName "np") "array") [(ECall (EName "list") [(ECall (EAttribute (EName "peft_model_results") "values") [] [])] [])] []) (ECall (EAttribute (EName "np") "array") [(ECall (EName "list") [(ECall (EAttribute (EName "original_model_results") "values") [] [])] [])] []));
      SFor (ETuple [(EName "key"); (EName "value")]) (ECall (EName "zip") [(ECall (EAttribute (EName "peft_model_results") "keys") [] []); (EName "improvement")] []) [
        SExpr (ECall (EName "print") [(EJoinedStr [(EFormattedValue (EName "key") ""); (EStr ": "); (EFormattedValue (EBinOp "*" (EName "value") (ENum 100)) ".2f"); (EStr "%")])] []) ] ]);
  (44,
    [
      SExpr (ECall (EName "print") [(EStr "Absolute percentage improvement of PEFT MODEL over INSTRUCT MODEL")] []);
      SAssign [(EName "improvement")]
        (EBinOp "-" (ECall (EAttribute (EName "np") "array") [(ECall (EName "list") [(ECall (EAttribute (EName "peft_model_results") "values") [] [])] [])] []) (ECall (EAttribute (EName "np") "array") [(ECall (EName "list") [(ECall (EAttribute (EName "instruct_model_results") "values") [] [])] [])] []));
      SFor (ETuple [(EName "key"); (EName "value")]) (ECall (EName "zip") [(ECall (EAttribute (EName "peft_model_results") "keys") [] []); (EName "improvement")] []) [
        SExpr (ECall (EName "print") [(EJoinedStr [(EFormattedValue (EName "key") ""); (EStr ": "); (EFormattedValue (EBinOp "*" (EName "value") (ENum 100)) ".2f"); (EStr "%")])] []) ] ]);
  (46,
    [
      SCellMagic "html"
        [ "";
          "<p><b>Shutting down your kernel for this notebook to release resources.</b></p>";
          ("<button class=" ++ dq ++ "sm-command-button" ++ dq ++ " data-commandlinker-command=" ++ dq ++ "kernelmenu:shutdown" ++ dq ++ " style=" ++ dq ++ "display:none;" ++ dq ++ ">Shutdown Kernel</button>")%string;
          "        ";
          "<script>";
          "try {";
          ("    els = document.getElementsByClassName(" ++ dq ++ "sm-command-button" ++ dq ++ ");")%string;
          "    els[0].click();";
          "}";
          "catch(err) {";
          "    // NoOp";
          "}    ";
          "</script>" ] ])
  ].

(** ** The RLHF notebook (src/unnamed/part_000, second notebook: Fine-Tune
       with Reinforcement Learning (PPO) and PEFT to Generate Less-Toxic
       Summaries) *)
Definition rlhf_notebook : notebook :=
  [
  (2,
    [
      SImportFrom "transformers" [("pipeline", None); ("AutoTokenizer", None); ("AutoModelForSequenceClassification", None); ("AutoModelForSeq2SeqLM", None); ("GenerationConfig", None)];
      SImportFrom "datasets" [("load_dataset", None)];
      SImportFrom "peft" [("PeftModel", None); ("PeftConfig", None); ("LoraConfig", None); ("TaskType", None)];
      SImportFrom "trl" [("PPOTrainer", None); ("PPOConfig", None); ("AutoModelForSeq2SeqLMWithValueHead", None)];
      SImportFrom "trl" [("create_reference_model", None)];
      SImportFrom "trl.core" [("LengthSampler", None)];
      SImport [("torch", None)];
      SImport [("evaluate", None)];
      SImport [("numpy", (Some "np"))];
      SImport [("pandas", (Some "pd"))];
      SImportFrom "tqdm" [("tqdm", None)];
      SExpr (ECall (EAttribute (EName "tqdm") "pandas") [] []) ]);
  (4,
    [
      SAssign [(EName "model_name")]
        (EStr "google/flan-t5-base");
      SAssign [(EName "huggingface_dataset_name")]
        (EStr "knkarthick/dialogsum");
      SAssign [(EName "dataset_original")]
        (ECall (EName "load_dataset") [(EName "huggingface_dataset_name")] []);
      SExpr (EName "dataset_original") ]);
  (5,
    [
      SFunctionDef "build_dataset" ["model_name"; "dataset_name"; "input_min_text_length"; "input_max_text_length"] [
        SAssign [(EName "dataset")]
          (ECall (EName "load_dataset") [(EName "dataset_name")] [((Some "split"), (EStr "train"))]);
        SAssign [(EName "dataset")]
          (ECall (EAttribute (EName "dataset") "filter") [(ELambda ["x"] (EBinOp "and" (EBinOp ">" (ECall (EName "len") [(ESubscript (EName "x") (EStr "dialogue"))] []) (EName "input_min_text_length")) (EBinOp "<=" (ECall (EName "len") [(ESubscript (EName "x") (EStr "dialogue"))] []) (EName "input_max_text_length"))))] [((Some "batched"), (EConst "False"))]);
        SAssign [(EName "tokenizer")]
          (ECall (EAttribute (EName "AutoTokenizer") "from_pretrained") [(EName "model_name")] [((Some "device_map"), (EStr "auto"))]);
        SFunctionDef "tokenize" ["sample"] [
          SAssign [(EName "prompt")]
            (EJoinedStr [(EStr (nl ++ "Summarize the following conversation." ++ nl ++ nl)%string); (EFormattedValue (ESubscript (EName "sample") (EStr "dialogue")) ""); (EStr (nl ++ nl ++ "Summary:" ++ nl)%string)]);
          SAssign [(ESubscript (EName "sample") (EStr "input_ids"))]
            (ECall (EAttribute (EName "tokenizer") "encode") [(EName "prompt")] []);
          SAssign [(ESubscript (EName "sample") (EStr "query"))]
            (ECall (EAttribute (EName "tokenizer") "decode") [(ESubscript (EName "sample") (EStr "input_ids"))] []);
          SReturn (Some (EName "sample")) ];
        SAssign [(EName "dataset")]
          (ECall (EAttribute (EName "dataset") "map") [(EName "tokenize")] [((Some "batched"), (EConst "False"))]);
        SExpr (ECall (EAttribute (EName "dataset") "set_format") [] [((Some "type"), (EStr "torch"))]);
        SAssign [(EName "dataset_splits")]
          (ECall (EAttribute (EName "dataset") "train_test_split") [] [((Some "test_size"), (EConst "0.2")); ((Some "shuffle"), (EConst "False")); ((Some "seed"), (ENum 42))]);
        SReturn (Some (EName "dataset_splits")) ];
      SAssign [(EName "dataset")]
        (ECall (EName "build_dataset") [] [((Some "model_name"), (EName "model_name")); ((Some "dataset_name"), (EName "huggingface_dataset_name")); ((Some "input_min_text_length"), (ENum 200)); ((Some "input_max_text_length"), (ENum 1000))]);
      SExpr (ECall (EName "print") [(EName "dataset")] []) ]);
  (6,
    [
      SShell ["aws s3 cp --recursive s3://dsoaws/models/peft-dialogue-summary-checkpoint/ ./peft-dialogue-summary-checkpoint-from-s3/"] ]);
  (7,
    [
      SShell ["ls -alh ./peft-dialogue-summary-checkpoint-from-s3/adapter_model.bin"] ]);
  (8,
    [
      SFunctionDef "print_number_of_trainable_model_parameters" ["model"] [
        SAssign [(EName "trainable_model_params")]
          (ENum 0);
        SAssign [(EName "all_model_params")]
          (ENum 0);
        SFor (ETuple [(EName "_"); (EName "param")]) (ECall (EAttribute (EName "model") "named_parameters") [] []) [
          SAugAssign (EName "all_model_params") "+" (ECall (EAttribute (EName "param") "numel") [] []);
          SIf (EAttribute (EName "param") "requires_grad") [
            SAugAssign (EName "trainable_model_params") "+" (ECall (EAttribute (EName "param") "numel") [] []) ] [] ];
        SReturn (Some (EJoinedStr [(EStr (nl ++ "trainable model parameters: ")%string); (EFormattedValue (EName "trainable_model_params") ""); (EStr (nl ++ "all model parameters: ")%string); (EFormattedValue (EName "all_model_params") ""); (EStr (nl ++ "percentage of trainable model parameters: ")%string); (EFormattedValue (EBinOp "/" (EBinOp "*" (ENum 100) (EName "trainable_model_params")) (EName "all_model_params")) ".2f"); (EStr "%")])) ] ]);
  (10,
    [
      SAssign [(EName "lora_config")]
        (ECall (EName "LoraConfig") [] [((Some "r"), (ENum 32)); ((Some "lora_alpha"), (ENum 32)); ((Some "target_modules"), (EList [(EStr "q"); (EStr "v")])); ((Some "lora_dropout"), (EConst "0.05")); ((Some "bias"), (EStr "none")); ((Some "task_type"), (EAttribute (EName "TaskType") "SEQ_2_SEQ_LM"))]);
      SAssign [(EName "model")]
        (ECall (EAttribute (EName "AutoModelForSeq2SeqLM") "from_pretrained") [(EName "model_name")] [((Some "torch_dtype"), (EAttribute (EName "torch") "bfloat16"))]);
      SAssign [(EName "peft_model")]
        (ECall (EAttribute (EName "PeftModel") "from_pretrained") [(EName "model"); (EStr "./peft-dialogue-summary-checkpoint-from-s3/")] [((Some "lora_config"), (EName "lora_config")); ((Some "torch_dtype"), (EAttribute (EName "torch") "bfloat16")); ((Some "device_map"), (EStr "auto")); ((Some "is_trainable"), (EConst "True"))]);
      SExpr (ECall (EName "print") [(EJoinedStr [(EStr ("PEFT model parameters to be updated:" ++ nl)%string); (EFormattedValue (ECall (EName "print_number_of_trainable_model_parameters") [(EName "peft_model")] []) ""); (EStr nl)])] []) ]);
  (11,
    [
      SAssign [(EName "ppo_model")]
        (ECall (EAttribute (EName "AutoModelForSeq2SeqLMWithValueHead") "from_pretrained") [(EName "peft_model")] [((Some "torch_dtype"), (EAttribute (EName "torch") "bfloat16")); ((Some "is_trainable"), (EConst "True"))]);
      SExpr (ECall (EName "print") [(EJoinedStr [(EStr ("PPO model parameters to be updated (ValueHead + 769 params):" ++ nl)%string); (EFormattedValue (ECall (EName "print_number_of_trainable_model_parameters") [(EName "ppo_model")] []) ""); (EStr nl)])] []);
      SExpr (ECall (EName "print") [(EAttribute (EName "ppo_model") "v_head")] []) ]);
  (14,
    [
      SAssign [(EName "toxicity_model_name")]
        (EStr "facebook/roberta-hate-speech-dynabench-r4-target");
      SAssign [(EName "toxicity_tokenizer")]
        (ECall (EAttribute (EName "AutoTokenizer") "from_pretrained") [(EName "toxicity_model_name")] [((Some "device_map"), (EStr "auto"))]);
      SAssign [(EName "toxicity_model")]
        (ECall (EAttribute (EName "AutoModelForSequenceClassification") "from_pretrained") [(EName "toxicity_model_name")] [((Some "device_map"), (EStr "auto"))]);
      SExpr (ECall (EName "print") [(EAttribute (EAttribute (EName "toxicity_model") "config") "id2label")] []) ]);
  (16,
    [
      SAssign [(EName "non_toxic_text")]
        (EStr "I want to kiss you");
      SAssign [(EName "toxicity_input_ids")]
        (EAttribute (ECall (EName "toxicity_tokenizer") [(EName "non_toxic_text")] [((Some "return_tensors"), (EStr "pt"))]) "input_ids");
      SAssign [(EName "logits")]
        (EAttribute (ECall (EName "toxicity_model") [] [((Some "input_ids"), (EName "toxicity_input_ids"))]) "logits");
      SExpr (ECall (EName "print") [(EJoinedStr [(EStr "logits [not hate, hate]: "); (EFormattedValue (ESubscript (ECall (EAttribute (EName "logits") "tolist") [] []) (ENum 0)) "")])] []);
      SAssign [(EName "probabilities")]
        (ESubscript (ECall (EAttribute (ECall (EAttribute (EName "logits") "softmax") [] [((Some "dim"), (EUnaryOp "-" (ENum 1)))]) "tolist") [] []) (ENum 0));
      SExpr (ECall (EName "print") [(EJoinedStr [(EStr "probabilities [not hate, hate]: "); (EFormattedValue (EName "probabilities") "")])] []);
      SAssign [(EName "not_hate_index")]
        (ENum 0);
      SAssign [(EName "nothate_reward")]
        (ECall (EAttribute (ESubscript (EName "logits") (ETuple [(ESlice None None); (EName "not_hate_index")])) "tolist") [] []);
      SExpr (ECall (EName "print") [(EJoinedStr [(EStr "reward (high): "); (EFormattedValue (EName "nothate_reward") "")])] []) ]);
  (17,
    [
      SAssign [(EName "toxic_text")]
        (EStr "You are disgusting and terrible and i damn hate you");
      SAssign [(EName "toxicity_input_ids")]
        (EAttribute (ECall (EName "toxicity_tokenizer") [(EName "toxic_text")] [((Some "return_tensors"), (EStr "pt"))]) "input_ids");
      SAssign [(EName "logits")]
        (EAttribute (ECall (EName "toxicity_model") [(EName "toxicity_input_ids")] []) "logits");
      SExpr (ECall (EName "print") [(EJoinedStr [(EStr "logits [not hate, hate]: "); (EFormattedValue (ESubscript (ECall (EAttribute (EName "logits") "tolist") [] []) (ENum 0)) "")])] []);
      SAssign [(EName "probabilities")]
        (ESubscript (ECall (EAttribute (ECall (EAttribute (EName "logits") "softmax") [] [((Some "dim"), (EUnaryOp "-" (ENum 1)))]) "tolist") [] []) (ENum 0));
      SExpr (ECall (EName "print") [(EJoinedStr [(EStr "probabilities [not hate, hate]: "); (EFormattedValue (EName "probabilities") "")])] []);
      SAssign [(EName "nothate_reward")]
        (ECall (EAttribute (ESubscript (EName "logits") (ETuple [(ESlice None None); (EName "not_hate_index")])) "tolist") [] []);
      SExpr (ECall (EName "print") [(EJoinedStr [(EStr "reward (low): "); (EFormattedValue (EName "nothate_reward") "")])] []) ]);
  (18,
    [
      SAssign [(EName "device")]
        (EIfExp (ECall (EAttribute (EAttribute (EName "torch") "cuda") "is_available") [] []) (ENum 0) (EStr "cpu"));
      SAssign [(EName "sentiment_pipe")]
        (ECall (EName "pipeline") [(EStr "sentiment-analysis")] [((Some "model"), (EName "toxicity_model_name")); ((Some "device"), (EName "device"))]);
      SAssign [(EName "reward_logits_kwargs")]
        (EDict [((EStr "top_k"), (EConst "None")); ((EStr "function_to_apply"), (EStr "none")); ((EStr "batch_size"), (ENum 16))]);
      SAssign [(EName "reward_probabilities_kwargs")]
        (EDict [((EStr "top_k"), (EConst "None")); ((EStr "function_to_apply"), (EStr "softmax")); ((EStr "batch_size"), (ENum 16))]);
      SExpr (ECall (EName "print") [(EStr "Reward model output for non-toxic text:")] []);
      SExpr (ECall (EName "print") [(ECall (EName "sentiment_pipe") [(EName "non_toxic_text")] [(None, (EName "reward_logits_kwargs"))])] []);
      SExpr (ECall (EName "print") [(ECall (EName "sentiment_pipe") [(EName "non_toxic_text")] [(None, (EName "reward_probabilities_kwargs"))])] []);
      SExpr (ECall (EName "print") [(EStr (nl ++ "Reward model output for toxic text:")%string)] []);
      SExpr (ECall (EName "print") [(ECall (EName "sentiment_pipe") [(EName "toxic_text")] [(None, (EName "reward_logits_kwargs"))])] []);
      SExpr (ECall (EName "print") [(ECall (EName "sentiment_pipe") [(EName "toxic_text")] [(None, (EName "reward_probabilities_kwargs"))])] []) ]);
  (19,
    [
      SExpr (ECall (EName "print") [(ECall (EName "sentiment_pipe") [(EName "non_toxic_text")] [(None, (EName "reward_logits_kwargs"))])] []);
      SExpr (ECall (EName "print") [(ECall (EName "sentiment_pipe") [(EName "non_toxic_text")] [(None, (EName "reward_probabilities_kwargs"))])] []) ]);
  (20,
    [
      SExpr (ECall (EName "print") [(ECall (EName "sentiment_pipe") [(EName "toxic_text")] [(None, (EName "reward_logits_kwargs"))])] []);
      SExpr (ECall (EName "print") [(ECall (EName "sentiment_pipe") [(EName "toxic_text")] [(None, (EName "reward_probabilities_kwargs"))])] []) ]);
  (22,
    [
      SImport [("evaluate", None)];
      SAssign [(EName "toxicity_evaluator")]
        (ECall (EAttribute (EName "evaluate") "load") [(EStr "toxicity"); (EName "toxicity_model_name")] [((Some "module_type"), (EStr "measurement")); ((Some "toxic_label"), (EStr "hate"))]) ]);
  (23,
    [
      SAssign [(EName "toxicity_score")]
        (ECall (EAttribute (EName "toxicity_evaluator") "compute") [] [((Some "predictions"), (EList [(EName "non_toxic_text")]))]);
      SExpr (ECall (EName "print") [(EStr "Toxicity score for non-toxic text:")] []);
      SExpr (ECall (EName "print") [(ESubscript (EName "toxicity_score") (EStr "toxicity"))] []);
      SAssign [(EName "toxicity_score")]
        (ECall (EAttribute (EName "toxicity_evaluator") "compute") [] [((Some "predictions"), (EList [(EName "toxic_text")]))]);
      SExpr (ECall (EName "print") [(EStr (nl ++ "Toxicity score for toxic text:")%string)] []);
      SExpr (ECall (EName "print") [(ESubscript (EName "toxicity_score") (EStr "toxicity"))] []) ]);
  (24,
    [
      SFunctionDef "evaluate_toxicity" ["model"; "toxicity_evaluator"; "tokenizer"; "dataset"; "num_samples"] [
        SAssign [(EName "max_new_tokens")]
          (ENum 100);
        SAssign [(EName "toxicities")]
          (EList []);
        SAssign [(EName "input_texts")]
          (EList []);
        SFor (ETuple [(EName "i"); (EName "sample")]) (ECall (EName "tqdm") [(ECall (EName "enumerate") [(EName "dataset")] [])] []) [
          SAssign [(EName "input_text")]
            (ESubscript (EName "sample") (EStr "query"));
          SIf (EBinOp ">" (EName "i") (EName "num_samples")) [
            SBreak ] [];
          SAssign [(EName "input_ids")]
            (EAttribute (ECall (EName "tokenizer") [(EName "input_text")] [((Some "return_tensors"), (EStr "pt")); ((Some "padding"), (EConst "True"))]) "input_ids");
          SAssign [(EName "generation_config")]
            (ECall (EName "GenerationConfig") [] [((Some "max_new_tokens"), (EName "max_new_tokens")); ((Some "tok_k"), (EConst "0.0")); ((Some "top_p"), (EConst "1.0")); ((Some "do_sample"), (EConst "True"))]);
          SAssign [(EName "response_token_ids")]
            (ECall (EAttribute (EName "model") "generate") [] [((Some "input_ids"), (EName "input_ids")); ((Some "generation_config"), (EName "generation_config"))]);
          SAssign [(EName "generated_text")]
            (ECall (EAttribute (EName "tokenizer") "decode") [(ESubscript (EName "response_token_ids") (ENum 0))] [((Some "skip_special_tokens"), (EConst "True"))]);
          SAssign [(EName "toxicity_score")]
            (ECall (EAttribute (EName "toxicity_evaluator") "compute") [] [((Some "predictions"), (EList [(EBinOp "+" (EBinOp "+" (EName "input_text") (EStr " ")) (EName "generated_text"))]))]);
          SExpr (ECall (EAttribute (EName "toxicities") "extend") [(ESubscript (EName "toxicity_score") (EStr "toxicity"))] []) ];
        SAssign [(EName "mean")]
          (ECall (EAttribute (EName "np") "mean") [(EName "toxicities")] []);
        SAssign [(EName "std")]
          (ECall (EAttribute (EName "np") "std") [(EName "toxicities")] []);
        SReturn (Some (ETuple [(EName "mean"); (EName "std")])) ] ]);
  (25,
    [
      SAssign [(EName "tokenizer")]
        (ECall (EAttribute (EName "AutoTokenizer") "from_pretrained") [(EName "model_name")] [((Some "device_map"), (EStr "auto"))]);
      SAssign [(ETuple [(EName "mean_before_detoxification"); (EName "std_before_detoxification")])]
        (ECall (EName "evaluate_toxicity") [] [((Some "model"), (EName "ppo_model")); ((Some "toxicity_evaluator"), (EName "toxicity_evaluator")); ((Some "tokenizer"), (EName "tokenizer")); ((Some "dataset"), (ESubscript (EName "dataset") (EStr "test"))); ((Some "num_samples"), (ENum 10))]);
      SExpr (ECall (EName "print") [(EJoinedStr [(EStr "toxicity [mean, std] before detox: ["); (EFormattedValue (EName "mean_before_detoxification") ""); (EStr ", "); (EFormattedValue (EName "std_before_detoxification") ""); (EStr "]")])] []) ]);
  (28,
    [
      SAssign [(EName "ref_model")]
        (ECall (EName "create_reference_model") [(EName "ppo_model")] []);
      SExpr (ECall (EName "print") [(EJoinedStr [(EStr ("Reference model parameters to be updated:" ++ nl)%string); (EFormattedValue (ECall (EName "print_number_of_trainable_model_parameters") [(EName "ref_model")] []) ""); (EStr nl)])] []) ]);
  (30,
    [
      SImportFrom "trl" [("PPOConfig", None); ("PPOTrainer", None)];
      SAssign [(EName "learning_rate")]
        (EConst "1.41e-5");
      SAssign [(EName "max_ppo_epochs")]
        (ENum 1);
      SAssign [(EName "mini_batch_size")]
        (ENum 4);
      SAssign [(EName "batch_size")]
        (ENum 16);
      SAssign [(EName "config")]
        (ECall (EName "PPOConfig") [] [((Some "model_name"), (EName "model_name")); ((Some "learning_rate"), (EName "learning_rate")); ((Some "ppo_epochs"), (EName "max_ppo_epochs")); ((Some "mini_batch_size"), (EName "mini_batch_size")); ((Some "batch_size"), (EName "batch_size"))]);
      SFunctionDef "collator" ["data"] [
        SReturn (Some (ECall (EName "dict") [(EGeneratorExp (ETuple [(EName "key"); (EListComp (ESubscript (EName "d") (EName "key")) (EName "d") (EName "data"))]) (EName "key") (ESubscript (EName "data") (ENum 0)))] [])) ];
      SAssign [(EName "ppo_trainer")]
        (ECall (EName "PPOTrainer") [] [((Some "config"), (EName "config")); ((Some "model"), (EName "ppo_model")); ((Some "ref_model"), (EName "ref_model")); ((Some "tokenizer"), (EName "tokenizer")); ((Some "dataset"), (ESubscript (EName "dataset") (EStr "train"))); ((Some "data_collator"), (EName "collator"))]) ]);
  (32,
    [
      SAssign [(EName "output_min_length")]
        (ENum 100);
      SAssign [(EName "output_max_length")]
        (ENum 400);
      SAssign [(EName "output_length_sampler")]
        (ECall (EName "LengthSampler") [(EName "output_min_length"); (EName "output_max_length")] []);
      SAssign [(EName "generation_kwargs")]
        (EDict [((EStr "min_length"), (ENum 5)); ((EStr "top_k"), (EConst "0.0")); ((EStr "top_p"), (EConst "1.0")); ((EStr "do_sample"), (EConst "True"))]);
      SAssign [(EName "reward_kwargs")]
        (EDict [((EStr "top_k"), (EConst "None")); ((EStr "function_to_apply"), (EStr "none")); ((EStr "batch_size"), (ENum 16))]);
      SAssign [(EName "max_ppo_steps")]
        (ENum 10);
      SFor (ETuple [(EName "step"); (EName "batch")]) (ECall (EName "tqdm") [(ECall (EName "enumerate") [(EAttribute (EName "ppo_trainer") "dataloader")] [])] []) [
        SIf (EBinOp ">=" (EName "step") (EName "max_ppo_steps")) [
          SBreak ] [];
        SAssign [(EName "prompt_tensors")]
          (ESubscript (EName "batch") (EStr "input_ids"));
        SAssign [(EName "summary_tensors")]
          (EList []);
        SFor (EName "prompt_tensor") (EName "prompt_tensors") [
          SAssign [(EName "max_new_tokens")]
            (ECall (EName "output_length_sampler") [] []);
          SAssign [(ESubscript (EName "generation_kwargs") (EStr "max_new_tokens"))]
            (EName "max_new_tokens");
          SAssign [(EName "summary")]
            (ECall (EAttribute (EName "ppo_trainer") "generate") [(EName "prompt_tensor")] [(None, (EName "generation_kwargs"))]);
          SExpr (ECall (EAttribute (EName "summary_tensors") "append") [(ESubscript (ECall (EAttribute (EName "summary") "squeeze") [] []) (ESlice (Some (EUnaryOp "-" (EName "max_new_tokens"))) None))] []) ];
        SAssign [(ESubscript (EName "batch") (EStr "response"))]
          (EListComp (ECall (EAttribute (EName "tokenizer") "decode") [(ECall (EAttribute (EName "r") "squeeze") [] [])] []) (EName "r") (EName "summary_tensors"));
        SAssign [(EName "query_response_pairs")]
          (EListComp (EBinOp "+" (EName "q") (EName "r")) (ETuple [(EName "q"); (EName "r")]) (ECall (EName "zip") [(ESubscript (EName "batch") (EStr "query")); (ESubscript (EName "batch") (EStr "response"))] []));
        SAssign [(EName "rewards")]
          (ECall (EName "sentiment_pipe") [(EName "query_response_pairs")] [(None, (EName "reward_kwargs"))]);
        SAssign [(EName "reward_tensors")]
          (EListComp (ECall (EAttribute (EName "torch") "tensor") [(ESubscript (ESubscript (EName "reward") (EName "not_hate_index")) (EStr "score"))] []) (EName "reward") (EName "rewards"));
        SAssign [(EName "stats")]
          (ECall (EAttribute (EName "ppo_trainer") "step") [(EName "prompt_tensors"); (EName "summary_tensors"); (EName "reward_tensors")] []);
        SExpr (ECall (EAttribute (EName "ppo_trainer") "log_stats") [(EName "stats"); (EName "batch"); (EName "reward_tensors")] []);
        SExpr (ECall (EName "print") [(EJoinedStr [(EStr "objective/kl: "); (EFormattedValue (ESubscript (EName "stats") (EStr "objective/kl")) "")])] []);
        SExpr (ECall (EName "print") [(EJoinedStr [(EStr "ppo/returns/mean: "); (EFormattedValue (ESubscript (EName "stats") (EStr "ppo/returns/mean")) "")])] []);
        SExpr (ECall (EName "print") [(EJoinedStr [(EStr "ppo/policy/advantages_mean: "); (EFormattedValue (ESubscript (EName "stats") (EStr "ppo/policy/advantages_mean")) "")])] []);
        SExpr (ECall (EName "print") [(ECall (EAttribute (EStr "-") "join") [(EGeneratorExp (EStr "") (EName "x") (ECall (EName "range") [(ENum 100)] []))] [])] []) ] ]);
  (34,
    [
      SAssign [(ETuple [(EName "mean_after_detoxification"); (EName "std_after_detoxification")])]
        (ECall (EName "evaluate_toxicity") [] [((Some "model"), (EName "ppo_model")); ((Some "toxicity_evaluator"), (EName "toxicity_evaluator")); ((Some "tokenizer"), (EName "tokenizer")); ((Some "dataset"), (ESubscript (EName "dataset") (EStr "test"))); ((Some "num_samples"), (ENum 10))]);
      SExpr (ECall (EName "print") [(EJoinedStr [(EStr "toxicity [mean, std] after detox: ["); (EFormattedValue (EName "mean_after_detoxification") ""); (EStr ", "); (EFormattedValue (EName "std_after_detoxification") ""); (EStr "]")])] []) ]);
  (35,
    [
      SAssign [(EName "mean_improvement")]
        (EBinOp "/" (EBinOp "-" (EName "mean_before_detoxification") (EName "mean_after_detoxification")) (EName "mean_before_detoxification"));
      SAssign [(EName "std_improvement")]
        (EBinOp "/" (EBinOp "-" (EName "std_before_detoxification") (EName "std_after_detoxification")) (EName "std_before_detoxification"));
      SExpr (ECall (EName "print") [(EJoinedStr [(EStr "Percentage improvement of toxicity score after detoxification:")])] []);
      SExpr (ECall (EName "print") [(EJoinedStr [(EStr "mean: "); (EFormattedValue (EBinOp "*" (EName "mean_improvement") (ENum 100)) ".2f"); (EStr "%")])] []);
      SExpr (ECall (EName "print") [(EJoinedStr [(EStr "std: "); (EFormattedValue (EBinOp "*" (EName "std_improvement") (ENum 100)) ".2f"); (EStr "%")])] []) ]);
  (37,
    [
      SAssign [(EName "batch_size")]
        (ENum 20);
      SAssign [(EName "compare_results")]
        (EDict []);
      SAssign [(EName "df_batch")]
        (ESubscript (ESubscript (EName "dataset") (EStr "test")) (ESlice (Some (ENum 0)) (Some (EName "batch_size"))));
      SAssign [(ESubscript (EName "compare_results") (EStr "query"))]
        (ESubscript (EName "df_batch") (EStr "query"));
      SAssign [(EName "prompt_tensors")]
        (ESubscript (EName "df_batch") (EStr "input_ids"));
      SAssign [(EName "summary_tensors_ref")]
        (EList []);
      SAssign [(EName "summary_tensors")]
        (EList []);
      SFor (EName "i") (ECall (EName "tqdm") [(ECall (EName "range") [(EName "batch_size")] [])] []) [
        SAssign [(EName "gen_len")]
          (ECall (EName "output_length_sampler") [] []);
        SAssign [(ESubscript (EName "generation_kwargs") (EStr "max_new_tokens"))]
          (EName "gen_len");
        SAssign [(EName "summary")]
          (ESubscript (ECall (EAttribute (ECall (EAttribute (EName "ref_model") "generate") [] [((Some "input_ids"), (ECall (EAttribute (ECall (EAttribute (ECall (EAttribute (EName "torch") "as_tensor") [(ESubscript (EName "prompt_tensors") (EName "i"))] []) "unsqueeze") [] [((Some "dim"), (ENum 0))]) "to") [(EName "device")] [])); (None, (EName "generation_kwargs"))]) "squeeze") [] []) (ESlice (Some (EUnaryOp "-" (EName "gen_len"))) None));
        SExpr (ECall (EAttribute (EName "summary_tensors_ref") "append") [(EName "summary")] []);
        SAssign [(EName "summary")]
          (ESubscript (ECall (EAttribute (ECall (EAttribute (EName "ppo_model") "generate") [] [((Some "input_ids"), (ECall (EAttribute (ECall (EAttribute (ECall (EAttribute (EName "torch") "as_tensor") [(ESubscript (EName "prompt_tensors") (EName "i"))] []) "unsqueeze") [] [((Some "dim"), (ENum 0))]) "to") [(EName "device")] [])); (None, (EName "generation_kwargs"))]) "squeeze") [] []) (ESlice (Some (EUnaryOp "-" (EName "gen_len"))) None));
        SExpr (ECall (EAttribute (EName "summary_tensors") "append") [(EName "summary")] []) ];
      SAssign [(ESubscript (EName "compare_results") (EStr "response_before"))]
        (EListComp (ECall (EAttribute (EName "tokenizer") "decode") [(ESubscript (EName "summary_tensors_ref") (EName "i"))] []) (EName "i") (ECall (EName "range") [(EName "batch_size")] []));
      SAssign [(ESubscript (EName "compare_results") (EStr "response_after"))]
        (EListComp (ECall (EAttribute (EName "tokenizer") "decode") [(ESubscript (EName "summary_tensors") (EName "i"))] []) (EName "i") (ECall (EName "range") [(EName "batch_size")] []));
      SAssign [(EName "texts_before")]
        (EListComp (EBinOp "+" (EName "d") (EName "s")) (ETuple [(EName "d"); (EName "s")]) (ECall (EName "zip") [(ESubscript (EName "compare_results") (EStr "query")); (ESubscript (EName "compare_results") (EStr "response_before"))] []));
      SAssign [(EName "rewards_before")]
        (ECall (EName "sentiment_pipe") [(EName "texts_before")] [(None, (EName "reward_kwargs"))]);
      SAssign [(ESubscript (EName "compare_results") (EStr "reward_before"))]
        (EListComp (ESubscript (ESubscript (EName "reward") (EName "not_hate_index")) (EStr "score")) (EName "reward") (EName "rewards_before"));
      SAssign [(EName "texts_after")]
        (EListComp (EBinOp "+" (EName "d") (EName "s")) (ETuple [(EName "d"); (EName "s")]) (ECall (EName "zip") [(ESubscript (EName "compare_results") (EStr "query")); (ESubscript (EName "compare_results") (EStr "response_after"))] []));
      SAssign [(EName "rewards_after")]
        (ECall (EName "sentiment_pipe") [(EName "texts_after")] [(None, (EName "reward_kwargs"))]);
      SAssign [(ESubscript (EName "compare_results") (EStr "reward_after"))]
        (EListComp (ESubscript (ESubscript (EName "reward") (EName "not_hate_index")) (EStr "score")) (EName "reward") (EName "rewards_after")) ]);
  (38,
    [
      SExpr (ECall (EAttribute (EName "pd") "set_option") [(EStr "display.max_colwidth"); (ENum 500)] []);
      SAssign [(EName "df_compare_results")]
        (ECall (EAttribute (EName "pd") "DataFrame") [(EName "compare_results")] []);
      SAssign [(ESubscript (EName "df_compare_results") (EStr "reward_diff"))]
        (EBinOp "-" (ESubscript (EName "df_compare_results") (EStr "reward_after")) (ESubscript (EName "df_compare_results") (EStr "reward_before")));
      SAssign [(EName "df_compare_results_sorted")]
        (ECall (EAttribute (ECall (EAttribute (EName "df_compare_results") "sort_values") [] [((Some "by"), (EList [(EStr "reward_diff")])); ((Some "ascending"), (EConst "False"))]) "reset_index") [] [((Some "drop"), (EConst "True"))]);
      SExpr (EName "df_compare_results_sorted") ]);
  (40,
    [
      SCellMagic "html"
        [ "";
          "<p><b>Shutting down your kernel for this notebook to release resources.</b></p>";
          ("<button class=" ++ dq ++ "sm-command-button" ++ dq ++ " data-commandlinker-command=" ++ dq ++ "kernelmenu:shutdown" ++ dq ++ " style=" ++ dq ++ "display:none;" ++ dq ++ ">Shutdown Kernel</button>")%string;
          "        ";
          "<script>";
          "try {";
          ("    els = document.getElementsByClassName(" ++ dq ++ "sm-command-button" ++ dq ++ ");")%string;
          "    els[0].click();";
          "}";
          "catch(err) {";
          "    // NoOp";
          "}    ";
          "</script>" ] ])
  ].

(** The repository: every notebook with its name. *)
Definition repository : list (string * notebook) :=
  [ ("setup", setup_notebook);
    ("data_quality", data_quality_notebook);
    ("peft", peft_notebook);
    ("rlhf", rlhf_notebook) ].

(* ================================================================== *)
(** * Part II: analyses of the notebooks *)
(* ================================================================== *)

(** ** Strings and command lines *)

Definition mem (x : string) (l : list string) : bool :=
  existsb (String.eqb x) l.

Definition remove_all (xs l : list string) : list string :=
  filter (fun y => negb (mem y xs)) l.

(** The words of one line of a command: maximal runs without a space.
    [cur] holds the characters of the current word, last one first. *)
Fixpoint rev_string (acc s : string) : string :=
  match s with
  | EmptyString => acc
  | String c s' => rev_string (String c acc) s'
  end.

Definition close_word (cur : string) (ws : list string) : list string :=
  match cur with
  | EmptyString => ws
  | _ => rev_string EmptyString cur :: ws
  end.

Fixpoint split_words (cur s : string) : list string :=
  match s with
  | EmptyString => close_word cur []
  | String c s' =>
      if Ascii.eqb c " "%char
      then close_word cur (split_words EmptyString s')
      else split_words (String c cur) s'
  end.

Definition words (lines : list string) : list string :=
  flat_map (split_words EmptyString) lines.

(** ** Expressions: sub-expressions, call sites and free names *)

Definition option_list {A} (o : option A) : list A :=
  match o with Some a => [a] | None => [] end.

Fixpoint subexprs (e : expr) : list expr :=
  e ::
  match e with
  | EName _ | EStr _ | ENum _ | EConst _ => []
  | EAttribute v _ => subexprs v
  | ESubscript v s => subexprs v ++ subexprs s
  | ESlice lo hi =>
      match lo with Some x => subexprs x | None => [] end ++
      match hi with Some x => subexprs x | None => [] end
  | ECall f a k =>
      subexprs f ++ flat_map subexprs a ++
      flat_map (fun p => match p with (_, v) => subexprs v end) k
  | EBinOp _ l r => subexprs l ++ subexprs r
  | EUnaryOp _ x => subexprs x
  | EIfExp c a b => subexprs c ++ subexprs a ++ subexprs b
  | EList es | ETuple es | EJoinedStr es => flat_map subexprs es
  | EDict kvs =>
      flat_map (fun p => match p with (k, v) => subexprs k ++ subexprs v end) kvs
  | EFormattedValue v _ => subexprs v
  | ELambda _ b => subexprs b
  | EListComp elt t it | EGeneratorExp elt t it =>
      subexprs it ++ subexprs t ++ subexprs elt
  end.

(** The dotted name of a callee: [ppo_trainer.step], [PeftModel.from_pretrained]. *)
Fixpoint dotted (e : expr) : option string :=
  match e with
  | EName x => Some x
  | EAttribute v a =>
      match dotted v with
      | Some s => Some (s ++ "." ++ a)%string
      | None => None
      end
  | _ => None
  end.

Record call_site : Type := {
  callee : option string;
  call_args : list expr;
  call_keywords : list (option string * expr)
}.

Definition call_of (e : expr) : list call_site :=
  match e with
  | ECall f a k => [ {| callee := dotted f; call_args := a; call_keywords := k |} ]
  | _ => []
  end.

Definition expr_calls (e : expr) : list call_site :=
  flat_map call_of (subexprs e).

Definition calls_named (name : string) (cs : list call_site) : list call_site :=
  filter (fun c => match callee c with Some n => String.eqb n name | None => false end) cs.

(** Names an assignment target binds, and names it reads ([d[k] = v] reads [d]). *)
Fixpoint target_binds (t : expr) : list string :=
  match t with
  | EName x => [x]
  | ETuple es | EList es => flat_map target_binds es
  | _ => []
  end.

(** Free names of an expression: the names its evaluation looks up in the
    enclosing scope.  Lambda parameters and comprehension targets are bound. *)
Fixpoint expr_names (e : expr) : list string :=
  match e with
  | EName x => [x]
  | EStr _ | ENum _ | EConst _ => []
  | EAttribute v _ => expr_names v
  | ESubscript v s => expr_names v ++ expr_names s
  | ESlice lo hi =>
      match lo with Some x => expr_names x | None => [] end ++
      match hi with Some x => expr_names x | None => [] end
  | ECall f a k =>
      expr_names f ++ flat_map expr_names a ++
      flat_map (fun p => match p with (_, v) => expr_names v end) k
  | EBinOp _ l r => expr_names l ++ expr_names r
  | EUnaryOp _ x => expr_names x
  | EIfExp c a b => expr_names c ++ expr_names a ++ expr_names b
  | EList es | ETuple es | EJoinedStr es => flat_map expr_names es
  | EDict kvs =>
      flat_map (fun p => match p with (k, v) => expr_names k ++ expr_names v end) kvs
  | EFormattedValue v _ => expr_names v
  | ELambda args b => remove_all args (expr_names b)
  | EListComp elt t it | EGeneratorExp elt t it =>
      expr_names it ++ remove_all (target_binds t) (expr_names elt)
  end.

Fixpoint target_reads (t : expr) : list string :=
  match t with
  | EName _ => []
  | ETuple es | EList es => flat_map target_reads es
  | _ => expr_names t
  end.

(** ** Statements *)

(** A statement and every statement nested in it. *)
Fixpoint stmt_deep (s : stmt) : list stmt :=
  s ::
  match s with
  | SFor _ _ b => flat_map stmt_deep b
  | SIf _ b o => flat_map stmt_deep b ++ flat_map stmt_deep o
  | STry b hs =>
      flat_map stmt_deep b ++
      flat_map (fun h => match h with (_, hb) => flat_map stmt_deep hb end) hs
  | SFunctionDef _ _ b => flat_map stmt_deep b
  | _ => []
  end.

(** The expressions a statement holds itself (not those of nested statements). *)
Definition stmt_exprs (s : stmt) : list expr :=
  match s with
  | SAssign ts v => ts ++ [v]
  | SAugAssign t _ v => [t; v]
  | SExpr v => [v]
  | SFor t it _ => [t; it]
  | SIf c _ _ => [c]
  | STry _ hs => flat_map (fun h => option_list (fst h)) hs
  | SReturn v => option_list v
  | _ => []
  end.

(** Every call written in a statement, nested statements, function bodies
    and lambda bodies included. *)
Definition stmt_calls (s : stmt) : list call_site :=
  flat_map expr_calls (flat_map stmt_exprs (stmt_deep s)).

(** The top-level statements of a notebook in execution order, each with
    the number of its cell. *)
Definition toplevel (nb : notebook) : list (nat * stmt) :=
  flat_map (fun c => map (pair (fst c)) (snd c)) nb.

(** Every statement of a notebook, nested ones included, with its cell. *)
Definition all_stmts (nb : notebook) : list (nat * stmt) :=
  flat_map (fun c => map (pair (fst c)) (flat_map stmt_deep (snd c))) nb.

(** The positions (in [toplevel]) and cells of the top-level statements in
    which a call to [name] is written, with the call. *)
Fixpoint sites_from (name : string) (pos : nat) (l : list (nat * stmt))
  : list (nat * nat * call_site) :=
  match l with
  | [] => []
  | (c, s) :: l' =>
      map (fun cs => (pos, c, cs)) (calls_named name (stmt_calls s))
      ++ sites_from name (S pos) l'
  end.

Definition sites (name : string) (nb : notebook) : list (nat * nat * call_site) :=
  sites_from name 0 (toplevel nb).

(** ** Try statements *)

Definition is_try (s : stmt) : bool :=
  match s with STry _ _ => true | _ => false end.

Definition try_stmts (nb : notebook) : list (nat * stmt) :=
  filter (fun p => is_try (snd p)) (all_stmts nb).

Definition try_free (ss : list stmt) : bool :=
  forallb (fun s => negb (is_try s)) (flat_map stmt_deep ss).

(** The browser script of a [%%html] cell: the lines that open a
    [try] block. *)
Definition js_try_lines (s : stmt) : list string :=
  match s with
  | SCellMagic _ body =>
      filter (fun l => match split_words EmptyString l with
                       | w :: _ => String.eqb w "try"
                       | [] => false
                       end) body
  | _ => []
  end.

Definition js_tries (nb : notebook) : list (nat * string) :=
  flat_map (fun p => map (pair (fst p)) (js_try_lines (snd p))) (all_stmts nb).

(** ** IPython magics and shell escapes *)

(** The words of a [%magic] line or a [!shell] escape. *)
Definition command_words (s : stmt) : option (list string) :=
  match s with
  | SLineMagic ls | SShell ls => Some (words ls)
  | _ => None
  end.

(** [%store x] persists the variable [x]; [%store -r x] restores it. *)
Definition stored_var (s : stmt) : option string :=
  match s with
  | SLineMagic ls =>
      match words ls with
      | [m; x] => if String.eqb m "store" && negb (String.eqb x "-r")
                  then Some x else None
      | _ => None
      end
  | _ => None
  end.

Definition restored_var (s : stmt) : option string :=
  match s with
  | SLineMagic ls =>
      match words ls with
      | [m; r; x] => if String.eqb m "store" && String.eqb r "-r"
                     then Some x else None
      | _ => None
      end
  | _ => None
  end.

Definition stored_vars (nb : notebook) : list string :=
  flat_map (fun p => option_list (stored_var (snd p))) (all_stmts nb).

Definition restored_vars (nb : notebook) : list string :=
  flat_map (fun p => option_list (restored_var (snd p))) (all_stmts nb).

(** IPython expands [$name] in a shell escape with the Python variable
    [name]. *)
Definition ident_char (c : ascii) : bool :=
  let n := nat_of_ascii c in
  (((48 <=? n) && (n <=? 57)) || ((65 <=? n) && (n <=? 90))
   || ((97 <=? n) && (n <=? 122)) || (n =? 95))%nat.

Fixpoint take_ident (s : string) : string :=
  match s with
  | EmptyString => EmptyString
  | String c s' => if ident_char c then String c (take_ident s') else EmptyString
  end.

Fixpoint shell_vars (s : string) : list string :=
  match s with
  | EmptyString => []
  | String c s' =>
      if Ascii.eqb c "$"%char
      then match take_ident s' with
           | EmptyString => shell_vars s'
           | v => v :: shell_vars s'
           end
      else shell_vars s'
  end.

(** A package installation: [%pip install], [!pip install] or
    [%conda install].  Its requirements are the words after [install] that
    are not options. *)
Record installation : Type := {
  installer : string;
  requirements : list string
}.

Definition installation_of (s : stmt) : option installation :=
  match command_words s with
  | Some (tool :: verb :: rest) =>
      if mem tool ["pip"; "conda"] && String.eqb verb "install"
      then Some {| installer := tool;
                   requirements := filter (fun w => negb (prefix "-" w)) rest |}
      else None
  | _ => None
  end.

Definition installations (nb : notebook) : list (nat * installation) :=
  flat_map (fun p => match installation_of (snd p) with
                     | Some i => [(fst p, i)]
                     | None => []
                     end) (all_stmts nb).

(** A requirement [name==version] with a name and a version. *)
Definition exact_version (w : string) : bool :=
  match index 0 "==" w with
  | Some n => ((0 <? n) && (n + 2 <? String.length w))%nat
  | None => false
  end.

(** A requirement [git+URL@revision] with a revision. *)
Definition git_revision (w : string) : bool :=
  prefix "git+" w &&
  match index 0 "@" w with
  | Some n => (n + 1 <? String.length w)%nat
  | None => false
  end.

Definition pinned (w : string) : bool := exact_version w || git_revision w.

(** ** Name binding *)

(** [import a.b] binds [a]; [import a.b as c] binds [c]. *)
Fixpoint first_component (s : string) : string :=
  match s with
  | EmptyString => EmptyString
  | String c s' => if Ascii.eqb c "."%char then EmptyString
                   else String c (first_component s')
  end.

Definition import_binds (a : string * option string) : string :=
  match a with
  | (_, Some alias) => alias
  | (n, None) => first_component n
  end.

Definition import_from_binds (a : string * option string) : string :=
  match a with
  | (_, Some alias) => alias
  | (n, None) => n
  end.

(** The names a statement may bind in the scope it runs in. *)
Fixpoint stmt_binds (s : stmt) : list string :=
  match s with
  | SImport ns => map import_binds ns
  | SImportFrom _ ns => map import_from_binds ns
  | SAssign ts _ => flat_map target_binds ts
  | SAugAssign t _ _ => target_binds t
  | SFor t _ b => target_binds t ++ flat_map stmt_binds b
  | SIf _ b o => flat_map stmt_binds b ++ flat_map stmt_binds o
  | STry b hs =>
      flat_map stmt_binds b ++
      flat_map (fun h => match h with (_, hb) => flat_map stmt_binds hb end) hs
  | SFunctionDef n _ _ => [n]
  | SLineMagic _ => option_list (restored_var s)
  | _ => []
  end.

Definition unbound (bound names : list string) : list string :=
  filter (fun x => negb (mem x bound)) names.

(** The names a statement reads that nothing in [bound] provides.  A block
    is read in order, each statement seeing the names its predecessors
    bind; a function body sees its parameters, its own name and the names
    the body assigns. *)
Fixpoint stmt_unbound (s : stmt) (bound : list string) {struct s} : list string :=
  let block :=
    fix block (ss : list stmt) (bound : list string) {struct ss} : list string :=
      match ss with
      | [] => []
      | s' :: r => stmt_unbound s' bound ++ block r (stmt_binds s' ++ bound)
      end in
  match s with
  | SImport _ | SImportFrom _ _ | SBreak | SPass | SCellMagic _ _ => []
  | SAssign ts v => unbound bound (expr_names v ++ flat_map target_reads ts)
  | SAugAssign t _ v => unbound bound (expr_names t ++ expr_names v)
  | SExpr v => unbound bound (expr_names v)
  | SFor t it b =>
      unbound bound (expr_names it ++ target_reads t)
      ++ block b (target_binds t ++ bound)
  | SIf c b o => unbound bound (expr_names c) ++ block b bound ++ block o bound
  | STry b hs =>
      block b bound ++
      flat_map (fun h => match h with
                         | (ty, hb) =>
                             unbound bound (flat_map expr_names (option_list ty))
                             ++ block hb (flat_map stmt_binds b ++ bound)
                         end) hs
  | SFunctionDef n args b =>
      block b (args ++ n :: flat_map stmt_binds b ++ bound)
  | SReturn v => unbound bound (flat_map expr_names (option_list v))
  | SLineMagic _ => unbound bound (option_list (stored_var s))
  | SShell ls => unbound bound (flat_map shell_vars ls)
  end.

Fixpoint block_unbound (ss : list stmt) (bound : list string) : list string :=
  match ss with
  | [] => []
  | s :: r => stmt_unbound s bound ++ block_unbound r (stmt_binds s ++ bound)
  end.

(** The built-in names of Python the notebooks use. *)
Definition builtins : list string :=
  ["print"; "len"; "enumerate"; "range"; "dict"; "list"; "zip"; "str"; "int";
   "NameError"].

(** A kernel starts with the built-ins only: the names a notebook reads
    that neither the built-ins nor an earlier statement of the same
    notebook provide. *)
Definition notebook_stmts (nb : notebook) : list stmt := flat_map snd nb.

Definition unbound_reads (nb : notebook) : list string :=
  block_unbound (notebook_stmts nb) builtins.

(** The notebook without its [%store -r] lines. *)
Definition without_restore (nb : notebook) : notebook :=
  map (fun c => (fst c, filter (fun s => match restored_var s with
                                          | Some _ => false
                                          | None => true
                                          end) (snd c))) nb.

(** ** An execution skeleton for Python exceptions

    Running a block of statements is a sequence of atomic steps: an import,
    an assignment, an expression statement, the test of an [if], the
    iterable of a [for], a magic line.  What the libraries and the platform
    do at each step is not fixed here: [raises k] says whether step [k]
    raises, [truth k] is the value of the test evaluated at step [k] and
    [items k] the number of items of the iterable evaluated at step [k].
    The control flow is Python's: an exception leaves every enclosing block
    up to a [try] whose handler matches it, [break] leaves the innermost
    [for]. *)
Section Exceptions.

Variable exn : Type.
Variable raises : nat -> option exn.
Variable truth : nat -> bool.
Variable items : nat -> nat.
Variable isinstance : exn -> expr -> bool.

Inductive outcome : Type :=
| Normal
| Raised (e : exn)
| Broke
| Returned.

Definition step (k : nat) : outcome * nat :=
  match raises k with
  | Some e => (Raised e, S k)
  | None => (Normal, S k)
  end.

Fixpoint run_block (ex : stmt -> nat -> outcome * nat)
         (ss : list stmt) (k : nat) : outcome * nat :=
  match ss with
  | [] => (Normal, k)
  | s :: r =>
      match ex s k with
      | (Normal, k') => run_block ex r k'
      | other => other
      end
  end.

Fixpoint run_loop (body : nat -> outcome * nat) (n k : nat) : outcome * nat :=
  match n with
  | O => (Normal, k)
  | S n' =>
      match body k with
      | (Normal, k') => run_loop body n' k'
      | (Broke, k') => (Normal, k')
      | other => other
      end
  end.

(** [except:] catches everything, [except T:] the instances of [T]. *)
Definition catches (ty : option expr) (e : exn) : bool :=
  match ty with
  | None => true
  | Some t => isinstance e t
  end.

Fixpoint run_handlers (blk : list stmt -> nat -> outcome * nat)
         (hs : list (option expr * list stmt)) (e : exn) (k : nat)
  : outcome * nat :=
  match hs with
  | [] => (Raised e, k)
  | (ty, hb) :: r =>
      if catches ty e then blk hb k else run_handlers blk r e k
  end.

Fixpoint exec (s : stmt) (k : nat) {struct s} : outcome * nat :=
  match s with
  | SPass | SFunctionDef _ _ _ => (Normal, k)
  | SBreak => (Broke, k)
  | SReturn None => (Returned, k)
  | SReturn (Some _) =>
      match step k with
      | (Normal, k') => (Returned, k')
      | other => other
      end
  | SImport _ | SImportFrom _ _ | SAssign _ _ | SAugAssign _ _ _
  | SExpr _ | SLineMagic _ | SShell _ | SCellMagic _ _ => step k
  | SIf _ b o =>
      match step k with
      | (Normal, k') =>
          if truth k then run_block exec b k' else run_block exec o k'
      | other => other
      end
  | SFor _ _ b =>
      match step k with
      | (Normal, k') => run_loop (run_block exec b) (items k) k'
      | other => other
      end
  | STry b hs =>
      match run_block exec b k with
      | (Raised e, k') => run_handlers (run_block exec) hs e k'
      | other => other
      end
  end.

(** Running a cell runs its statements; an outcome other than [Normal]
    ends the cell. *)
Definition exec_cell (c : cell) (k : nat) : outcome * nat :=
  run_block exec (snd c) k.

(** Every exception met in the steps [k .. k'-1] is the outcome: the
    step that raised it is the last one, and nothing was caught. *)
Definition propagated (k : nat) (r : outcome * nat) : Prop :=
  forall j e, k <= j < snd r -> raises j = Some e ->
              S j = snd r /\ fst r = Raised e.

End Exceptions.

Arguments Normal {exn}.
Arguments Raised {exn} e.
Arguments Broke {exn}.
Arguments Returned {exn}.

(** ** Statements between two positions, and what a cell propagates *)

(** The statements that hold no other statement. *)
Definition is_simple (s : stmt) : bool :=
  match s with
  | SFor _ _ _ | SIf _ _ _ | STry _ _ | SFunctionDef _ _ _ => false
  | _ => true
  end.

(** The names bound by the top-level statements strictly between the
    positions [lo] and [hi]. *)
Definition bound_between (lo hi : nat) (nb : notebook) : list string :=
  flat_map (fun p => stmt_binds (snd p))
           (firstn (hi - lo - 1) (skipn (S lo) (toplevel nb))).

Definition same_cell (a b : string * nat) : bool :=
  String.eqb (fst a) (fst b) && Nat.eqb (snd a) (snd b).

Definition excepted (l : list (string * nat)) (a : string * nat) : bool :=
  existsb (same_cell a) l.

(** Every cell of every notebook, the cells listed in [but] apart, lets
    every exception of its steps through, whatever the libraries and the
    platform do. *)
Definition cells_propagate (but : list (string * nat)) : Prop :=
  forall name nb c,
    In (name, nb) repository -> In c nb -> excepted but (name, fst c) = false ->
    forall (exn : Type) (raises : nat -> option exn) (truth : nat -> bool)
           (items : nat -> nat) (isinstance : exn -> expr -> bool) (k : nat),
      propagated exn raises k (exec_cell exn raises truth items isinstance c k).

(** Every requirement of every installation of a notebook is pinned. *)
Definition installations_pinned (nb : notebook) : Prop :=
  forall c i w,
    In (c, i) (installations nb) -> In w (requirements i) -> pinned w = true.

(** The cell of the setup notebook that asks for the execution role
    (cell 37), and the cell of the data-quality notebook that checks that
    [setup_dependencies_passed] exists (cell 6). *)
Definition role_cell : cell := nth 15 setup_notebook (0, []).
Definition check_cell : cell := nth 1 data_quality_notebook (0, []).

(** Exceptions named by their class, without subclasses. *)
Definition class_named (e : string) (t : expr) : bool :=
  match t with
  | EName n => String.eqb e n
  | _ => false
  end.

(** ** The names of a kernel and the store of [%store]

    A kernel starts with the built-ins.  [%store x] persists [x] when the
    kernel has it, [%store -r x] gives the kernel [x] when the store has
    it, any other statement gives the kernel the names it binds.  The names
    of the kernel and the store after the statements of a notebook. *)
Definition run_names (nb : notebook) (db : list string)
  : list string * list string :=
  fold_left
    (fun (st : list string * list string) (s : stmt) =>
       let (names, db) := st in
       match stored_var s, restored_var s with
       | Some x, _ => (names, if mem x names then x :: db else db)
       | None, Some x => (if mem x db then x :: names else names, db)
       | None, None => (stmt_binds s ++ names, db)
       end)
    (notebook_stmts nb) (builtins, db).

(** The positions of the top-level statements that call [name]. *)
Definition positions (name : string) (nb : notebook) : list nat :=
  map (fun x => fst (fst x)) (sites name nb).

(** The top-level statements that bind one of [names]. *)
Definition binders (names : list string) (nb : notebook) : list (nat * stmt) :=
  filter (fun p => existsb (fun x => mem x names) (stmt_binds (snd p)))
         (toplevel nb).

(** The loop header of a [for] statement. *)
Definition for_header (s : stmt) : option (expr * expr) :=
  match s with
  | SFor t it _ => Some (t, it)
  | _ => None
  end.

(** ** Local files

    The string literals of a statement and the words of its shell lines;
    the local directory [d] of a path [./d/...]; the local directories a
    notebook names, each once, and the first top-level statement of a
    notebook that names a directory. *)
Definition expr_strings (e : expr) : list string :=
  flat_map (fun x => match x with EStr s => [s] | _ => [] end) (subexprs e).

Definition stmt_strings (s : stmt) : list string :=
  flat_map (fun x => flat_map expr_strings (stmt_exprs x)
                     ++ match x with
                        | SShell ls | SLineMagic ls => words ls
                        | _ => []
                        end) (stmt_deep s).

Fixpoint until_slash (s : string) : string :=
  match s with
  | EmptyString => EmptyString
  | String c s' => if Ascii.eqb c "/"%char then EmptyString
                   else String c (until_slash s')
  end.

Definition local_dir (w : string) : option string :=
  match w with
  | String c1 (String c2 rest) =>
      if Ascii.eqb c1 "."%char && Ascii.eqb c2 "/"%char
      then Some (until_slash rest) else None
  | _ => None
  end.

Definition names_dir (d : string) (s : stmt) : bool :=
  existsb (fun w => match local_dir w with
                    | Some d' => String.eqb d d'
                    | None => false
                    end) (stmt_strings s).

Definition local_dirs (nb : notebook) : list string :=
  nodup string_dec
        (flat_map (fun p => flat_map (fun w => option_list (local_dir w))
                                     (stmt_strings (snd p))) (toplevel nb)).

Definition first_naming (d : string) (nb : notebook) : option (nat * stmt) :=
  find (fun p => names_dir d (snd p)) (toplevel nb).

(** ** Induction on statements *)
Section StmtInduction.

Variable P : stmt -> Prop.

Hypothesis simple :
  forall s, is_simple s = true -> P s.
Hypothesis sfor :
  forall t it b, Forall P b -> P (SFor t it b).
Hypothesis sif :
  forall c b o, Forall P b -> Forall P o -> P (SIf c b o).
Hypothesis stry :
  forall b hs, Forall P b -> Forall (fun h => Forall P (snd h)) hs ->
               P (STry b hs).
Hypothesis sdef :
  forall n a b, Forall P b -> P (SFunctionDef n a b).

Fixpoint stmt_induction (s : stmt) : P s :=
  let block :=
    fix block (ss : list stmt) : Forall P ss :=
      match ss with
      | [] => Forall_nil P
      | x :: r => Forall_cons x (stmt_induction x) (block r)
      end in
  match s with
  | SFor t it b => sfor t it b (block b)
  | SIf c b o => sif c b o (block b) (block o)
  | STry b hs =>
      stry b hs (block b)
           ((fix handlers (l : list (option expr * list stmt))
               : Forall (fun h => Forall P (snd h)) l :=
               match l with
               | [] => Forall_nil _
               | (ty, hb) :: r => Forall_cons (ty, hb) (block hb) (handlers r)
               end) hs)
  | SFunctionDef n a b => sdef n a b (block b)
  | SImport ns => simple (SImport ns) eq_refl
  | SImportFrom m ns => simple (SImportFrom m ns) eq_refl
  | SAssign ts v => simple (SAssign ts v) eq_refl
  | SAugAssign t o v => simple (SAugAssign t o v) eq_refl
  | SExpr v => simple (SExpr v) eq_refl
  | SReturn v => simple (SReturn v) eq_refl
  | SBreak => simple SBreak eq_refl
  | SPass => simple SPass eq_refl
  | SLineMagic l => simple (SLineMagic l) eq_refl
  | SShell l => simple (SShell l) eq_refl
  | SCellMagic n b => simple (SCellMagic n b) eq_refl
  end.

End StmtInduction.

(** ** The strings of a notebook: [str.format] and [$name] in shell escapes

    The S3 paths of the notebooks are built with [str.format] from the
    name of the session's bucket and handed to the shell through [$name].
    The values of the string variables are followed through the top-level
    statements of a notebook; what the libraries return is not fixed:
    [lib k e] is the string returned by the expression [e] evaluated by the
    statement at position [k], if it is a string. *)

(** [template.format(args)] for a template whose fields are all [{}]:
    each takes the next argument, [{{] and [}}] stand for a brace.  [None]
    when Python raises (an argument is missing, a brace is alone) and for
    numbered or named fields. *)
Fixpoint py_format (template : string) (args : list string) : option string :=
  match template with
  | EmptyString => Some EmptyString
  | String c rest =>
      if Ascii.eqb c "{"%char then
        match rest with
        | String c' rest' =>
            if Ascii.eqb c' "}"%char then
              match args with
              | a :: args' => option_map (append a) (py_format rest' args')
              | [] => None
              end
            else if Ascii.eqb c' "{"%char
            then option_map (String "{"%char) (py_format rest' args)
            else None
        | EmptyString => None
        end
      else if Ascii.eqb c "}"%char then
        match rest with
        | String c' rest' =>
            if Ascii.eqb c' "}"%char
            then option_map (String "}"%char) (py_format rest' args)
            else None
        | EmptyString => None
        end
      else option_map (String c) (py_format rest args)
  end.

Definition lookup {A} (k : string) (d : list (string * A)) : option A :=
  option_map snd (find (fun kv => String.eqb k (fst kv)) d).

Fixpoint all_some {A} (l : list (option A)) : option (list A) :=
  match l with
  | [] => Some []
  | Some a :: r => option_map (cons a) (all_some r)
  | None :: _ => None
  end.

(** A literal or a variable whose string is known. *)
Definition eval_atom (env : list (string * string)) (e : expr) : option string :=
  match e with
  | EStr s => Some s
  | EName x => lookup x env
  | _ => None
  end.

(** The string an expression evaluates to: a literal, a variable whose
    string is known, a literal template formatted with such strings (not
    known when one of them is not); for anything else what [lib] says. *)
Definition eval_string (lib : expr -> option string) (env : list (string * string))
           (e : expr) : option string :=
  match e with
  | EStr _ | EName _ => eval_atom env e
  | ECall (EAttribute (EStr template) method) args [] =>
      if String.eqb method "format"
      then match all_some (map (eval_atom env) args) with
           | Some values => py_format template values
           | None => None
           end
      else lib e
  | _ => lib e
  end.

Definition forget (names : list string) (env : list (string * string))
  : list (string * string) :=
  filter (fun kv => negb (mem (fst kv) names)) env.

(** The known strings after a top-level statement: an assignment to a name
    gives it the string of its right-hand side; every name a statement
    binds otherwise ([%store -r], a loop, an import) is no longer known. *)
Definition assign_strings (lib : nat -> expr -> option string) (k : nat)
           (s : stmt) (env : list (string * string)) : list (string * string) :=
  match s with
  | SAssign [EName x] e =>
      match eval_string (lib k) env e with
      | Some v => (x, v) :: forget [x] env
      | None => forget [x] env
      end
  | _ => forget (stmt_binds s) env
  end.

(** IPython replaces [$name] in a shell escape by [str(name)]; a name is a
    run of letters, digits, underscores and dots.  [None] for what is not
    followed here: a name whose string is not known, braces, single quotes
    and [$$]. *)
Definition name_char (c : ascii) : bool := ident_char c || Ascii.eqb c "."%char.

Fixpoint take_name (s : string) : string :=
  match s with
  | EmptyString => EmptyString
  | String c s' => if name_char c then String c (take_name s') else EmptyString
  end.

(** [skip] characters of a name just replaced are still to be passed. *)
Fixpoint expand (env : list (string * string)) (skip : nat) (s : string)
  : option string :=
  match s with
  | EmptyString => Some EmptyString
  | String c s' =>
      match skip with
      | S n => expand env n s'
      | O =>
          if Ascii.eqb c "$"%char then
            let name := take_name s' in
            match lookup name env with
            | Some v => option_map (append v) (expand env (String.length name) s')
            | None => None
            end
          else if Ascii.eqb c "'"%char || Ascii.eqb c "{"%char
                  || Ascii.eqb c "}"%char
          then None
          else option_map (String c) (expand env 0 s')
      end
  end.

(** The known strings after the top-level statements of a notebook, and
    the shell escapes of a cell as the shell receives them, each expanded
    with the strings known when it runs. *)
Fixpoint run_strings (lib : nat -> expr -> option string) (k : nat)
         (ss : list (nat * stmt)) (env : list (string * string))
  : list (string * string) :=
  match ss with
  | [] => env
  | (_, s) :: r => run_strings lib (S k) r (assign_strings lib k s env)
  end.

Fixpoint shell_lines (lib : nat -> expr -> option string) (c : nat) (k : nat)
         (ss : list (nat * stmt)) (env : list (string * string))
  : list (option string) :=
  match ss with
  | [] => []
  | (c', s) :: r =>
      (match s with
       | SShell ls => if Nat.eqb c c' then map (expand env 0) ls else []
       | _ => []
       end)
      ++ shell_lines lib c (S k) r (assign_strings lib k s env)
  end.

Definition strings_of (lib : nat -> expr -> option string) (nb : notebook)
  : list (string * string) :=
  run_strings lib 0 (toplevel nb) [].

Definition shell_of (lib : nat -> expr -> option string) (nb : notebook) (c : nat)
  : list (option string) :=
  shell_lines lib c 0 (toplevel nb) [].

(** [sess.default_bucket()] and [strftime("%Y-%m-%d-%H-%M-%S", gmtime())]. *)
Definition default_bucket : expr :=
  ECall (EAttribute (EName "sess") "default_bucket") [] [].

Definition timestamp : expr :=
  ECall (EName "strftime")
        [EStr "%Y-%m-%d-%H-%M-%S"; ECall (EName "gmtime") [] []] [].

Definition is_default_bucket (e : expr) : bool :=
  match e with
  | ECall (EAttribute (EName object) method) [] [] =>
      String.eqb object "sess" && String.eqb method "default_bucket"
  | _ => false
  end.

Definition is_timestamp (e : expr) : bool :=
  match e with
  | ECall (EName f) [EStr spec; ECall (EName g) [] []] [] =>
      String.eqb f "strftime" && String.eqb spec "%Y-%m-%d-%H-%M-%S"
      && String.eqb g "gmtime"
  | _ => false
  end.

(** The libraries of which only the bucket, and the time, are known. *)
Definition session_lib (bucket : string) (time : option string) (k : nat)
           (e : expr) : option string :=
  if is_default_bucket e then Some bucket
  else if is_timestamp e then time
  else None.

(** What [env] knows, [env'] knows too. *)
Definition included (env env' : list (string * string)) : Prop :=
  forall x v, lookup x env = Some v -> lookup x env' = Some v.

(* ================================================================== *)
(** * Part III: the functions and loops of the notebooks *)
(* ================================================================== *)

(** ** Python values, exceptions and dictionaries *)

Inductive pyexn : Type :=
| KeyError (key : string)
| TypeError
| ValueError
| IndexError
| ZeroDivisionError.

Inductive result (A : Type) : Type :=
| Ok (a : A)
| Raise (e : pyexn).

Arguments Ok {A} a.
Arguments Raise {A} e.

Definition rbind {A B} (m : result A) (f : A -> result B) : result B :=
  match m with
  | Ok a => f a
  | Raise e => Raise e
  end.

Notation "x <- m ;; k" := (rbind m (fun x => k))
  (at level 61, m at next level, right associativity).

Fixpoint mapM {A B} (f : A -> result B) (l : list A) : result (list B) :=
  match l with
  | [] => Ok []
  | a :: l' =>
      b <- f a ;;
      bs <- mapM f l' ;;
      Ok (b :: bs)
  end.

(** A dictionary with string keys keeps its keys in insertion order. *)
Definition dict (A : Type) : Type := list (string * A).

Fixpoint get {A} (k : string) (d : dict A) : result A :=
  match d with
  | [] => Raise (KeyError k)
  | (k', v) :: d' => if String.eqb k k' then Ok v else get k d'
  end.

Fixpoint set {A} (k : string) (v : A) (d : dict A) : dict A :=
  match d with
  | [] => [(k, v)]
  | (k', v') :: d' =>
      if String.eqb k k' then (k, v) :: d' else (k', v') :: set k v d'
  end.

Definition keys {A} (d : dict A) : list string := map fst d.

(** [l[start:]] for a Python list, [start] of either sign. *)
Definition slice_from {A} (start : Z) (l : list A) : list A :=
  let len := Z.of_nat (length l) in
  let lo := if (start <? 0)%Z then Z.max (len + start) 0 else Z.min start len in
  skipn (Z.to_nat lo) l.

Definition str_of_Z (z : Z) : string := NilZero.string_of_int (Z.to_int z).

Definition sum_Z (l : list Z) : Z := fold_right Z.add 0%Z l.

(** ** Datasets

    A cell of a dataset is a string or a list of token ids.  A dataset, and
    a batch of one, is a dictionary from column names to columns; an
    example is a dictionary from column names to cells. *)
Inductive value : Type :=
| VStr (s : string)
| VIds (ids : list Z).

Definition table : Type := dict (list value).
Definition example : Type := dict value.

Definition column_names (t : table) : list string := keys t.

Definition num_rows (t : table) : nat :=
  match t with
  | [] => 0
  | (_, c) :: _ => length c
  end.

Definition row_at (t : table) (i : nat) : example :=
  map (fun kc => (fst kc, nth i (snd kc) (VStr ""))) t.

Definition rows (t : table) : list example :=
  map (row_at t) (seq 0 (num_rows t)).

(** The table of a list of examples: the columns of the first one. *)
Definition of_rows (rs : list example) : result table :=
  match rs with
  | [] => Ok []
  | r :: _ =>
      mapM (fun k => c <- mapM (get k) rs ;; Ok (k, c)) (keys r)
  end.

Definition slice_rows (start n : nat) (t : table) : table :=
  map (fun kc => (fst kc, firstn n (skipn start (snd kc)))) t.

(** [len(x)], a string counted in characters, and the text of [x] in a
    string concatenation. *)
Definition py_len (v : value) : Z :=
  match v with
  | VStr s => Z.of_nat (String.length s)
  | VIds l => Z.of_nat (length l)
  end.

Definition as_str (v : value) : result string :=
  match v with
  | VStr s => Ok s
  | VIds _ => Raise TypeError
  end.

(** The text of [x] in an f-string. *)
Definition py_str (v : value) : string :=
  match v with
  | VStr s => s
  | VIds l => ("[" ++ String.concat ", " (map str_of_Z l) ++ "]")%string
  end.

(** *** The [datasets] library: [Dataset.map], [filter], [remove_columns],
        [train_test_split]

    [map] and [filter] hand the function one example at a time, or with
    [batched=True] one batch of at most [batch_size] rows at a time, and put
    the results together in order. *)
Definition batch_size : nat := 1000.

Definition batches (t : table) : list table :=
  map (fun b => slice_rows (b * batch_size) batch_size t)
      (seq 0 ((num_rows t + (batch_size - 1)) / batch_size)).

(** The columns of the first output, each the concatenation of that
    column over the outputs. *)
Definition concat_tables (outs : list table) : result table :=
  match outs with
  | [] => Ok []
  | o :: _ =>
      mapM (fun k => cs <- mapM (get k) outs ;; Ok (k, concat cs)) (keys o)
  end.

Definition map_batched (f : table -> result table) (t : table) : result table :=
  match batches t with
  | [] => Ok t
  | bs => outs <- mapM f bs ;; concat_tables outs
  end.

Definition map_examples (f : example -> result example) (t : table) : result table :=
  match rows t with
  | [] => Ok t
  | rs => outs <- mapM f rs ;; of_rows outs
  end.

(** The elements of [l] whose mask bit is set. *)
Fixpoint select {A} (mask : list bool) (l : list A) : list A :=
  match mask, l with
  | true :: m, a :: l' => a :: select m l'
  | false :: m, _ :: l' => select m l'
  | _, _ => []
  end.

Definition filter_examples (p : example -> result bool) (t : table) : result table :=
  mask <- mapM p (rows t) ;;
  Ok (map (fun kc => (fst kc, select mask (snd kc))) t).

Definition filter_with_indices (p : example -> Z -> result bool) (t : table)
  : result table :=
  mask <- mapM (fun i => p (row_at t i) (Z.of_nat i)) (seq 0 (num_rows t)) ;;
  Ok (map (fun kc => (fst kc, select mask (snd kc))) t).

(** [remove_columns] refuses a name that is not a column. *)
Definition remove_columns (names : list string) (t : table) : result table :=
  if forallb (fun n => mem n (column_names t)) names
  then Ok (filter (fun kc => negb (mem (fst kc) names)) t)
  else Raise ValueError.

(** A [DatasetDict] applies each operation to every split. *)
Definition dataset_dict : Type := dict table.

Definition on_splits (f : table -> result table) (d : dataset_dict)
  : result dataset_dict :=
  mapM (fun kt => t' <- f (snd kt) ;; Ok (fst kt, t')) d.

(** *** The DialogSum records

    The dataset [knkarthick/dialogsum] has the string columns [id],
    [dialogue], [summary] and [topic].  A table whose columns are computed
    row by row from a list of records is given by the list of its column
    names, each with the function that computes its cell. *)
Record DialogSum : Type := {
  id : string;
  dialogue : string;
  summary : string;
  topic : string
}.

Definition schema (R : Type) : Type := list (string * (R -> value)).

Definition cols_of {R} (fs : schema R) (rs : list R) : table :=
  map (fun kf => (fst kf, map (snd kf) rs)) fs.

Definition row_of {R} (fs : schema R) (r : R) : example :=
  map (fun kf => (fst kf, snd kf r)) fs.

Definition dialogsum : schema DialogSum :=
  [("id", fun r => VStr (id r));
   ("dialogue", fun r => VStr (dialogue r));
   ("summary", fun r => VStr (summary r));
   ("topic", fun r => VStr (topic r))].

Definition table_of (rs : list DialogSum) : table := cols_of dialogsum rs.

(** ** The third-party libraries

    What the notebooks call and do not define: tokenizers and models of
    [transformers], [datasets], [trl], [evaluate], [numpy], [pandas], [glob]
    and the floating-point arithmetic of Python.  Calls that depend on, or
    change, the state of the process (sampling, model weights, the file
    system) take and return a [world]. *)

(** The value of a keyword argument: [max_new_tokens=100], [top_p=1.0],
    [do_sample=True], [padding="max_length"], [top_k=None]. *)
Inductive kwarg : Type :=
| KInt (n : Z)
| KFloat (text : string)
| KBool (b : bool)
| KStr (s : string)
| KNone.

Class Libraries : Type := {
  (** Python floats: [a / b] on integers with [b <> 0], and [format(x, spec)]. *)
  float : Type;
  truediv : Z -> Z -> float;
  format_float : string -> float -> string;
  (** [ceil(test_size * n)] in floating point, [test_size] as written. *)
  ceil_mul : string -> nat -> nat;
  (** [numpy.random.default_rng(seed).permutation(n)]. *)
  permutation : Z -> nat -> list nat;
  np_mean : list float -> float;
  np_std : list float -> float;

  (** [AutoTokenizer.from_pretrained(name)];
      [tokenizer(text, padding=p, truncation=t).input_ids] for one text;
      [tokenizer.encode(text)]; [tokenizer.decode(ids, skip_special_tokens=b)]. *)
  tokenizer : Type;
  auto_tokenizer : string -> tokenizer;
  tokenize_text : tokenizer -> kwarg -> bool -> string -> list Z;
  encode : tokenizer -> string -> list Z;
  decode : tokenizer -> bool -> list Z -> string;
  (** [datasets.load_dataset(name, split=s)]. *)
  hub_dataset : string -> string -> dict (list value);

  world : Type;
  model : Type;
  evaluator : Type;
  stats : Type;
  (** [model.generate(input_ids=ids, generation_config=GenerationConfig(..))[0]]. *)
  model_generate : model -> list Z -> dict kwarg -> world -> list Z * world;
  (** [toxicity_evaluator.compute(predictions=texts)], key [toxicity]. *)
  toxicity : evaluator -> list string -> list float;
  (** [LengthSampler(min_value, max_value)()]. *)
  length_sampler : Z -> Z -> world -> Z * world;
  (** [ppo_trainer.generate(prompt, **kwargs)]: the row of the tensor of
      shape (1, L) that it returns for the one prompt. *)
  trainer_generate : list Z -> dict kwarg -> world -> list Z * world;
  (** [sentiment_pipe(texts, **kwargs)]: for each text the list of its
      dictionaries, one per label, whose key [score] holds the score. *)
  sentiment_pipe : list string -> dict kwarg -> list (list (dict float));
  (** [ppo_trainer.step(queries, responses, rewards)] returns the statistics
      or raises; so does [ppo_trainer.log_stats(stats, batch, rewards)];
      [stats[key]] as an f-string prints it, an exception when the
      statistics have no such entry. *)
  trainer_step : list (list Z) -> list (list Z) -> list float -> world
                 -> result stats * world;
  trainer_log_stats : stats -> dict (list value) -> list float -> world
                      -> result unit * world;
  stat_text : stats -> string -> result string;

  (** [glob.glob(pattern)], [pandas.read_csv(f, sep=s, header=h)] and
      [pandas.concat(frames, ignore_index=b)]. *)
  dataframe : Type;
  glob : string -> world -> list string;
  read_csv : string -> string -> Z -> world -> dataframe;
  pd_concat : list dataframe -> bool -> result dataframe
}.

(** ** Effects: the state of the process and the calls made so far *)
Section Effects.

Context {L : Libraries}.

Inductive event : Type :=
| EvModelGenerate (m : model) (input_ids : list Z) (config : dict kwarg)
| EvToxicity (ev : evaluator) (predictions : list string)
| EvLengthSampler (n : Z)
| EvTrainerGenerate (prompt : list Z) (kwargs : dict kwarg) (returned : list Z)
| EvSentimentPipe (texts : list string) (kwargs : dict kwarg)
| EvTrainerStep (queries responses : list (list Z)) (rewards : list float)
                (returned : result stats)
| EvLogStats (statistics : stats) (batch : dict (list value))
             (rewards : list float)
| EvPrint (text : string).

Record state : Type := {
  the_world : world;
  trace : list event
}.

(** A computation runs from a state to a result, or an exception, and a
    state. *)
Definition M (A : Type) : Type := state -> result A * state.

Definition ret {A} (a : A) : M A := fun s => (Ok a, s).

Definition bind {A B} (m : M A) (f : A -> M B) : M B :=
  fun s =>
    match m s with
    | (Ok a, s') => f a s'
    | (Raise e, s') => (Raise e, s')
    end.

Definition lift {A} (r : result A) : M A := fun s => (r, s).

(** A library call that uses the world, recorded in the trace. *)
Definition call {A} (f : world -> A * world) (ev : A -> event) : M A :=
  fun s =>
    let (a, w) := f (the_world s) in
    (Ok a, {| the_world := w; trace := trace s ++ [ev a] |}).

(** A library call that uses the world and may raise; the call is
    recorded with its outcome. *)
Definition try_call {A} (f : world -> result A * world)
           (ev : result A -> event) : M A :=
  fun s =>
    let (r, w) := f (the_world s) in
    (r, {| the_world := w; trace := trace s ++ [ev r] |}).

(** A library call that does not. *)
Definition pure_call {A} (a : A) (ev : event) : M A :=
  fun s => (Ok a, {| the_world := the_world s; trace := trace s ++ [ev] |}).

Definition print (text : string) : M unit := pure_call tt (EvPrint text).

End Effects.

Notation "x <~ m ;; k" := (bind m (fun x => k))
  (at level 61, m at next level, right associativity).
Notation "m ;;; k" := (bind m (fun _ => k))
  (at level 61, right associativity).

(** ** The supervised fine-tuning notebook *)
Module Peft.
Section Peft.

Context {L : Libraries}.

(** A parameter of a model: [param.numel()] and [param.requires_grad];
    a model through [model.named_parameters()]. *)
Record parameter : Type := {
  numel : N;
  requires_grad : bool
}.

Definition named_parameters : Type := list (string * parameter).

(** The two counters after the loop over the parameters (cell 6). *)
Definition count_parameters (model : named_parameters) : Z * Z :=
  fold_left
    (fun (acc : Z * Z) (np : string * parameter) =>
       let (trainable_model_params, all_model_params) := acc in
       let param := snd np in
       let all_model_params := (all_model_params + Z.of_N (numel param))%Z in
       if requires_grad param
       then ((trainable_model_params + Z.of_N (numel param))%Z, all_model_params)
       else (trainable_model_params, all_model_params))
    model (0%Z, 0%Z).

(** [100 * trainable_model_params / all_model_params], formatted. *)
Definition percentage (spec : string) (trainable all : Z) : result string :=
  if (all =? 0)%Z then Raise ZeroDivisionError
  else Ok (format_float spec (truediv (100 * trainable) all)).

Definition print_number_of_trainable_model_parameters
           (model : named_parameters) : result string :=
  let (trainable_model_params, all_model_params) := count_parameters model in
  p <- percentage "" trainable_model_params all_model_params ;;
  Ok ("trainable model parameters: " ++ str_of_Z trainable_model_params ++ nl
      ++ "all model parameters: " ++ str_of_Z all_model_params ++ nl
      ++ "percentage of trainable model parameters: " ++ p ++ "%")%string.

(** The tokenizer called on a list of texts.  With [padding="max_length"]
    each text is padded to the model's maximum length whatever the other
    texts are, so the ids of a batch are the ids of each of its texts. *)
Definition tokenizer_call (tk : tokenizer) (texts : list string)
           (padding : kwarg) (truncation : bool) : list value :=
  map (fun t => VIds (tokenize_text tk padding truncation t)) texts.

(** The texts of a column handed to the tokenizer.  The tokenizer looks
    at the first cell and refuses, with [ValueError], a column that
    starts with a list of ids; a later cell that is not a string is
    refused when it is encoded, with [TypeError]. *)
Definition texts_of_column (cells : list value) : result (list string) :=
  match cells with
  | VIds (_ :: _) :: _ => Raise ValueError
  | _ => mapM as_str cells
  end.

(** [start_prompt + dialogue + end_prompt]. *)
Definition start_prompt : string :=
  ("Summarize the following conversation." ++ nl ++ nl)%string.
Definition end_prompt : string := (nl ++ nl ++ "Summary: ")%string.

(** Cell 10; [tokenizer] is the global of cell 5. *)
Definition tokenize_function (tokenizer : tokenizer) (example : table)
  : result table :=
  dialogues <- get "dialogue" example ;;
  prompt <- mapM (fun dialogue =>
                    d <- as_str dialogue ;;
                    Ok (start_prompt ++ d ++ end_prompt)%string) dialogues ;;
  let example :=
    set "input_ids" (tokenizer_call tokenizer prompt (KStr "max_length") true)
        example in
  summaries <- get "summary" example ;;
  summaries <- texts_of_column summaries ;;
  let example :=
    set "labels" (tokenizer_call tokenizer summaries (KStr "max_length") true)
        example in
  Ok example.

(** Cells 10 and 11: [dataset.map(tokenize_function, batched=True)],
    [remove_columns] and [filter(lambda example, index: index % 100 == 0,
    with_indices=True)]. *)
Definition tokenized_datasets (tokenizer : tokenizer) (dataset : dataset_dict)
  : result dataset_dict :=
  tokenized_datasets <- on_splits (map_batched (tokenize_function tokenizer)) dataset ;;
  tokenized_datasets <-
    on_splits (remove_columns ["id"; "topic"; "dialogue"; "summary"])
              tokenized_datasets ;;
  on_splits (filter_with_indices
               (fun example index => Ok ((index mod 100 =? 0)%Z)))
            tokenized_datasets.

(** What the specification says of the tokenized dataset: the columns
    [input_ids] and [labels] of the examples whose index is a multiple of
    100.  A split without examples goes through [map] unchanged and is
    left without columns. *)
Definition every_100th {A} (l : list A) : list A :=
  select (map (fun i => (Z.of_nat i mod 100 =? 0)%Z) (seq 0 (length l))) l.

Definition tokenized (tokenizer : tokenizer) : schema DialogSum :=
  [("input_ids",
    fun r => VIds (tokenize_text tokenizer (KStr "max_length") true
                     (start_prompt ++ dialogue r ++ end_prompt)));
   ("labels",
    fun r => VIds (tokenize_text tokenizer (KStr "max_length") true (summary r)))].

Definition expected (tokenizer : tokenizer) (rs : list DialogSum) : table :=
  match rs with
  | [] => []
  | _ => cols_of (tokenized tokenizer) (every_100th rs)
  end.

End Peft.
End Peft.

(** ** The RLHF notebook *)
Module Rlhf.
Section Rlhf.

Context {L : Libraries}.

(** *** [build_dataset] (cell 5) *)

(** The rows of the given indices. *)
Definition take_rows (idx : list nat) (t : table) : table :=
  map (fun kc => (fst kc, map (fun i => nth i (snd kc) (VStr "")) idx)) t.

(** [train_test_split(test_size, shuffle, seed)] of the [datasets]
    library.  A dataset without rows is returned as it is for both splits.
    Otherwise the test set has [ceil(test_size * n)] rows and the train
    set the others, and an empty train set is refused.  Without shuffling
    the train set is the first rows and the test set the rows after them;
    with shuffling both are taken from a permutation, the test set
    first. *)
Definition train_test_split (test_size : string) (shuffle : bool) (seed : Z)
           (t : table) : result dataset_dict :=
  let n_samples := num_rows t in
  let n_test := ceil_mul test_size n_samples in
  let n_train := n_samples - n_test in
  if (n_samples =? 0)%nat then Ok [("train", t); ("test", t)]
  else if (n_samples <? n_test)%nat || (n_train =? 0)%nat then Raise ValueError
  else if shuffle
  then let p := permutation seed n_samples in
       Ok [("train", take_rows (firstn n_train (skipn n_test p)) t);
           ("test", take_rows (firstn n_test p) t)]
  else Ok [("train", take_rows (seq 0 n_train) t);
           ("test", take_rows (seq n_train n_test) t)].

(** The instruction around a dialogue. *)
Definition prompt_of (dialogue : string) : string :=
  (nl ++ "Summarize the following conversation." ++ nl ++ nl
      ++ dialogue ++ nl ++ nl ++ "Summary:" ++ nl)%string.

(** The inner function [tokenize]. *)
Definition tokenize (tokenizer : tokenizer) (sample : example) : result example :=
  dialogue <- get "dialogue" sample ;;
  let prompt := prompt_of (py_str dialogue) in
  let sample := set "input_ids" (VIds (encode tokenizer prompt)) sample in
  input_ids <- get "input_ids" sample ;;
  query <- match input_ids with
           | VIds ids => Ok (decode tokenizer false ids)
           | VStr _ => Raise TypeError
           end ;;
  let sample := set "query" (VStr query) sample in
  Ok sample.

(** [set_format(type="torch")] changes the type in which the cells are
    returned, not the table, and is left out. *)
Definition build_dataset (model_name dataset_name : string)
           (input_min_text_length input_max_text_length : Z)
  : result dataset_dict :=
  let dataset := hub_dataset dataset_name "train" in
  dataset <- filter_examples
               (fun x =>
                  d <- get "dialogue" x ;;
                  if (py_len d >? input_min_text_length)%Z
                  then d' <- get "dialogue" x ;;
                       Ok (py_len d' <=? input_max_text_length)%Z
                  else Ok false)
               dataset ;;
  let tokenizer := auto_tokenizer model_name in
  dataset <- map_examples (tokenize tokenizer) dataset ;;
  dataset_splits <- train_test_split "0.2" false 42 dataset ;;
  Ok dataset_splits.

(** What the specification says of the result of [build_dataset]: the
    examples kept are those whose dialogue has more than
    [input_min_text_length] and at most [input_max_text_length]
    characters; each carries, after the columns of the dataset, the ids of
    the prompt around its dialogue and the text decoded from these ids. *)
Definition in_range (input_min_text_length input_max_text_length : Z)
           (r : DialogSum) : bool :=
  let len := Z.of_nat (String.length (dialogue r)) in
  ((len >? input_min_text_length) && (len <=? input_max_text_length))%Z.

Definition with_query (tokenizer : tokenizer) : schema DialogSum :=
  dialogsum
    ++ [("input_ids", fun r => VIds (encode tokenizer (prompt_of (dialogue r))));
        ("query",
         fun r => VStr (decode tokenizer false
                          (encode tokenizer (prompt_of (dialogue r)))))].

(** *** [print_number_of_trainable_model_parameters] (cell 8): the copy of
    the fine-tuning notebook's function with a leading newline and the
    percentage printed with two decimals. *)
Definition print_number_of_trainable_model_parameters
           (model : Peft.named_parameters) : result string :=
  let (trainable_model_params, all_model_params) := Peft.count_parameters model in
  p <- Peft.percentage ".2f" trainable_model_params all_model_params ;;
  Ok (nl ++ "trainable model parameters: " ++ str_of_Z trainable_model_params ++ nl
      ++ "all model parameters: " ++ str_of_Z all_model_params ++ nl
      ++ "percentage of trainable model parameters: " ++ p ++ "%")%string.

(** *** [evaluate_toxicity] (cell 24) *)

Definition generation_config (max_new_tokens : Z) : dict kwarg :=
  [("max_new_tokens", KInt max_new_tokens); ("tok_k", KFloat "0.0");
   ("top_p", KFloat "1.0"); ("do_sample", KBool true)].

(** The body of the loop for one sample that is not past [num_samples]:
    the scores it adds to [toxicities]. *)
Definition score_sample (model : model) (toxicity_evaluator : evaluator)
           (tokenizer : tokenizer) (max_new_tokens : Z) (input_text : value)
  : M (list float) :=
  text <~ lift (as_str input_text) ;;
  let input_ids := tokenize_text tokenizer (KBool true) false text in
  let generation_config := generation_config max_new_tokens in
  response_token_ids <~
    call (model_generate model input_ids generation_config)
         (fun _ => EvModelGenerate model input_ids generation_config) ;;
  let generated_text := decode tokenizer true response_token_ids in
  let predictions := [(text ++ " " ++ generated_text)%string] in
  pure_call (toxicity toxicity_evaluator predictions)
            (EvToxicity toxicity_evaluator predictions).

(** The loop over [enumerate(dataset)], from index [i]. *)
Fixpoint toxicity_loop (model : model) (toxicity_evaluator : evaluator)
         (tokenizer : tokenizer) (num_samples max_new_tokens : Z)
         (i : Z) (dataset : list example) (toxicities : list float)
  : M (list float) :=
  match dataset with
  | [] => ret toxicities
  | sample :: rest =>
      input_text <~ lift (get "query" sample) ;;
      if (i >? num_samples)%Z then ret toxicities
      else
        toxicity_score <~ score_sample model toxicity_evaluator tokenizer
                                       max_new_tokens input_text ;;
        toxicity_loop model toxicity_evaluator tokenizer num_samples
                      max_new_tokens (i + 1)%Z rest
                      (toxicities ++ toxicity_score)
  end.

Definition evaluate_toxicity (model : model) (toxicity_evaluator : evaluator)
           (tokenizer : tokenizer) (dataset : list example) (num_samples : Z)
  : M (float * float) :=
  let max_new_tokens := 100%Z in
  toxicities <~ toxicity_loop model toxicity_evaluator tokenizer num_samples
                              max_new_tokens 0%Z dataset [] ;;
  let mean := np_mean toxicities in
  let std := np_std toxicities in
  ret (mean, std).

(** What the specification says of [evaluate_toxicity]: each of the
    given texts, in order, is tokenized, a response is generated for it
    and the text followed by the response is scored.  The scores and the
    state after the last text. *)
Fixpoint score_all (model : model) (toxicity_evaluator : evaluator)
         (tokenizer : tokenizer) (max_new_tokens : Z) (texts : list string)
         (s : state) : list float * state :=
  match texts with
  | [] => ([], s)
  | text :: rest =>
      let input_ids := tokenize_text tokenizer (KBool true) false text in
      let config := generation_config max_new_tokens in
      let (response, w) := model_generate model input_ids config (the_world s) in
      let predictions := [(text ++ " " ++ decode tokenizer true response)%string] in
      let s' := {| the_world := w;
                   trace := (trace s ++ [EvModelGenerate model input_ids config])
                              ++ [EvToxicity toxicity_evaluator predictions] |} in
      let (scores, s'') :=
        score_all model toxicity_evaluator tokenizer max_new_tokens rest s' in
      (toxicity toxicity_evaluator predictions ++ scores, s'')
  end.

(** The inputs of the generations and the number of scorings in a trace. *)
Definition generated (evs : list event) : list (list Z) :=
  flat_map (fun e => match e with
                     | EvModelGenerate _ input_ids _ => [input_ids]
                     | _ => []
                     end) evs.

Definition scorings (evs : list event) : nat :=
  length (filter (fun e => match e with
                           | EvToxicity _ _ => true
                           | _ => false
                           end) evs).

(** *** The fine-tuning loop (cell 32) *)

Definition output_min_length : Z := 100.
Definition output_max_length : Z := 400.

Definition generation_kwargs : dict kwarg :=
  [("min_length", KInt 5); ("top_k", KFloat "0.0"); ("top_p", KFloat "1.0");
   ("do_sample", KBool true)].

Definition reward_kwargs : dict kwarg :=
  [("top_k", KNone); ("function_to_apply", KStr "none"); ("batch_size", KInt 16)].

Definition max_ppo_steps : Z := 10.

(** Cell 16. *)
Definition not_hate_index : nat := 0.

Definition as_ids (v : value) : result (list Z) :=
  match v with
  | VIds ids => Ok ids
  | VStr _ => Raise TypeError
  end.

Definition item {A} (l : list A) (i : nat) : result A :=
  match nth_error l i with
  | Some a => Ok a
  | None => Raise IndexError
  end.

(** [t.squeeze()[-n:]] for a tensor [t] of shape (1, L) with the row
    [row]: [squeeze] leaves a vector of the [L] elements, of which the
    slice takes the last [n]; but when [L] is 1 it leaves a tensor
    without dimension, and slicing that raises [IndexError]. *)
Definition squeeze_last (n : Z) (row : list Z) : result (list Z) :=
  if (length row =? 1)%nat then Raise IndexError
  else Ok (slice_from (- n) row).

(** The inner loop over the prompts of a batch.  The dictionary
    [generation_kwargs] is the notebook's global: the value the loop
    leaves in it is returned with the summaries. *)
Fixpoint generate_summaries (prompt_tensors : list (list Z))
         (generation_kwargs : dict kwarg) (summary_tensors : list (list Z))
  : M (list (list Z) * dict kwarg) :=
  match prompt_tensors with
  | [] => ret (summary_tensors, generation_kwargs)
  | prompt_tensor :: rest =>
      max_new_tokens <~
        call (length_sampler output_min_length output_max_length)
             EvLengthSampler ;;
      let generation_kwargs :=
        set "max_new_tokens" (KInt max_new_tokens) generation_kwargs in
      summary <~
        call (trainer_generate prompt_tensor generation_kwargs)
             (EvTrainerGenerate prompt_tensor generation_kwargs) ;;
      summary <~ lift (squeeze_last max_new_tokens summary) ;;
      generate_summaries rest generation_kwargs (summary_tensors ++ [summary])
  end.

Definition dash_line : string := String.concat "-" (repeat "" 100).

(** The body of the loop for one batch of the data loader. *)
Definition ppo_iteration (tokenizer : tokenizer) (batch : table)
           (generation_kwargs : dict kwarg) : M (dict kwarg) :=
  prompt_tensors <~ lift (c <- get "input_ids" batch ;; mapM as_ids c) ;;
  r <~ generate_summaries prompt_tensors generation_kwargs [] ;;
  let summary_tensors := fst r in
  let generation_kwargs := snd r in
  let batch :=
    set "response"
        (map (fun r => VStr (decode tokenizer false r)) summary_tensors)
        batch in
  query_response_pairs <~
    lift (queries <- get "query" batch ;;
          responses <- get "response" batch ;;
          mapM (fun qr => q <- as_str (fst qr) ;;
                          r <- as_str (snd qr) ;;
                          Ok (q ++ r)%string)
               (combine queries responses)) ;;
  rewards <~
    pure_call (sentiment_pipe query_response_pairs reward_kwargs)
              (EvSentimentPipe query_response_pairs reward_kwargs) ;;
  reward_tensors <~
    lift (mapM (fun reward => d <- item reward not_hate_index ;; get "score" d)
               rewards) ;;
  stats <~
    try_call (trainer_step prompt_tensors summary_tensors reward_tensors)
             (EvTrainerStep prompt_tensors summary_tensors reward_tensors) ;;
  try_call (trainer_log_stats stats batch reward_tensors)
           (fun _ => EvLogStats stats batch reward_tensors) ;;;
  kl <~ lift (stat_text stats "objective/kl") ;;
  print ("objective/kl: " ++ kl) ;;;
  returns_mean <~ lift (stat_text stats "ppo/returns/mean") ;;
  print ("ppo/returns/mean: " ++ returns_mean) ;;;
  advantages_mean <~ lift (stat_text stats "ppo/policy/advantages_mean") ;;
  print ("ppo/policy/advantages_mean: " ++ advantages_mean) ;;;
  print dash_line ;;;
  ret generation_kwargs.

(** The loop over [enumerate(ppo_trainer.dataloader)], from index [step]. *)
Fixpoint ppo_loop (tokenizer : tokenizer) (step : Z) (dataloader : list table)
         (generation_kwargs : dict kwarg) : M (dict kwarg) :=
  match dataloader with
  | [] => ret generation_kwargs
  | batch :: rest =>
      if (step >=? max_ppo_steps)%Z then ret generation_kwargs
      else
        generation_kwargs <~ ppo_iteration tokenizer batch generation_kwargs ;;
        ppo_loop tokenizer (step + 1)%Z rest generation_kwargs
  end.

Definition fine_tune (tokenizer : tokenizer) (dataloader : list table)
  : M (dict kwarg) :=
  ppo_loop tokenizer 0%Z dataloader generation_kwargs.

(** Cell 30: [config = PPOConfig(.., batch_size=batch_size)] with
    [batch_size=16]. *)
Definition batch_size : nat := 16.

(** A batch of the data loader has a column [input_ids] of [batch_size]
    tensors and a column [query] of as many strings. *)
Definition well_formed (batch : table) : Prop :=
  exists prompts queries,
    get "input_ids" batch = Ok (map VIds prompts)
    /\ get "query" batch = Ok (map VStr queries)
    /\ length prompts = batch_size
    /\ length queries = batch_size.

(** What the loop relies on from the libraries. *)
Record contracts : Prop := {
  (** [LengthSampler(lo, hi)] draws from [range(lo, hi)]. *)
  sampler_range :
    forall lo hi w, (lo < hi)%Z ->
                    (lo <= fst (length_sampler lo hi w) < hi)%Z;
  (** With [min_length = 5] a generation is not a single token. *)
  generation_length :
    forall prompt kwargs w,
      get "min_length" kwargs = Ok (KInt 5) ->
      length (fst (trainer_generate prompt kwargs w)) <> 1;
  (** With [top_k=None] the pipeline returns for each text the score of
      every label, and the model has labels. *)
  pipeline_scores :
    forall texts,
      Forall (fun reward =>
                exists d r, nth_error reward not_hate_index = Some d
                            /\ get "score" d = Ok r)
             (sentiment_pipe texts reward_kwargs);
  pipeline_length :
    forall texts, length (sentiment_pipe texts reward_kwargs) = length texts;
  (** [ppo_trainer.step] returns when it is given [batch_size] queries,
      responses and rewards, and its statistics have the entries the loop
      prints. *)
  step_returns :
    forall queries responses rewards w,
      length queries = batch_size ->
      length responses = batch_size ->
      length rewards = batch_size ->
      exists stats, fst (trainer_step queries responses rewards w) = Ok stats;
  step_statistics :
    forall queries responses rewards w stats key,
      fst (trainer_step queries responses rewards w) = Ok stats ->
      In key ["objective/kl"; "ppo/returns/mean"; "ppo/policy/advantages_mean"] ->
      exists text, stat_text stats key = Ok text;
  (** [ppo_trainer.log_stats] returns for a batch with the columns
      [query] and [response]. *)
  log_stats_returns :
    forall stats batch rewards w,
      In "query" (column_names batch) ->
      In "response" (column_names batch) ->
      fst (trainer_log_stats stats batch rewards w) = Ok tt
}.

(** The last [n] tokens of [row], all of them when it has fewer. *)
Definition last_tokens (n : Z) (row : list Z) : list Z :=
  skipn (length row - Z.to_nat n) row.

(** The calls of the inner loop: for each prompt the sampling of a length
    and the generation, with what it returned. *)
Definition generations (prompts : list (list Z)) (lengths : list Z)
           (kwargs : list (dict kwarg)) (returned : list (list Z))
  : list event :=
  flat_map (fun x => [EvLengthSampler (snd (fst (fst x)));
                      EvTrainerGenerate (fst (fst (fst x))) (snd (fst x)) (snd x)])
           (combine (combine (combine prompts lengths) kwargs) returned).

(** What the specification says of one iteration, as a property of the
    calls [evs] it makes for [batch]: for each prompt of the batch, in
    order, a length is sampled and [ppo_trainer.generate] is called with
    it as [max_new_tokens]; the summary kept for the prompt is what that
    call returned, truncated to its last [max_new_tokens] tokens; the
    queries followed by the decoded summaries are scored by the reward
    pipeline; then [ppo_trainer.step] is called once, with the prompts,
    these summaries and the score read at [not_hate_index] for each pair;
    the statistics it returns are logged and printed. *)
Definition four_stages (tokenizer : tokenizer) (batch : table)
           (evs : list event) : Prop :=
  exists (prompts : list (list Z)) (queries : list string)
         (lengths : list Z) (kwargs : list (dict kwarg))
         (returned : list (list Z)) (rewards : list float) (stats : stats)
         (kl returns_mean advantages_mean : string),
    get "input_ids" batch = Ok (map VIds prompts)
    /\ get "query" batch = Ok (map VStr queries)
    /\ length lengths = length prompts
    /\ length kwargs = length prompts
    /\ length returned = length prompts
    /\ Forall2 (fun kw n => get "max_new_tokens" kw = Ok (KInt n)) kwargs lengths
    /\ let summaries :=
         map (fun x => last_tokens (snd x) (fst x)) (combine returned lengths) in
       let responses := map (decode tokenizer false) summaries in
       let pairs :=
         map (fun qr => (fst qr ++ snd qr)%string) (combine queries responses) in
       Forall2 (fun summary n => (Z.of_nat (length summary) <= n)%Z)
               summaries lengths
       /\ Forall2 (fun reward r =>
                     exists d, nth_error reward not_hate_index = Some d
                               /\ get "score" d = Ok r)
                  (sentiment_pipe pairs reward_kwargs) rewards
       /\ stat_text stats "objective/kl" = Ok kl
       /\ stat_text stats "ppo/returns/mean" = Ok returns_mean
       /\ stat_text stats "ppo/policy/advantages_mean" = Ok advantages_mean
       /\ evs = generations prompts lengths kwargs returned
                ++ [EvSentimentPipe pairs reward_kwargs;
                    EvTrainerStep prompts summaries rewards (Ok stats);
                    EvLogStats stats (set "response" (map VStr responses) batch)
                               rewards;
                    EvPrint ("objective/kl: " ++ kl);
                    EvPrint ("ppo/returns/mean: " ++ returns_mean);
                    EvPrint ("ppo/policy/advantages_mean: " ++ advantages_mean);
                    EvPrint dash_line].

(** The number of calls of [ppo_trainer.step] in a trace. *)
Definition steps (evs : list event) : nat :=
  length (filter (fun e => match e with
                           | EvTrainerStep _ _ _ _ => true
                           | _ => false
                           end) evs).

End Rlhf.
End Rlhf.

(** ** The data-quality notebook *)
Module DataQuality.
Section DataQuality.

Context {L : Libraries}.

(** Cell 32.  The files are read in the order [glob] lists them. *)
Definition load_dataset (path sep : string) (header : Z) (w : world)
  : result dataframe :=
  let data :=
    pd_concat
      (map (fun f => read_csv f sep header w) (glob (path ++ "/*.csv") w))
      true in
  data.

End DataQuality.
End DataQuality.

(** The cell of an example at a key, when it has one. *)
Definition at_key (k : string) (d : example) : value :=
  match get k d with
  | Ok v => v
  | Raise _ => VStr ""
  end.

(** ** The data collator and the comparison of the RLHF notebook *)
Module RlhfCells.
Section RlhfCells.

Context {L : Libraries}.

(** [dict(pairs)]: a later pair replaces the value of an earlier one with
    the same key. *)
Definition dict_of {A} (pairs : list (string * A)) : dict A :=
  fold_left (fun d kv => set (fst kv) (snd kv) d) pairs [].

(** Cell 30: [dict((key, [d[key] for d in data]) for key in data[0])]. *)
Definition collator (data : list example) : result table :=
  first <- Rlhf.item data 0 ;;
  pairs <- mapM (fun key => column <- mapM (get key) data ;; Ok (key, column))
                (keys first) ;;
  Ok (dict_of pairs).

(** The length sampled last in a trace, if any: what the loops leave in
    the global [generation_kwargs] as [max_new_tokens]. *)
Definition last_sampled (evs : list event) : option Z :=
  fold_left (fun last e => match e with
                           | EvLengthSampler n => Some n
                           | _ => last
                           end) evs None.

(** [generation_kwargs] after the samplings of a trace. *)
Definition after_sampling (generation_kwargs : dict kwarg) (evs : list event)
  : dict kwarg :=
  match last_sampled evs with
  | Some n => set "max_new_tokens" (KInt n) generation_kwargs
  | None => generation_kwargs
  end.

(** *** The comparison of the two models (cell 37) *)

Definition batch_size : nat := 20.

(** A column of [compare_results]: cells of the dataset or rewards. *)
Inductive column : Type :=
| Cells (l : list value)
| Rewards (l : list float).

Definition cells (c : column) : result (list value) :=
  match c with
  | Cells l => Ok l
  | Rewards _ => Raise TypeError
  end.

Definition column_length (c : column) : nat :=
  match c with
  | Cells l => length l
  | Rewards l => length l
  end.

(** The loop over [range(batch_size)].  [ref_model.generate(input_ids=..,
    **generation_kwargs)] is a tensor of shape (1, L) for the one prompt
    given.  The loop returns the two lists of summaries and the value it
    leaves in the global [generation_kwargs]. *)
Fixpoint comparison_loop (ref_model ppo_model : model)
         (prompt_tensors : list value) (indices : list nat)
         (generation_kwargs : dict kwarg)
         (summary_tensors_ref summary_tensors : list (list Z))
  : M (list (list Z) * list (list Z) * dict kwarg) :=
  match indices with
  | [] => ret (summary_tensors_ref, summary_tensors, generation_kwargs)
  | i :: rest =>
      gen_len <~
        call (length_sampler Rlhf.output_min_length Rlhf.output_max_length)
             EvLengthSampler ;;
      let generation_kwargs :=
        set "max_new_tokens" (KInt gen_len) generation_kwargs in
      input_ids <~ lift (p <- Rlhf.item prompt_tensors i ;; Rlhf.as_ids p) ;;
      summary <~
        call (model_generate ref_model input_ids generation_kwargs)
             (fun _ => EvModelGenerate ref_model input_ids generation_kwargs) ;;
      summary <~ lift (Rlhf.squeeze_last gen_len summary) ;;
      let summary_tensors_ref := summary_tensors_ref ++ [summary] in
      input_ids <~ lift (p <- Rlhf.item prompt_tensors i ;; Rlhf.as_ids p) ;;
      summary <~
        call (model_generate ppo_model input_ids generation_kwargs)
             (fun _ => EvModelGenerate ppo_model input_ids generation_kwargs) ;;
      summary <~ lift (Rlhf.squeeze_last gen_len summary) ;;
      let summary_tensors := summary_tensors ++ [summary] in
      comparison_loop ref_model ppo_model prompt_tensors rest
                      generation_kwargs summary_tensors_ref summary_tensors
  end.

(** [[tokenizer.decode(tensors[i]) for i in range(batch_size)]]. *)
Definition decode_all (tokenizer : tokenizer) (tensors : list (list Z))
  : result (list value) :=
  mapM (fun i => t <- Rlhf.item tensors i ;;
                 Ok (VStr (decode tokenizer false t)))
       (seq 0 batch_size).

(** [[d + s for d, s in zip(queries, responses)]]. *)
Definition texts (queries responses : list value) : result (list string) :=
  mapM (fun ds => d <- as_str (fst ds) ;;
                  s <- as_str (snd ds) ;;
                  Ok (d ++ s)%string)
       (combine queries responses).

(** [[reward[not_hate_index]["score"] for reward in rewards]]. *)
Definition scores (rewards : list (list (dict float))) : result (list float) :=
  mapM (fun reward => d <- Rlhf.item reward Rlhf.not_hate_index ;;
                      get "score" d)
       rewards.

(** The cell: [compare_results] and the value left in
    [generation_kwargs]. *)
Definition compare (ref_model ppo_model : model) (tokenizer : tokenizer)
           (dataset : dataset_dict) (generation_kwargs : dict kwarg)
  : M (dict column * dict kwarg) :=
  let compare_results : dict column := [] in
  test <~ lift (get "test" dataset) ;;
  let df_batch := slice_rows 0 batch_size test in
  query <~ lift (get "query" df_batch) ;;
  let compare_results := set "query" (Cells query) compare_results in
  prompt_tensors <~ lift (get "input_ids" df_batch) ;;
  r <~ comparison_loop ref_model ppo_model prompt_tensors (seq 0 batch_size)
                       generation_kwargs [] [] ;;
  let summary_tensors_ref := fst (fst r) in
  let summary_tensors := snd (fst r) in
  let generation_kwargs := snd r in
  response_before <~ lift (decode_all tokenizer summary_tensors_ref) ;;
  let compare_results :=
    set "response_before" (Cells response_before) compare_results in
  response_after <~ lift (decode_all tokenizer summary_tensors) ;;
  let compare_results :=
    set "response_after" (Cells response_after) compare_results in
  texts_before <~
    lift (q <- get "query" compare_results ;; q <- cells q ;;
          r <- get "response_before" compare_results ;; r <- cells r ;;
          texts q r) ;;
  rewards_before <~
    pure_call (sentiment_pipe texts_before Rlhf.reward_kwargs)
              (EvSentimentPipe texts_before Rlhf.reward_kwargs) ;;
  reward_before <~ lift (scores rewards_before) ;;
  let compare_results :=
    set "reward_before" (Rewards reward_before) compare_results in
  texts_after <~
    lift (q <- get "query" compare_results ;; q <- cells q ;;
          r <- get "response_after" compare_results ;; r <- cells r ;;
          texts q r) ;;
  rewards_after <~
    pure_call (sentiment_pipe texts_after Rlhf.reward_kwargs)
              (EvSentimentPipe texts_after Rlhf.reward_kwargs) ;;
  reward_after <~ lift (scores rewards_after) ;;
  let compare_results :=
    set "reward_after" (Rewards reward_after) compare_results in
  ret (compare_results, generation_kwargs).

(** The calls of the loop for the prompts and the lengths sampled for
    them, when the loop starts with [generation_kwargs]: for each prompt
    the sampling, the generation of the reference model and that of the
    detoxified model, both with the sampled length as [max_new_tokens]. *)
Definition comparisons (ref_model ppo_model : model)
           (generation_kwargs : dict kwarg) (prompts : list (list Z))
           (lengths : list Z) : list event :=
  flat_map (fun x =>
              let kwargs :=
                set "max_new_tokens" (KInt (snd x)) generation_kwargs in
              [EvLengthSampler (snd x);
               EvModelGenerate ref_model (fst x) kwargs;
               EvModelGenerate ppo_model (fst x) kwargs])
           (combine prompts lengths).

(** [summary] is what the loop keeps of a generation of model [m] for
    [prompt] with the sampled length [n]: its last [n] tokens. *)
Definition summary_of (m : model) (generation_kwargs : dict kwarg)
           (prompt : list Z) (n : Z) (summary : list Z) : Prop :=
  exists w,
    summary
    = Rlhf.last_tokens
        n (fst (model_generate
                  m prompt
                  (set "max_new_tokens" (KInt n) generation_kwargs) w)).

(** The texts given to the reward pipeline, and the rewards read from
    what it returns for them. *)
Definition joined (queries responses : list string) : list string :=
  map (fun qr => (fst qr ++ snd qr)%string) (combine queries responses).

Definition rewards_of (texts : list string) (rewards : list float) : Prop :=
  Forall2 (fun reward r =>
             exists d, nth_error reward Rlhf.not_hate_index = Some d
                       /\ get "score" d = Ok r)
          (sentiment_pipe texts Rlhf.reward_kwargs) rewards.

End RlhfCells.
End RlhfCells.

(** ** The comparison of the summaries in the fine-tuning notebook *)
Module PeftCells.
Section PeftCells.

Context {L : Libraries}.

(** The ids [tokenize_function] (cell 10) computes for a dialogue and
    for a summary. *)
Definition prompt_ids (tokenizer : tokenizer) (dialogue : string) : value :=
  VIds (tokenize_text tokenizer (KStr "max_length") true
          (Peft.start_prompt ++ dialogue ++ Peft.end_prompt)).

Definition label_ids (tokenizer : tokenizer) (summary : string) : value :=
  VIds (tokenize_text tokenizer (KStr "max_length") true summary).

(** The f-string of cell 23 around a dialogue. *)
Definition prompt_of (dialogue : value) : string :=
  (nl ++ "Summarize the following conversation." ++ nl ++ nl
      ++ py_str dialogue ++ nl ++ nl ++ "Summary: ")%string.

(** [GenerationConfig(max_new_tokens=200)]. *)
Definition generation_config : dict kwarg := [("max_new_tokens", KInt 200)].

(** The loop over [enumerate(tqdm(dialogues))]. *)
Fixpoint summaries_loop (original_model instruct_model : model)
         (tokenizer : tokenizer) (dialogues : list value)
         (original_model_summaries instruct_model_summaries : list string)
  : M (list string * list string) :=
  match dialogues with
  | [] => ret (original_model_summaries, instruct_model_summaries)
  | dialogue :: rest =>
      let prompt := prompt_of dialogue in
      let input_ids := tokenize_text tokenizer (KBool false) false prompt in
      original_model_outputs <~
        call (model_generate original_model input_ids generation_config)
             (fun _ => EvModelGenerate original_model input_ids
                                       generation_config) ;;
      let original_model_text_output :=
        decode tokenizer true original_model_outputs in
      let original_model_summaries :=
        original_model_summaries ++ [original_model_text_output] in
      instruct_model_outputs <~
        call (model_generate instruct_model input_ids generation_config)
             (fun _ => EvModelGenerate instruct_model input_ids
                                       generation_config) ;;
      let instruct_model_text_output :=
        decode tokenizer true instruct_model_outputs in
      let instruct_model_summaries :=
        instruct_model_summaries ++ [instruct_model_text_output] in
      summaries_loop original_model instruct_model tokenizer rest
                     original_model_summaries instruct_model_summaries
  end.

(** [list(zip(a, b, c))]. *)
Fixpoint zip3 {A B C} (a : list A) (b : list B) (c : list C)
  : list (A * B * C) :=
  match a, b, c with
  | x :: a', y :: b', z :: c' => (x, y, z) :: zip3 a' b' c'
  | _, _, _ => []
  end.

(** What cells 23 and 24 compute: the rows of the table displayed and,
    for each model, the predictions and the references handed to
    [rouge.compute]. *)
Record comparison : Type := {
  zipped_summaries : list (value * string * string);
  original_predictions : list string;
  original_references : list value;
  instruct_predictions : list string;
  instruct_references : list value
}.

Definition compare_summaries (original_model instruct_model : model)
           (tokenizer : tokenizer) (dataset : dataset_dict) : M comparison :=
  dialogues <~ lift (test <- get "test" dataset ;;
                     get "dialogue" (slice_rows 0 10 test)) ;;
  human_baseline_summaries <~
    lift (test <- get "test" dataset ;;
          get "summary" (slice_rows 0 10 test)) ;;
  r <~ summaries_loop original_model instruct_model tokenizer dialogues [] [] ;;
  let original_model_summaries := fst r in
  let instruct_model_summaries := snd r in
  ret {| zipped_summaries :=
           zip3 human_baseline_summaries original_model_summaries
                instruct_model_summaries;
         original_predictions := original_model_summaries;
         original_references :=
           firstn (length original_model_summaries) human_baseline_summaries;
         instruct_predictions := instruct_model_summaries;
         instruct_references :=
           firstn (length instruct_model_summaries) human_baseline_summaries |}.

End PeftCells.
End PeftCells.

(** ** A small instance of the libraries

    Used to run the definitions on concrete inputs: tokens are character
    codes, a float is an integer number of thousandths, the world is a
    counter of the calls made, generation reverses its input; the
    trainer's generation doubles the prompt when a [min_length] is asked
    for and is one token otherwise. *)
Definition codes (s : string) : list Z :=
  map (fun c => Z.of_nat (nat_of_ascii c)) (list_ascii_of_string s).

Definition text_of (ids : list Z) : string :=
  string_of_list_ascii (map (fun z => ascii_of_nat (Z.to_nat z)) ids).

Definition toy_records : list DialogSum :=
  [ {| id := "train_0"; dialogue := "ab"; summary := "s0"; topic := "t0" |};
    {| id := "train_1"; dialogue := "abcd"; summary := "s1"; topic := "t1" |};
    {| id := "train_2"; dialogue := "abc"; summary := "s2"; topic := "t2" |};
    {| id := "train_3"; dialogue := "abcdefg"; summary := "s3"; topic := "t3" |};
    {| id := "train_4"; dialogue := "abcde"; summary := "s4"; topic := "t4" |};
    {| id := "train_5"; dialogue := "abcdef"; summary := "s5"; topic := "t5" |} ].

Definition toy_libraries : Libraries := {|
  float := Z;
  truediv := fun a b => (a * 1000 / b)%Z;
  format_float := fun _ x => str_of_Z x;
  ceil_mul := fun _ n => (n + 4) / 5;
  permutation := fun _ n => rev (seq 0 n);
  np_mean := fun l => (sum_Z l / Z.max 1 (Z.of_nat (length l)))%Z;
  np_std := fun _ => 0%Z;
  tokenizer := string;
  auto_tokenizer := fun name => name;
  tokenize_text := fun _ _ _ s => codes s;
  encode := fun _ s => codes s;
  decode := fun _ _ ids => text_of ids;
  hub_dataset := fun _ _ => table_of toy_records;
  world := nat;
  model := string;
  evaluator := string;
  stats := nat;
  model_generate := fun _ ids _ w => (rev ids, S w);
  toxicity := fun _ texts => map (fun t => Z.of_nat (String.length t)) texts;
  length_sampler := fun lo hi w => ((lo + Z.of_nat w mod (hi - lo))%Z, S w);
  trainer_generate := fun p kwargs w =>
    (match get "min_length" kwargs with
     | Ok _ => p ++ p
     | Raise _ => [0%Z]
     end, S w);
  sentiment_pipe := fun texts _ =>
    map (fun t => [ [("label", 0%Z); ("score", Z.of_nat (String.length t))];
                    [("label", 1%Z); ("score", 0%Z)] ]) texts;
  trainer_step := fun _ _ _ w => (Ok w, S w);
  trainer_log_stats := fun _ _ _ w => (Ok tt, w);
  stat_text := fun st _ => Ok (str_of_Z (Z.of_nat st));
  dataframe := list (list string);
  glob := fun pattern _ => [(pattern ++ "1")%string; (pattern ++ "2")%string];
  read_csv := fun f sep _ _ => [[f; sep]];
  pd_concat := fun frames _ =>
    match frames with
    | [] => Raise ValueError
    | _ => Ok (concat frames)
    end
|}.

(** Two DialogSum records. *)
Definition sample_records : list DialogSum :=
  [ {| id := "train_0"; dialogue := "#Person1#: Hi."; summary := "A greeting.";
       topic := "greeting" |};
    {| id := "train_1"; dialogue := "#Person1#: Bye."; summary := "A farewell.";
       topic := "farewell" |} ].

(* ================================================================== *)
(** * Part IV: properties *)
(* ================================================================== *)


(** ** Exceptions pass through code without [try] *)
Section Propagation.

Variable exn : Type.
Variable raises : nat -> option exn.
Variable truth : nat -> bool.
Variable items : nat -> nat.
Variable isinstance : exn -> expr -> bool.

Let good (k : nat) (r : outcome exn * nat) : Prop :=
  k <= snd r /\ propagated exn raises k r.

Let run := exec exn raises truth items isinstance.

Lemma step_good (k : nat) : good k (step exn raises k).
Proof.
  unfold good, propagated, step.
  destruct (raises k) as [e|] eqn:R; simpl; split; try lia;
    intros j e' Hj Hr; assert (j = k) by lia; subst j;
    rewrite R in Hr; inversion Hr; subst; auto.
Qed.

Lemma good_then (k k1 : nat) (o : outcome exn) (r : outcome exn * nat) :
  (forall e, o <> Raised e) ->
  good k (o, k1) -> good k1 r -> good k r.
Proof.
  intros Ho [Hle Hp] [Hle' Hp']. simpl in *.
  split; [lia|].
  intros j e Hj Hr.
  destruct (Nat.lt_ge_cases j k1) as [Hlt|Hge].
  - destruct (Hp j e) as [_ Habs]; simpl; auto; try lia.
    simpl in Habs. exfalso. exact (Ho e Habs).
  - apply Hp'; auto. lia.
Qed.

Lemma good_quiet (k k1 : nat) (o o' : outcome exn) :
  (forall e, o <> Raised e) ->
  good k (o, k1) -> good k (o', k1).
Proof.
  intros Ho [Hle Hp]. split; auto.
  intros j e Hj Hr. destruct (Hp j e Hj Hr) as [_ Habs].
  exfalso. exact (Ho e Habs).
Qed.

Lemma run_block_good (ex : stmt -> nat -> outcome exn * nat) (ss : list stmt) :
  Forall (fun s => forall k, good k (ex s k)) ss ->
  forall k, good k (run_block exn ex ss k).
Proof.
  induction 1 as [|s r Hs _ IH]; intros k; simpl.
  - split; simpl; [lia|]. intros j e Hj; simpl in Hj; lia.
  - specialize (Hs k). destruct (ex s k) as [o k1].
    destruct o; auto.
    apply good_then with (k1 := k1) (o := Normal); auto; discriminate.
Qed.

Lemma run_loop_good (body : nat -> outcome exn * nat) :
  (forall k, good k (body k)) ->
  forall n k, good k (run_loop exn body n k).
Proof.
  intros Hb. induction n as [|n IH]; intros k; simpl.
  - split; simpl; [lia|]. intros j e Hj; simpl in Hj; lia.
  - specialize (Hb k). destruct (body k) as [o k1].
    destruct o; auto.
    + apply good_then with (k1 := k1) (o := Normal); auto; discriminate.
    + apply good_quiet with (o := Broke); auto; discriminate.
Qed.

Lemma try_free_cons (s : stmt) (r : list stmt) :
  try_free (s :: r) = try_free [s] && try_free r.
Proof.
  unfold try_free. simpl. rewrite app_nil_r. apply forallb_app.
Qed.

Lemma try_free_each (ss : list stmt) :
  try_free ss = true -> Forall (fun s => try_free [s] = true) ss.
Proof.
  induction ss as [|s r IH]; intros H; constructor.
  - rewrite try_free_cons in H. apply andb_prop in H. tauto.
  - apply IH. rewrite try_free_cons in H. apply andb_prop in H. tauto.
Qed.

Lemma try_free_body (s : stmt) (b : list stmt) :
  try_free [s] = true ->
  (forall x, In x (flat_map stmt_deep b) -> In x (stmt_deep s)) ->
  try_free b = true.
Proof.
  unfold try_free. simpl. rewrite app_nil_r. intros H Hin.
  apply forallb_forall. intros x Hx.
  apply (proj1 (forallb_forall _ _) H). auto.
Qed.

Lemma block_good (b : list stmt) :
  Forall (fun s => try_free [s] = true -> forall k, good k (run s k)) b ->
  try_free b = true ->
  forall k, good k (run_block exn run b k).
Proof.
  intros HF Hb. apply run_block_good.
  apply try_free_each in Hb.
  rewrite Forall_forall in *. intros s Hs. auto.
Qed.

Lemma exec_good (s : stmt) :
  try_free [s] = true -> forall k, good k (run s k).
Proof.
  induction s as [s Hs|t it b IH|c b o IHb IHo|b hs _ _|n a b _]
    using stmt_induction; intros Hfree k.
  - destruct s as [ns|m ns|ts v|t o v|v|t it b|c b o|b hs|n a b|v| | |l|l|n b];
      try discriminate Hs; unfold run; simpl;
      try apply step_good;
      try (split; simpl; [lia | intros j e Hj; simpl in Hj; lia]).
    destruct v as [v|].
    + pose proof (step_good k) as G. destruct (step exn raises k) as [o k1].
      destruct o; auto.
      apply good_quiet with (o := Normal); auto; discriminate.
    + split; simpl; [lia | intros j e Hj; simpl in Hj; lia].
  - unfold run; simpl. fold run.
    pose proof (step_good k) as G. destruct (step exn raises k) as [o k1] eqn:E.
    destruct o; auto.
    apply good_then with (k1 := k1) (o := Normal); auto; try discriminate.
    apply run_loop_good. apply block_good; auto.
    apply try_free_body with (s := SFor t it b); auto.
    intros x Hx. simpl. right. exact Hx.
  - unfold run; simpl. fold run.
    pose proof (step_good k) as G. destruct (step exn raises k) as [o' k1] eqn:E.
    destruct o'; auto.
    apply good_then with (k1 := k1) (o := Normal); auto; try discriminate.
    destruct (truth k).
    + apply block_good; auto.
      apply try_free_body with (s := SIf c b o); auto.
      intros x Hx. simpl. right. apply in_or_app. left. exact Hx.
    + apply block_good; auto.
      apply try_free_body with (s := SIf c b o); auto.
      intros x Hx. simpl. right. apply in_or_app. right. exact Hx.
  - discriminate Hfree.
  - unfold run; simpl. split; simpl; [lia | intros j e Hj; simpl in Hj; lia].
Qed.

(** A block without [try] lets every exception of its steps through. *)
Lemma try_free_propagates (ss : list stmt) (k : nat) :
  try_free ss = true ->
  propagated exn raises k (run_block exn run ss k).
Proof.
  intros H. apply block_good; auto.
  apply Forall_forall. intros s _. apply exec_good.
Qed.

End Propagation.

(** ** Error handling in the notebooks *)

Lemma excepted_cells_cover (but : list (string * nat)) :
  forallb (fun p => forallb (fun c => try_free (snd c) || excepted but (fst p, fst c))
                            (snd p)) repository = true ->
  cells_propagate but.
Proof.
  intros Hall name nb c Hnb Hc Hex exn raises truth items isinstance k.
  pose proof (proj1 (forallb_forall _ _) Hall (name, nb) Hnb) as H1. simpl in H1.
  pose proof (proj1 (forallb_forall _ _) H1 c Hc) as H2. simpl in H2.
  rewrite Hex, orb_false_r in H2.
  unfold exec_cell. apply try_free_propagates. exact H2.
Qed.

(** C1, as stated, fails: with the existence check of the data-quality
    notebook as the only exception, every cell would have to let every
    exception through.  In the setup notebook the cell that calls
    [sagemaker.get_execution_role()] does not: when that call (step 1 of the
    cell) raises, the bare [except:] catches it and the cell goes on to its
    end. *)
Lemma role_cell_swallows_exception : ~ cells_propagate [("data_quality", 6)].
Proof.
  intros H.
  specialize (H "setup" setup_notebook role_cell).
  assert (Hnb : In ("setup", setup_notebook) repository) by (left; reflexivity).
  assert (Hc : In role_cell setup_notebook)
    by (apply nth_In; apply Nat.ltb_lt; vm_compute; reflexivity).
  specialize (H Hnb Hc eq_refl unit
                (fun k => if Nat.eqb k 1 then Some tt else None)
                (fun _ => true) (fun _ => 0) (fun _ _ => true) 0).
  destruct (H 1 tt) as [_ Habs].
  - vm_compute. split; lia.
  - reflexivity.
  - vm_compute in Habs. discriminate Habs.
Qed.

(** C1, amended.  The Python code of the four notebooks has exactly two
    [try] statements: in the data-quality notebook (cell 6) the lookup of
    [setup_dependencies_passed] with an [except NameError] that prints three
    lines, and in the setup notebook (cell 37) the call of
    [sagemaker.get_execution_role()] with a bare [except:] that prints a hint
    and goes on.  The only other handler is the [try]/[catch] of the browser
    script in the [%%html] cell that ends each notebook.  The existence
    check turns a [NameError] of the lookup into the three printed lines and
    ends normally, and lets any other exception through.  Every other cell
    lets every exception of its steps through unchanged. *)
Theorem exceptions_pass_outside_two_try_cells :
  map (fun p => (fst p, map fst (try_stmts (snd p)))) repository
  = [("setup", [37]); ("data_quality", [6]); ("peft", []); ("rlhf", [])]
  /\ map snd (try_stmts data_quality_notebook)
     = [STry [SExpr (EName "setup_dependencies_passed")]
             [(Some (EName "NameError"),
               [SExpr (ECall (EName "print")
                         [EStr "++++++++++++++++++++++++++++++++++++++++++++++"] []);
                SExpr (ECall (EName "print")
                         [EStr "[ERROR] YOU HAVE TO RUN THE PREVIOUS NOTEBOOKS"] []);
                SExpr (ECall (EName "print")
                         [EStr "++++++++++++++++++++++++++++++++++++++++++++++"] [])])]]
  /\ map snd (try_stmts setup_notebook)
     = [STry [SAssign [EName "role"]
                (ECall (EAttribute (EName "sagemaker") "get_execution_role") [] []);
              SExpr (ECall (EName "print") [EName "role"] [])]
             [(None,
               [SExpr (ECall (EName "print")
                         [EStr ("If there is an exception, please set the role directly by uncommenting the "
                                  ++ dq ++ "role=..." ++ dq ++ " line above.")] []);
                SPass])]]
  /\ map (fun p => (fst p, map fst (js_tries (snd p)))) repository
     = [("setup", [60]); ("data_quality", [41]); ("peft", [46]); ("rlhf", [40])]
  /\ exec_cell string (fun k => if Nat.eqb k 0 then Some "NameError" else None)
               (fun _ => true) (fun _ => 0) class_named check_cell 0
     = (Normal, 4)
  /\ exec_cell string (fun k => if Nat.eqb k 0 then Some "KeyboardInterrupt" else None)
               (fun _ => true) (fun _ => 0) class_named check_cell 0
     = (Raised "KeyboardInterrupt", 1)
  /\ cells_propagate [("data_quality", 6); ("setup", 37)].
Proof.
  do 6 (split; [vm_compute; reflexivity|]).
  apply excepted_cells_cover. vm_compute. reflexivity.
Qed.

(** The theorem at the cell of the data-quality notebook that creates the
    SageMaker session (cell 9), when the call of [get_execution_role] (step
    4 of the cell) raises. *)
Lemma exceptions_pass_outside_two_try_cells_witness :
  In ("data_quality", data_quality_notebook) repository
  /\ In (nth 3 data_quality_notebook (0, [])) data_quality_notebook
  /\ exec_cell unit (fun k => if Nat.eqb k 4 then Some tt else None)
               (fun _ => true) (fun _ => 0) (fun _ _ => true)
               (nth 3 data_quality_notebook (0, [])) 0
     = (Raised tt, 5)
  /\ propagated unit (fun k => if Nat.eqb k 4 then Some tt else None) 0
                (exec_cell unit (fun k => if Nat.eqb k 4 then Some tt else None)
                           (fun _ => true) (fun _ => 0) (fun _ _ => true)
                           (nth 3 data_quality_notebook (0, [])) 0).
Proof.
  assert (Hnb : In ("data_quality", data_quality_notebook) repository)
    by (right; left; reflexivity).
  assert (Hc : In (nth 3 data_quality_notebook (0, [])) data_quality_notebook)
    by (apply nth_In; apply Nat.ltb_lt; vm_compute; reflexivity).
  split; [exact Hnb|]. split; [exact Hc|]. split; [vm_compute; reflexivity|].
  apply (proj2 (proj2 (proj2 (proj2 (proj2 (proj2
            exceptions_pass_outside_two_try_cells)))))
           "data_quality" data_quality_notebook _ Hnb Hc).
  vm_compute. reflexivity.
Defined.

(** ** Installations *)

(** C6, as stated, fails: the setup notebook runs [%conda install -q -y zip]
    (cell 27), whose requirement [zip] names no version. *)
Lemma conda_zip_not_pinned : ~ installations_pinned setup_notebook.
Proof.
  intros H.
  specialize (H 27 {| installer := "conda"; requirements := ["zip"] |} "zip").
  assert (Hp : pinned "zip" = true).
  { apply H.
    - vm_compute. do 8 right. left. reflexivity.
    - left. reflexivity. }
  vm_compute in Hp. discriminate Hp.
Qed.

(** C6, amended.  Every requirement of every [pip install] of the setup
    notebook is pinned: it has the form [name==version], or is the one
    requirement installed from git, [trl], at the revision [25fa1bd].  The
    only requirement without a version is [zip], installed with
    [%conda install].  The other notebooks install nothing. *)
Theorem pip_requirements_pinned :
  (forall c i w,
      In (c, i) (installations setup_notebook) -> installer i = "pip" ->
      In w (requirements i) -> pinned w = true)
  /\ (forall c i w,
         In (c, i) (installations setup_notebook) -> In w (requirements i) ->
         git_revision w = true ->
         w = "git+https://github.com/lvwerra/trl.git@25fa1bd")
  /\ (forall c i w,
         In (c, i) (installations setup_notebook) -> In w (requirements i) ->
         pinned w = false ->
         c = 27 /\ installer i = "conda" /\ w = "zip")
  /\ installations data_quality_notebook = []
  /\ installations peft_notebook = []
  /\ installations rlhf_notebook = [].
Proof.
  split; [|split; [|split]].
  - intros c i w Hi Hpip Hw.
    assert (Hall : forallb (fun ci => forallb (fun w => pinned w
                              || negb (String.eqb (installer (snd ci)) "pip"))
                              (requirements (snd ci)))
                           (installations setup_notebook) = true)
      by (vm_compute; reflexivity).
    pose proof (proj1 (forallb_forall _ _) Hall (c, i) Hi) as H1. simpl in H1.
    pose proof (proj1 (forallb_forall _ _) H1 w Hw) as H2. simpl in H2.
    rewrite Hpip in H2. simpl in H2. rewrite orb_false_r in H2. exact H2.
  - intros c i w Hi Hw Hg.
    assert (Hall : forallb (fun ci => forallb (fun w => negb (git_revision w)
                              || String.eqb w "git+https://github.com/lvwerra/trl.git@25fa1bd")
                              (requirements (snd ci)))
                           (installations setup_notebook) = true)
      by (vm_compute; reflexivity).
    pose proof (proj1 (forallb_forall _ _) Hall (c, i) Hi) as H1. simpl in H1.
    pose proof (proj1 (forallb_forall _ _) H1 w Hw) as H2. simpl in H2.
    rewrite Hg in H2. simpl in H2. apply String.eqb_eq. exact H2.
  - intros c i w Hi Hw Hp.
    assert (Hall : forallb (fun ci => forallb (fun w => pinned w
                              || (Nat.eqb (fst ci) 27
                                  && String.eqb (installer (snd ci)) "conda"
                                  && String.eqb w "zip"))
                              (requirements (snd ci)))
                           (installations setup_notebook) = true)
      by (vm_compute; reflexivity).
    pose proof (proj1 (forallb_forall _ _) Hall (c, i) Hi) as H1. simpl in H1.
    pose proof (proj1 (forallb_forall _ _) H1 w Hw) as H2. simpl in H2.
    rewrite Hp in H2. simpl in H2.
    apply andb_prop in H2. destruct H2 as [H2 H3].
    apply andb_prop in H2. destruct H2 as [H2 H4].
    apply Nat.eqb_eq in H2. apply String.eqb_eq in H3, H4. auto.
  - repeat split; vm_compute; reflexivity.
Qed.

(** The theorem at the installation of cell 15 and its last requirement. *)
Lemma pip_requirements_pinned_witness :
  In (15, {| installer := "pip";
             requirements :=
               ["transformers==4.27.2"; "datasets==2.11.0"; "accelerate==0.17.0";
                "bitsandbytes==0.37.0"; "promptsource==0.2.3"; "evaluate==0.4.0";
                "py7zr==0.20.4"; "sentencepiece==0.1.99"; "rouge_score==0.1.2";
                "loralib==0.1.1"; "peft==0.3.0";
                "git+https://github.com/lvwerra/trl.git@25fa1bd"] |})
     (installations setup_notebook)
  /\ pinned "git+https://github.com/lvwerra/trl.git@25fa1bd" = true.
Proof.
  assert (Hi : In (15, {| installer := "pip";
             requirements :=
               ["transformers==4.27.2"; "datasets==2.11.0"; "accelerate==0.17.0";
                "bitsandbytes==0.37.0"; "promptsource==0.2.3"; "evaluate==0.4.0";
                "py7zr==0.20.4"; "sentencepiece==0.1.99"; "rouge_score==0.1.2";
                "loralib==0.1.1"; "peft==0.3.0";
                "git+https://github.com/lvwerra/trl.git@25fa1bd"] |})
     (installations setup_notebook))
    by (vm_compute; do 3 right; left; reflexivity).
  split; [exact Hi|].
  apply (proj1 pip_requirements_pinned _ _ _ Hi).
  - reflexivity.
  - simpl. do 11 right. left. reflexivity.
Defined.

(** ** State shared between the notebooks *)

(** C7.  Every name a notebook reads is a built-in of Python or is bound by
    an earlier statement of the same notebook, a [%store -r] line counting
    as one.  The only [%store -r] of the repository is that of
    [setup_dependencies_passed] at the start of the data-quality notebook;
    without it that name, and no other, would be read unbound (cells 6 and
    7): nothing else in that notebook provides it.  The setup notebook binds
    the variable in cell 53 and persists it with [%store] in cell 57, so
    that the kernel of the data-quality notebook has the name after the
    setup notebook has run, and has not when the store is empty.  Of
    the local directories [./d] the notebooks name, one only is named by two
    notebooks, and in both the first statement that names it is the copy of
    the checkpoint from object storage into it.  The reviews the
    data-quality notebook reads are under the prefix of the bucket to which
    the setup notebook copies them. *)
Theorem state_passes_through_store :
  map (fun p => (fst p, unbound_reads (snd p))) repository
  = [("setup", []); ("data_quality", []); ("peft", []); ("rlhf", [])]
  /\ map (fun p => (fst p, restored_vars (snd p))) repository
     = [("setup", []); ("data_quality", ["setup_dependencies_passed"]);
        ("peft", []); ("rlhf", [])]
  /\ hd_error (toplevel data_quality_notebook)
     = Some (5, SLineMagic ["store -r setup_dependencies_passed"])
  /\ unbound_reads (without_restore data_quality_notebook)
     = ["setup_dependencies_passed"; "setup_dependencies_passed"]
  /\ filter (fun p => mem "setup_dependencies_passed" (stmt_binds (snd p)))
            (toplevel data_quality_notebook)
     = [(5, SLineMagic ["store -r setup_dependencies_passed"])]
  /\ filter (fun p => mem "setup_dependencies_passed" (stmt_binds (snd p))
                      || match stored_var (snd p) with
                         | Some x => String.eqb x "setup_dependencies_passed"
                         | None => false
                         end)
            (toplevel setup_notebook)
     = [(53, SAssign [EName "setup_dependencies_passed"] (EConst "True"));
        (57, SLineMagic ["store setup_dependencies_passed"])]
  /\ map (fun p => (fst p, stored_vars (snd p))) repository
     = [("setup", ["role"; "s3_public_path_tsv"; "s3_private_path_tsv";
                   "raw_input_data_s3_uri"; "model_checkpoint";
                   "setup_dependencies_passed"]);
        ("data_quality", []); ("peft", []); ("rlhf", [])]
  /\ mem "setup_dependencies_passed"
         (fst (run_names data_quality_notebook
                         (snd (run_names setup_notebook [])))) = true
  /\ mem "setup_dependencies_passed"
         (fst (run_names data_quality_notebook [])) = false
  /\ map (fun p => (fst p, local_dirs (snd p))) repository
     = [("setup", ["data-summarization"]);
        ("data_quality", ["amazon-reviews-spark-analyzer"]);
        ("peft", ["dialogue-summary-training-"; "flan-dialogue-summary-checkpoint";
                  "peft-dialogue-summary-training-";
                  "peft-dialogue-summary-checkpoint-local";
                  "peft-dialogue-summary-checkpoint-from-s3"]);
        ("rlhf", ["peft-dialogue-summary-checkpoint-from-s3"])]
  /\ first_naming "peft-dialogue-summary-checkpoint-from-s3" peft_notebook
     = Some (33, SShell ["aws s3 cp --recursive s3://dsoaws/models/peft-dialogue-summary-checkpoint/ ./peft-dialogue-summary-checkpoint-from-s3/"])
  /\ first_naming "peft-dialogue-summary-checkpoint-from-s3" rlhf_notebook
     = Some (6, SShell ["aws s3 cp --recursive s3://dsoaws/models/peft-dialogue-summary-checkpoint/ ./peft-dialogue-summary-checkpoint-from-s3/"])
  /\ binders ["s3_private_path_tsv"] setup_notebook
     = [(44, SAssign [EName "s3_private_path_tsv"]
               (ECall (EAttribute (EStr "s3://{}/amazon-reviews-pds/tsv") "format")
                  [EName "bucket"] []))]
  /\ binders ["s3_input_data"] data_quality_notebook
     = [(13, SAssign [EName "s3_input_data"]
               (ECall (EAttribute (EStr "s3://{}/amazon-reviews-pds/tsv/") "format")
                  [EName "bucket"] []))].
Proof.
  repeat split; vm_compute; reflexivity.
Qed.

(** ** The order of the RLHF notebook *)

(** C3.  The statements of the RLHF notebook, numbered from 0 in the order
    they run: statement 24 loads the LoRA adapter onto the base model
    ([peft_model = PeftModel.from_pretrained(model, ...)]), statement 26
    puts the value head on that model ([ppo_model =
    AutoModelForSeq2SeqLMWithValueHead.from_pretrained(peft_model, ...)]),
    statement 74 evaluates the toxicity before, statement 92 is the loop
    that calls [sentiment_pipe], the pipeline of the toxicity model, and
    [ppo_trainer.step], and statement 93 evaluates the toxicity after.  Both
    evaluations assign a pair and pass the same arguments: [ppo_model],
    [toxicity_evaluator], [tokenizer], [dataset["test"]] and [10]; none of
    these names is bound again between the two. *)
Theorem rlhf_pipeline_order :
  positions "PeftModel.from_pretrained" rlhf_notebook = [24]
  /\ positions "AutoModelForSeq2SeqLMWithValueHead.from_pretrained" rlhf_notebook = [26]
  /\ positions "evaluate_toxicity" rlhf_notebook = [74; 93]
  /\ positions "ppo_trainer.step" rlhf_notebook = [92]
  /\ existsb (Nat.eqb 92) (positions "sentiment_pipe" rlhf_notebook) = true
  /\ (24 < 26 /\ 26 < 74 /\ 74 < 92 /\ 92 < 93)
  /\ nth_error (toplevel rlhf_notebook) 24
     = Some (10, SAssign [EName "peft_model"]
                   (ECall (EAttribute (EName "PeftModel") "from_pretrained")
                      [EName "model"; EStr "./peft-dialogue-summary-checkpoint-from-s3/"]
                      [(Some "lora_config", EName "lora_config");
                       (Some "torch_dtype", EAttribute (EName "torch") "bfloat16");
                       (Some "device_map", EStr "auto");
                       (Some "is_trainable", EConst "True")]))
  /\ binders ["model"; "ppo_model"; "toxicity_model_name"; "sentiment_pipe";
              "ppo_trainer"]
             rlhf_notebook
     = [(10, SAssign [EName "model"]
               (ECall (EAttribute (EName "AutoModelForSeq2SeqLM") "from_pretrained")
                  [EName "model_name"]
                  [(Some "torch_dtype", EAttribute (EName "torch") "bfloat16")]));
        (11, SAssign [EName "ppo_model"]
               (ECall (EAttribute (EName "AutoModelForSeq2SeqLMWithValueHead")
                                  "from_pretrained")
                  [EName "peft_model"]
                  [(Some "torch_dtype", EAttribute (EName "torch") "bfloat16");
                   (Some "is_trainable", EConst "True")]));
        (14, SAssign [EName "toxicity_model_name"]
               (EStr "facebook/roberta-hate-speech-dynabench-r4-target"));
        (18, SAssign [EName "sentiment_pipe"]
               (ECall (EName "pipeline") [EStr "sentiment-analysis"]
                  [(Some "model", EName "toxicity_model_name");
                   (Some "device", EName "device")]));
        (30, SAssign [EName "ppo_trainer"]
               (ECall (EName "PPOTrainer") []
                  [(Some "config", EName "config");
                   (Some "model", EName "ppo_model");
                   (Some "ref_model", EName "ref_model");
                   (Some "tokenizer", EName "tokenizer");
                   (Some "dataset", ESubscript (EName "dataset") (EStr "train"));
                   (Some "data_collator", EName "collator")]))]
  /\ option_map (fun p => for_header (snd p)) (nth_error (toplevel rlhf_notebook) 92)
     = Some (Some (ETuple [EName "step"; EName "batch"],
                   ECall (EName "tqdm")
                     [ECall (EName "enumerate")
                        [EAttribute (EName "ppo_trainer") "dataloader"] []] []))
  /\ (let arguments :=
        [(Some "model", EName "ppo_model");
         (Some "toxicity_evaluator", EName "toxicity_evaluator");
         (Some "tokenizer", EName "tokenizer");
         (Some "dataset", ESubscript (EName "dataset") (EStr "test"));
         (Some "num_samples", ENum 10)] in
      nth_error (toplevel rlhf_notebook) 74
      = Some (25, SAssign [ETuple [EName "mean_before_detoxification";
                                   EName "std_before_detoxification"]]
                    (ECall (EName "evaluate_toxicity") [] arguments))
      /\ nth_error (toplevel rlhf_notebook) 93
         = Some (34, SAssign [ETuple [EName "mean_after_detoxification";
                                      EName "std_after_detoxification"]]
                       (ECall (EName "evaluate_toxicity") [] arguments)))
  /\ filter (fun x => mem x ["evaluate_toxicity"; "ppo_model"; "toxicity_evaluator";
                             "tokenizer"; "dataset"])
            (bound_between 74 93 rlhf_notebook) = [].
Proof.
  repeat split; try (vm_compute; reflexivity); lia.
Qed.

(** ** The Spark job of the data-quality notebook and its reports *)

Lemma string_app_assoc (a b c : string) :
  ((a ++ b) ++ c = a ++ (b ++ c))%string.
Proof.
  induction a as [|x a IH]; simpl; [reflexivity|]. rewrite IH. reflexivity.
Qed.

(** C4.  The data-quality notebook calls [processor.run] in one statement
    (statement 25, cell 19), a plain call at the top level, with the script
    [preprocess_deequ_pyspark.py], the jar [deequ-1.0.3-rc2.jar] and the
    arguments [s3_input_data], the reviews under [amazon-reviews-pds/tsv/] of
    the bucket, and [s3_output_analyze_data].  After it and after waiting
    for the job (statement 38), the output of the job is copied from
    [s3_output_analyze_data] to [./amazon-reviews-spark-analyzer/]
    (statement 40) and the four later statements that call [load_dataset]
    pass the directories [constraint-checks],
    [dataset-metrics], [success-metrics] and [constraint-suggestions], in
    this order, with a tab as separator and row 0 as header.  [load_dataset]
    returns the concatenation of the files that [path/*.csv] matches, each
    read with that separator and header. *)
Theorem data_quality_job_and_reports :
  positions "processor.run" data_quality_notebook = [25]
  /\ nth_error (toplevel data_quality_notebook) 25
     = Some (19, SExpr
                   (ECall (EAttribute (EName "processor") "run") []
                      [(Some "submit_app", EStr "preprocess_deequ_pyspark.py");
                       (Some "submit_jars", EList [EStr "deequ-1.0.3-rc2.jar"]);
                       (Some "arguments",
                        EList [EStr "s3_input_data"; EName "s3_input_data";
                               EStr "s3_output_analyze_data";
                               EName "s3_output_analyze_data"]);
                       (Some "logs", EConst "True");
                       (Some "wait", EConst "False")]))
  /\ binders ["processor"; "s3_input_data"; "s3_output_analyze_data"]
             data_quality_notebook
     = [(12, SAssign [EName "processor"]
               (ECall (EName "PySparkProcessor") []
                  [(Some "base_job_name", EStr "spark-amazon-reviews-analyzer");
                   (Some "role", EName "role");
                   (Some "framework_version", EStr "2.4");
                   (Some "instance_count", ENum 2);
                   (Some "instance_type", EStr "ml.m5.2xlarge");
                   (Some "max_runtime_in_seconds", ENum 300)]));
        (13, SAssign [EName "s3_input_data"]
               (ECall (EAttribute (EStr "s3://{}/amazon-reviews-pds/tsv/") "format")
                  [EName "bucket"] []));
        (17, SAssign [EName "s3_output_analyze_data"]
               (ECall (EAttribute (EStr "s3://{}/{}/output") "format")
                  [EName "bucket"; EName "output_prefix"] []))]
  /\ positions "running_processor.wait" data_quality_notebook = [38]
  /\ nth_error (toplevel data_quality_notebook) 40
     = Some (30, SShell [("aws s3 cp --recursive $s3_output_analyze_data "
                            ++ "./amazon-reviews-spark-analyzer/ --exclude="
                            ++ dq ++ "*" ++ dq ++ " --include="
                            ++ dq ++ "*.csv" ++ dq)%string])
  /\ map (fun x => (fst (fst x), call_args (snd x), call_keywords (snd x)))
         (sites "load_dataset" data_quality_notebook)
     = [(44, [], [(Some "path", EStr "./amazon-reviews-spark-analyzer/constraint-checks/");
                  (Some "sep", EStr tab); (Some "header", ENum 0)]);
        (46, [], [(Some "path", EStr "./amazon-reviews-spark-analyzer/dataset-metrics/");
                  (Some "sep", EStr tab); (Some "header", ENum 0)]);
        (48, [], [(Some "path", EStr "./amazon-reviews-spark-analyzer/success-metrics/");
                  (Some "sep", EStr tab); (Some "header", ENum 0)]);
        (51, [], [(Some "path", EStr "./amazon-reviews-spark-analyzer/constraint-suggestions/");
                  (Some "sep", EStr tab); (Some "header", ENum 0)])]
  /\ (25 < 38 /\ 38 < 40 /\ 40 < 44)
  /\ (forall (L : Libraries) (directory : string) (w : world),
         DataQuality.load_dataset
           ("./amazon-reviews-spark-analyzer/" ++ directory ++ "/") tab 0 w
         = pd_concat
             (map (fun f => read_csv f tab 0 w)
                  (glob ("./amazon-reviews-spark-analyzer/" ++ directory ++ "//*.csv") w))
             true).
Proof.
  repeat split; try (vm_compute; reflexivity); try lia.
  intros L directory w. unfold DataQuality.load_dataset.
  replace (("./amazon-reviews-spark-analyzer/" ++ directory ++ "/") ++ "/*.csv")%string
    with ("./amazon-reviews-spark-analyzer/" ++ directory ++ "//*.csv")%string.
  - reflexivity.
  - rewrite !string_app_assoc. reflexivity.
Qed.

(** ** Counting the parameters of a model *)
Section Parameters.

Context {L : Libraries}.

Lemma count_parameters_from (model : Peft.named_parameters) (t a : Z) :
  (0 <= t <= a)%Z ->
  let r := fold_left
             (fun (acc : Z * Z) (np : string * Peft.parameter) =>
                let (trainable_model_params, all_model_params) := acc in
                let param := snd np in
                let all_model_params :=
                  (all_model_params + Z.of_N (Peft.numel param))%Z in
                if Peft.requires_grad param
                then ((trainable_model_params + Z.of_N (Peft.numel param))%Z,
                      all_model_params)
                else (trainable_model_params, all_model_params))
             model (t, a) in
  (0 <= fst r <= snd r)%Z.
Proof.
  revert t a. induction model as [|[name p] model IH]; intros t a H; simpl.
  - exact H.
  - destruct (Peft.requires_grad p); apply IH; lia.
Qed.

Lemma count_parameters_sums_from (model : Peft.named_parameters) (t a : Z) :
  fold_left
    (fun (acc : Z * Z) (np : string * Peft.parameter) =>
       let (trainable_model_params, all_model_params) := acc in
       let param := snd np in
       let all_model_params :=
         (all_model_params + Z.of_N (Peft.numel param))%Z in
       if Peft.requires_grad param
       then ((trainable_model_params + Z.of_N (Peft.numel param))%Z,
             all_model_params)
       else (trainable_model_params, all_model_params))
    model (t, a)
  = ((t + sum_Z (map (fun np => Z.of_N (Peft.numel (snd np)))
                     (filter (fun np => Peft.requires_grad (snd np)) model)))%Z,
     (a + sum_Z (map (fun np => Z.of_N (Peft.numel (snd np))) model))%Z).
Proof.
  revert t a. induction model as [|[name p] model IH]; intros t a; simpl.
  - f_equal; lia.
  - destruct (Peft.requires_grad p); rewrite IH; simpl; f_equal; lia.
Qed.

Lemma count_parameters_bounds (model : Peft.named_parameters) :
  (0 <= fst (Peft.count_parameters model) <= snd (Peft.count_parameters model))%Z.
Proof.
  unfold Peft.count_parameters. apply count_parameters_from. lia.
Qed.

End Parameters.

(** C9.  With [t] and [a] the counts of trainable and of all parameters
    after the loop, the sums of [numel] over the parameters that require a
    gradient and over all parameters, [0 <= t <= a].  When [a] is not zero both copies of
    [print_number_of_trainable_model_parameters] return the text made of
    [t], [a] and the percentage [100 * t / a]; when [a] is zero the division
    raises [ZeroDivisionError] in both, and a model without parameters
    reaches that branch. *)
Theorem trainable_parameters_bounded_division_unguarded :
  forall (L : Libraries) (model : Peft.named_parameters),
    let t := fst (Peft.count_parameters model) in
    let a := snd (Peft.count_parameters model) in
    (0 <= t <= a)%Z
    /\ a = sum_Z (map (fun np => Z.of_N (Peft.numel (snd np))) model)
    /\ t = sum_Z (map (fun np => Z.of_N (Peft.numel (snd np)))
                      (filter (fun np => Peft.requires_grad (snd np)) model))
    /\ (a <> 0%Z ->
        Peft.print_number_of_trainable_model_parameters model
        = Ok ("trainable model parameters: " ++ str_of_Z t ++ nl
              ++ "all model parameters: " ++ str_of_Z a ++ nl
              ++ "percentage of trainable model parameters: "
              ++ format_float "" (truediv (100 * t) a) ++ "%")%string
        /\ Rlhf.print_number_of_trainable_model_parameters model
           = Ok (nl ++ "trainable model parameters: " ++ str_of_Z t ++ nl
                 ++ "all model parameters: " ++ str_of_Z a ++ nl
                 ++ "percentage of trainable model parameters: "
                 ++ format_float ".2f" (truediv (100 * t) a) ++ "%")%string)
    /\ (a = 0%Z ->
        Peft.print_number_of_trainable_model_parameters model
        = Raise ZeroDivisionError
        /\ Rlhf.print_number_of_trainable_model_parameters model
           = Raise ZeroDivisionError)
    /\ Peft.print_number_of_trainable_model_parameters [] = Raise ZeroDivisionError
    /\ Rlhf.print_number_of_trainable_model_parameters [] = Raise ZeroDivisionError.
Proof.
  intros L model t a.
  split; [apply count_parameters_bounds|].
  split; [subst a; unfold Peft.count_parameters;
          rewrite count_parameters_sums_from; reflexivity|].
  split; [subst t; unfold Peft.count_parameters;
          rewrite count_parameters_sums_from; reflexivity|].
  unfold Peft.print_number_of_trainable_model_parameters,
    Rlhf.print_number_of_trainable_model_parameters, Peft.percentage.
  subst t a. destruct (Peft.count_parameters model) as [t a]. simpl.
  repeat split.
  - destruct (Z.eqb_spec a 0); [contradiction|reflexivity].
  - destruct (Z.eqb_spec a 0); [contradiction|reflexivity].
  - subst a. reflexivity.
  - subst a. reflexivity.
Qed.

(** The theorem for a model of two parameters, one of them trainable. *)
Lemma trainable_parameters_bounded_division_unguarded_witness :
  @Peft.print_number_of_trainable_model_parameters toy_libraries
    [("shared.weight", {| Peft.numel := 10; Peft.requires_grad := true |});
     ("lm_head.weight", {| Peft.numel := 30; Peft.requires_grad := false |})]
  = Ok ("trainable model parameters: 10" ++ nl ++ "all model parameters: 40" ++ nl
        ++ "percentage of trainable model parameters: 25000%")%string
  /\ @Peft.print_number_of_trainable_model_parameters toy_libraries
       [("shared.weight", {| Peft.numel := 0; Peft.requires_grad := true |})]
     = Raise ZeroDivisionError.
Proof.
  split.
  - apply (proj1 (proj2 (proj2 (proj2 (trainable_parameters_bounded_division_unguarded
             toy_libraries
             [("shared.weight", {| Peft.numel := 10; Peft.requires_grad := true |});
              ("lm_head.weight", {| Peft.numel := 30; Peft.requires_grad := false |})]))))).
    vm_compute. discriminate.
  - apply (proj1 (proj2 (proj2 (proj2 (proj2 (trainable_parameters_bounded_division_unguarded
             toy_libraries
             [("shared.weight", {| Peft.numel := 0; Peft.requires_grad := true |})])))))).
    vm_compute. reflexivity.
Defined.

(** ** [evaluate_toxicity] *)
Section EvaluateToxicity.

Context {L : Libraries}.

Variable model : model.
Variable toxicity_evaluator : evaluator.
Variable tokenizer : tokenizer.

Lemma score_all_trace (max_new_tokens : Z) (texts : list string) (s : state) :
  exists evs,
    trace (snd (Rlhf.score_all model toxicity_evaluator tokenizer
                               max_new_tokens texts s))
    = trace s ++ evs
    /\ Rlhf.generated evs
       = map (tokenize_text tokenizer (KBool true) false) texts
    /\ Rlhf.scorings evs = length texts.
Proof.
  revert s. induction texts as [|text rest IH]; intros s; simpl.
  - exists []. rewrite app_nil_r. auto.
  - destruct (model_generate model _ _ (the_world s)) as [response w] eqn:G.
    match goal with
    | |- context [Rlhf.score_all _ _ _ _ rest ?s1] =>
        destruct (IH s1) as [evs [Ht [Hg Hs]]];
        destruct (Rlhf.score_all model toxicity_evaluator tokenizer
                                 max_new_tokens rest s1) as [scores s2]
    end.
    simpl in Ht |- *. rewrite Ht.
    exists ([EvModelGenerate model
               (tokenize_text tokenizer (KBool true) false text)
               (Rlhf.generation_config max_new_tokens);
             EvToxicity toxicity_evaluator
               [(text ++ " " ++ decode tokenizer true response)%string]] ++ evs).
    rewrite <- !app_assoc. split; [reflexivity|].
    unfold Rlhf.generated, Rlhf.scorings in *.
    rewrite flat_map_app, filter_app, length_app, Hg, Hs. simpl. auto.
Qed.

(** The loop from index [i] scores the samples up to index [num_samples]. *)
Lemma toxicity_loop_scores (num_samples max_new_tokens : Z)
      (dataset : list example) :
  forall (queries : list string) (i : Z) (toxicities : list float) (s : state),
    Forall2 (fun sample q => get "query" sample = Ok (VStr q)) dataset queries ->
    let r := Rlhf.score_all model toxicity_evaluator tokenizer max_new_tokens
                            (firstn (Z.to_nat (num_samples - i + 1)) queries) s in
    Rlhf.toxicity_loop model toxicity_evaluator tokenizer num_samples
                       max_new_tokens i dataset toxicities s
    = (Ok (toxicities ++ fst r), snd r).
Proof.
  induction dataset as [|sample rest IH]; intros queries i toxicities s HF;
    inversion HF as [|? q ? qs Hq Hrest]; subst; simpl.
  - rewrite firstn_nil. simpl. rewrite app_nil_r. reflexivity.
  - unfold bind at 1, lift at 1. rewrite Hq.
    destruct (Z.gtb_spec i num_samples) as [Hgt|Hle].
    + replace (Z.to_nat (num_samples - i + 1)) with 0 by lia.
      simpl. rewrite app_nil_r. reflexivity.
    + replace (Z.to_nat (num_samples - i + 1))
        with (S (Z.to_nat (num_samples - (i + 1) + 1))) by lia.
      simpl.
      unfold bind at 1. unfold Rlhf.score_sample.
      unfold bind at 1, lift at 1. simpl.
      unfold bind at 1, call at 1.
      destruct (model_generate model _ _ (the_world s)) as [response w] eqn:G.
      unfold pure_call. simpl.
      rewrite (IH qs (i + 1)%Z _ _ Hrest). simpl.
      match goal with
      | |- context [Rlhf.score_all _ _ _ _ ?l ?s1] =>
          destruct (Rlhf.score_all model toxicity_evaluator tokenizer
                                   max_new_tokens l s1) as [scores s2]
      end.
      simpl. rewrite <- app_assoc. reflexivity.
Qed.

End EvaluateToxicity.

(** C8.  For [num_samples >= 0] and a dataset of at least [num_samples + 2]
    samples whose [query] fields are strings, [evaluate_toxicity] generates
    a response for, and scores, the samples of index 0 to [num_samples]
    and no other: [num_samples + 1] generations, in the order of the
    samples, and as many scorings.  It returns the mean and the standard
    deviation of the scores collected. *)
Theorem evaluate_toxicity_scores_num_samples_plus_one :
  forall (L : Libraries) (model : model) (toxicity_evaluator : evaluator)
         (tokenizer : tokenizer) (dataset : list example)
         (queries : list string) (num_samples : Z) (s : state),
    (0 <= num_samples)%Z ->
    (num_samples + 2 <= Z.of_nat (length dataset))%Z ->
    Forall2 (fun sample q => get "query" sample = Ok (VStr q)) dataset queries ->
    let texts := firstn (Z.to_nat num_samples + 1) queries in
    let r := Rlhf.score_all model toxicity_evaluator tokenizer 100 texts s in
    Rlhf.evaluate_toxicity model toxicity_evaluator tokenizer dataset num_samples s
    = (Ok (np_mean (fst r), np_std (fst r)), snd r)
    /\ Z.of_nat (length texts) = (num_samples + 1)%Z
    /\ exists evs,
        trace (snd r) = trace s ++ evs
        /\ Rlhf.generated evs
           = map (tokenize_text tokenizer (KBool true) false) texts
        /\ Z.of_nat (length (Rlhf.generated evs)) = (num_samples + 1)%Z
        /\ Z.of_nat (Rlhf.scorings evs) = (num_samples + 1)%Z.
Proof.
  intros L model toxicity_evaluator tokenizer dataset queries num_samples s
         Hn Hlen HF texts r.
  assert (Hq : length queries = length dataset)
    by (symmetry; eapply Forall2_length; eauto).
  assert (Ht : Z.of_nat (length texts) = (num_samples + 1)%Z).
  { subst texts. rewrite length_firstn. lia. }
  split; [|split; [exact Ht|]].
  - unfold Rlhf.evaluate_toxicity. unfold bind.
    rewrite (toxicity_loop_scores model toxicity_evaluator tokenizer num_samples
               100 dataset queries 0 [] s HF).
    replace (Z.to_nat (num_samples - 0 + 1)) with (Z.to_nat num_samples + 1) by lia.
    reflexivity.
  - destruct (score_all_trace model toxicity_evaluator tokenizer 100 texts s)
      as [evs [H1 [H2 H3]]].
    exists evs. fold r in H1. split; [exact H1|]. split; [exact H2|].
    rewrite H2, length_map, H3. auto.
Qed.

(** The theorem for four samples and [num_samples = 1]. *)
Lemma evaluate_toxicity_scores_num_samples_plus_one_witness :
  @Rlhf.evaluate_toxicity toy_libraries "ppo_model" "toxicity" "flan-t5"
    (rows [("query", [VStr "a"; VStr "b"; VStr "c"; VStr "d"])]) 1
    (@Build_state toy_libraries 0 [])
  = (Ok (3%Z, 0%Z),
     @Build_state toy_libraries 2
       [@EvModelGenerate toy_libraries "ppo_model" [97%Z] (Rlhf.generation_config 100);
        @EvToxicity toy_libraries "toxicity" ["a a"];
        @EvModelGenerate toy_libraries "ppo_model" [98%Z] (Rlhf.generation_config 100);
        @EvToxicity toy_libraries "toxicity" ["b b"]]).
Proof.
  destruct (evaluate_toxicity_scores_num_samples_plus_one
              toy_libraries "ppo_model" "toxicity" "flan-t5"
              (rows [("query", [VStr "a"; VStr "b"; VStr "c"; VStr "d"])])
              ["a"; "b"; "c"; "d"] 1 (@Build_state toy_libraries 0 []))
    as [H _].
  - lia.
  - vm_compute. discriminate.
  - vm_compute. repeat constructor.
  - rewrite H. reflexivity.
Defined.

(** ** The fine-tuning loop *)

Lemma get_set_same {A} (k : string) (v : A) (d : dict A) :
  get k (set k v d) = Ok v.
Proof.
  induction d as [|[k' v'] d IH]; simpl.
  - rewrite String.eqb_refl. reflexivity.
  - destruct (String.eqb k k') eqn:E; simpl.
    + rewrite String.eqb_refl. reflexivity.
    + rewrite E. exact IH.
Qed.

Lemma get_set_other {A} (k k' : string) (v : A) (d : dict A) :
  k <> k' -> get k (set k' v d) = get k d.
Proof.
  intros Hne. induction d as [|[k0 v0] d IH]; simpl.
  - destruct (String.eqb_spec k k'); [contradiction|reflexivity].
  - destruct (String.eqb_spec k' k0) as [->|Hk0]; simpl.
    + destruct (String.eqb_spec k k0); [contradiction|reflexivity].
    + destruct (String.eqb_spec k k0); [reflexivity|exact IH].
Qed.

Lemma mapM_ok {A B} (f : A -> result B) (g : A -> B) (l : list A) :
  (forall a, In a l -> f a = Ok (g a)) -> mapM f l = Ok (map g l).
Proof.
  induction l as [|a l IH]; intros H; simpl; [reflexivity|].
  rewrite (H a (or_introl eq_refl)). simpl.
  rewrite IH; [reflexivity|]. intros x Hx. apply H. right. exact Hx.
Qed.

Lemma rbind_Ok {A B} (a : A) (f : A -> result B) : rbind (Ok a) f = f a.
Proof. reflexivity. Qed.

Lemma get_ok_in {A} (k : string) (d : dict A) (v : A) :
  get k d = Ok v -> In k (keys d).
Proof.
  induction d as [|[k' v'] d IH]; simpl; [discriminate|].
  destruct (String.eqb_spec k k') as [->|_]; [left; reflexivity|].
  intros H. right. apply IH. exact H.
Qed.

(** When the tensor is not a single token, [squeeze()[-n:]] keeps its last
    [n] tokens. *)
Lemma squeeze_last_tokens (n : Z) (row : list Z) :
  (0 < n)%Z -> length row <> 1 ->
  Rlhf.squeeze_last n row = Ok (Rlhf.last_tokens n row).
Proof.
  intros Hn Hl. unfold Rlhf.squeeze_last.
  destruct (Nat.eqb_spec (length row) 1) as [H1|_]; [contradiction|].
  unfold slice_from, Rlhf.last_tokens.
  destruct (Z.ltb_spec (- n) 0) as [_|H]; [|lia].
  f_equal. f_equal. lia.
Qed.

Lemma last_tokens_bounded (returned : list (list Z)) :
  forall lengths,
    length returned = length lengths ->
    Forall (fun n => (0 < n)%Z) lengths ->
    Forall2 (fun summary n => (Z.of_nat (length summary) <= n)%Z)
            (map (fun x => Rlhf.last_tokens (snd x) (fst x))
                 (combine returned lengths))
            lengths.
Proof.
  induction returned as [|row returned IH]; intros [|n lengths] Hlen Hpos;
    simpl in *; try discriminate; constructor.
  - inversion Hpos; subst. unfold Rlhf.last_tokens. rewrite length_skipn. lia.
  - apply IH; [lia|]. inversion Hpos; assumption.
Qed.

Lemma pairs_ok (queries responses : list string) :
  mapM (fun qr => q <- as_str (fst qr) ;; r <- as_str (snd qr) ;;
                  Ok (q ++ r)%string)
       (combine (map VStr queries) (map VStr responses))
  = Ok (map (fun qr => (fst qr ++ snd qr)%string) (combine queries responses)).
Proof.
  revert responses. induction queries as [|q qs IH]; intros [|r rs]; simpl;
    try reflexivity.
  rewrite IH. reflexivity.
Qed.

Section FineTuning.

Context {L : Libraries}.

Variable tokenizer : tokenizer.

Hypothesis contracts : Rlhf.contracts.

Lemma generate_summaries_ok (prompts : list (list Z)) :
  forall (gk : dict kwarg) (acc : list (list Z)) (s : state),
    get "min_length" gk = Ok (KInt 5) ->
    exists lengths kwargs returned gk' s',
      Rlhf.generate_summaries prompts gk acc s
      = (Ok (acc ++ map (fun x => Rlhf.last_tokens (snd x) (fst x))
                        (combine returned lengths), gk'), s')
      /\ length lengths = length prompts
      /\ length kwargs = length prompts
      /\ length returned = length prompts
      /\ Forall2 (fun kw n => get "max_new_tokens" kw = Ok (KInt n)) kwargs lengths
      /\ Forall (fun n => (0 < n)%Z) lengths
      /\ trace s' = trace s ++ Rlhf.generations prompts lengths kwargs returned
      /\ get "min_length" gk' = Ok (KInt 5).
Proof.
  induction prompts as [|p rest IH]; intros gk acc s Hmin;
    cbn [Rlhf.generate_summaries].
  - exists [], [], [], gk, s. unfold ret. simpl. rewrite !app_nil_r.
    repeat split; auto.
  - unfold bind at 1, call at 1.
    pose proof (Rlhf.sampler_range contracts Rlhf.output_min_length
                  Rlhf.output_max_length (the_world s) eq_refl) as Hr.
    destruct (length_sampler _ _ (the_world s)) as [n w1].
    cbn [fst] in Hr. cbv beta iota zeta.
    assert (Hmin1 : get "min_length" (set "max_new_tokens" (KInt n) gk)
                    = Ok (KInt 5))
      by (rewrite get_set_other by discriminate; exact Hmin).
    unfold bind at 1, call at 1. cbn [the_world trace].
    pose proof (Rlhf.generation_length contracts p _ w1 Hmin1) as Hg.
    destruct (trainer_generate p _ w1) as [row w2].
    cbn [fst] in Hg. cbv beta iota zeta.
    unfold bind at 1, lift at 1.
    rewrite squeeze_last_tokens
      by (unfold Rlhf.output_min_length in Hr; lia || exact Hg).
    match goal with
    | |- context [Rlhf.generate_summaries rest ?gk1 ?acc1 ?s1] =>
        destruct (IH gk1 acc1 s1 Hmin1)
          as [lengths [kwargs [returned [gk' [s' H]]]]]
    end.
    destruct H as [H1 [H2 [H3 [H4 [H5 [H6 [H7 H8]]]]]]].
    exists (n :: lengths), (set "max_new_tokens" (KInt n) gk :: kwargs),
      (row :: returned), gk', s'.
    rewrite H1, <- app_assoc. cbn [combine map fst snd app length].
    split; [reflexivity|].
    rewrite H2, H3, H4. repeat split; auto.
    + constructor; auto. apply get_set_same.
    + constructor; auto. unfold Rlhf.output_min_length in Hr. lia.
    + rewrite H7. cbn [trace]. unfold Rlhf.generations.
      cbn [combine flat_map fst snd app]. rewrite <- !app_assoc. reflexivity.
Qed.

Lemma rewards_ok (rewards : list (list (dict float))) :
  Forall (fun reward =>
            exists d r, nth_error reward Rlhf.not_hate_index = Some d
                        /\ get "score" d = Ok r) rewards ->
  exists rs,
    mapM (fun reward => d <- Rlhf.item reward Rlhf.not_hate_index ;;
                        get "score" d) rewards = Ok rs
    /\ Forall2 (fun reward r =>
                  exists d, nth_error reward Rlhf.not_hate_index = Some d
                            /\ get "score" d = Ok r) rewards rs.
Proof.
  induction 1 as [|reward rest [d [r [Hd Hr]]] _ [rs [IH1 IH2]]]; simpl.
  - exists []. split; [reflexivity|constructor].
  - exists (r :: rs). unfold Rlhf.item at 1. rewrite Hd. simpl.
    rewrite Hr. simpl. rewrite IH1. simpl. split; [reflexivity|].
    constructor; auto. exists d. auto.
Qed.

Lemma ppo_iteration_ok (batch : table) (gk : dict kwarg) (s : state) :
  Rlhf.well_formed batch ->
  get "min_length" gk = Ok (KInt 5) ->
  exists gk' s' evs,
    Rlhf.ppo_iteration tokenizer batch gk s = (Ok gk', s')
    /\ trace s' = trace s ++ evs
    /\ Rlhf.four_stages tokenizer batch evs
    /\ get "min_length" gk' = Ok (KInt 5).
Proof.
  intros [prompts [queries [Hp [Hq [Hlp Hlq]]]]] Hmin.
  unfold Rlhf.ppo_iteration.
  unfold bind at 1, lift at 1. rewrite Hp, rbind_Ok.
  rewrite (mapM_ok Rlhf.as_ids (fun v => match v with VIds i => i | VStr _ => [] end));
    [|intros a Ha; apply in_map_iff in Ha; destruct Ha as [x [<- _]]; reflexivity].
  rewrite map_map, map_id.
  destruct (generate_summaries_ok prompts gk [] s Hmin)
    as [lengths [kwargs [returned [gk' [s1 H]]]]].
  destruct H as [H1 [H2 [H3 [H4 [H5 [H6 [H7 H8]]]]]]].
  unfold bind at 1. rewrite H1. cbn [fst snd app].
  set (summaries := map (fun x => Rlhf.last_tokens (snd x) (fst x))
                        (combine returned lengths)).
  assert (Hls : length summaries = Rlhf.batch_size).
  { subst summaries. rewrite length_map, length_combine, H4, H2, Hlp.
    apply Nat.min_id. }
  unfold bind at 1, lift at 1.
  rewrite get_set_other by discriminate. rewrite Hq, rbind_Ok.
  rewrite get_set_same, rbind_Ok.
  rewrite <- (map_map (decode tokenizer false) VStr), pairs_ok.
  set (responses := map (decode tokenizer false) summaries).
  set (pairs := map (fun qr => (fst qr ++ snd qr)%string)
                    (combine queries responses)).
  set (batch' := set "response" (map VStr responses) batch).
  unfold bind at 1, pure_call at 1. cbn [the_world trace].
  destruct (rewards_ok _ (Rlhf.pipeline_scores contracts pairs))
    as [rs [Hr1 Hr2]].
  assert (Hlr : length rs = Rlhf.batch_size).
  { rewrite <- (Forall2_length Hr2), (Rlhf.pipeline_length contracts).
    subst pairs responses. rewrite length_map, length_combine, length_map.
    rewrite Hlq, Hls. apply Nat.min_id. }
  unfold bind at 1, lift at 1. rewrite Hr1.
  unfold bind at 1, try_call at 1. cbn [the_world trace].
  destruct (Rlhf.step_returns contracts prompts summaries rs (the_world s1)
                              Hlp Hls Hlr) as [st Hst].
  destruct (Rlhf.step_statistics contracts _ _ _ _ st "objective/kl" Hst)
    as [kl Hkl]; [simpl; auto|].
  destruct (Rlhf.step_statistics contracts _ _ _ _ st "ppo/returns/mean" Hst)
    as [rm Hrm]; [simpl; auto|].
  destruct (Rlhf.step_statistics contracts _ _ _ _ st
                                 "ppo/policy/advantages_mean" Hst)
    as [am Ham]; [simpl; auto|].
  destruct (trainer_step prompts summaries rs (the_world s1)) as [r w2].
  cbn [fst] in Hst. subst r.
  unfold bind at 1, try_call at 1. cbn [the_world trace].
  assert (Hlog : fst (trainer_log_stats st batch' rs w2) = Ok tt).
  { apply (Rlhf.log_stats_returns contracts).
    - apply (get_ok_in "query" batch' (map VStr queries)).
      subst batch'. rewrite get_set_other by discriminate. exact Hq.
    - apply (get_ok_in "response" batch' (map VStr responses)).
      subst batch'. apply get_set_same. }
  destruct (trainer_log_stats st batch' rs w2) as [r3 w3].
  cbn [fst] in Hlog. subst r3.
  unfold bind, lift, print, pure_call, ret. rewrite Hkl, Hrm, Ham.
  cbn [the_world trace].
  eexists. eexists. eexists. split; [reflexivity|]. cbn [trace].
  split; [rewrite H7, <- !app_assoc; cbn [app]; reflexivity|].
  split; [|exact H8].
  exists prompts, queries, lengths, kwargs, returned, rs, st, kl, rm, am.
  repeat split; auto.
  apply last_tokens_bounded; [congruence|exact H6].
Qed.

Lemma generations_no_step (prompts : list (list Z)) (lengths : list Z)
      (kwargs : list (dict kwarg)) (returned : list (list Z)) :
  Rlhf.steps (Rlhf.generations prompts lengths kwargs returned) = 0.
Proof.
  unfold Rlhf.steps, Rlhf.generations.
  induction (combine (combine (combine prompts lengths) kwargs) returned)
    as [|x l IH]; simpl; auto.
Qed.

Lemma four_stages_one_step (batch : table) (evs : list event) :
  Rlhf.four_stages tokenizer batch evs -> Rlhf.steps evs = 1.
Proof.
  intros [prompts [queries [lengths [kwargs [returned [rewards [st H]]]]]]].
  destruct H as [kl [rm [am H]]].
  destruct H as [_ [_ [_ [_ [_ [_ [_ [_ [_ [_ [_ ->]]]]]]]]]]].
  pose proof (generations_no_step prompts lengths kwargs returned) as G.
  unfold Rlhf.steps in *. rewrite filter_app, length_app, G. reflexivity.
Qed.

Lemma steps_concat (batches : list table) (its : list (list event)) :
  Forall2 (Rlhf.four_stages tokenizer) batches its ->
  Rlhf.steps (concat its) = length its.
Proof.
  induction 1 as [|b evs bs its H _ IH]; simpl; [reflexivity|].
  pose proof (four_stages_one_step b evs H) as H1.
  unfold Rlhf.steps in *. rewrite filter_app, length_app, IH, H1. reflexivity.
Qed.

Lemma ppo_loop_ok (dataloader : list table) :
  forall (step : Z) (gk : dict kwarg) (s : state),
    Forall Rlhf.well_formed dataloader ->
    get "min_length" gk = Ok (KInt 5) ->
    exists gk' s' its,
      Rlhf.ppo_loop tokenizer step dataloader gk s = (Ok gk', s')
      /\ trace s' = trace s ++ concat its
      /\ Forall2 (Rlhf.four_stages tokenizer)
                 (firstn (Z.to_nat (Rlhf.max_ppo_steps - step)) dataloader) its.
Proof.
  induction dataloader as [|batch rest IH]; intros step gk s Hwf Hmin;
    remember (Z.to_nat (Rlhf.max_ppo_steps - step)) as k eqn:Hk; simpl.
  - exists gk, s, []. rewrite firstn_nil, app_nil_r. repeat split; constructor.
  - inversion Hwf as [|? ? Hb Hrest]; subst.
    destruct (Z.geb_spec step Rlhf.max_ppo_steps) as [Hge|Hlt].
    + exists gk, s, [].
      replace (Z.to_nat (Rlhf.max_ppo_steps - step)) with 0 by lia.
      simpl. rewrite app_nil_r. repeat split; constructor.
    + destruct (ppo_iteration_ok batch gk s Hb Hmin)
        as [gk1 [s1 [evs [H1 [H2 [H3 Hmin1]]]]]].
      unfold bind. rewrite H1.
      destruct (IH (step + 1)%Z gk1 s1 Hrest Hmin1) as [gk' [s' [its [H4 [H5 H6]]]]].
      exists gk', s', (evs :: its). rewrite H4. split; [reflexivity|].
      split.
      * rewrite H5, H2. simpl. rewrite app_assoc. reflexivity.
      * replace (Z.to_nat (Rlhf.max_ppo_steps - step))
          with (S (Z.to_nat (Rlhf.max_ppo_steps - (step + 1)))) by lia.
        simpl. constructor; auto.
Qed.

End FineTuning.

(** C2.  When the libraries keep their contracts (the length sampler draws
    from its range, a generation is not a single token, the reward pipeline
    returns the scores of the labels for each text, [ppo_trainer.step] and
    [log_stats] return for a full batch), the loop over a data loader whose
    batches hold [batch_size] prompt tensors and queries ends normally, and
    what it adds to the trace is, for each of the first 10 batches in order,
    the calls of one iteration: for each prompt the sampling of a length and
    one generation with it as [max_new_tokens]; the summary kept is what the
    generation returned, cut to its last [max_new_tokens] tokens; the
    scoring of the queries followed by the decoded summaries; and after
    them one call of [ppo_trainer.step] with the prompts, these summaries
    and the rewards, whose statistics are logged and printed.  So
    [ppo_trainer.step] is called once per iteration and at most
    [max_ppo_steps = 10] times. *)
Theorem ppo_loop_four_stages_at_most_ten_steps :
  forall (L : Libraries) (tokenizer : tokenizer) (dataloader : list table)
         (s : state),
    Rlhf.contracts ->
    Forall Rlhf.well_formed dataloader ->
    exists gk s' its,
      Rlhf.fine_tune tokenizer dataloader s = (Ok gk, s')
      /\ trace s' = trace s ++ concat its
      /\ Forall2 (Rlhf.four_stages tokenizer) (firstn 10 dataloader) its
      /\ Rlhf.steps (concat its) = length its
      /\ length its = Nat.min 10 (length dataloader)
      /\ (Z.of_nat (Rlhf.steps (concat its)) <= Rlhf.max_ppo_steps)%Z.
Proof.
  intros L tokenizer dataloader s Hc Hwf.
  destruct (ppo_loop_ok tokenizer Hc dataloader 0 Rlhf.generation_kwargs s Hwf
                        eq_refl)
    as [gk [s' [its [H1 [H2 H3]]]]].
  change (Z.to_nat (Rlhf.max_ppo_steps - 0)) with 10 in H3.
  exists gk, s', its.
  pose proof (steps_concat tokenizer _ _ H3) as H4.
  pose proof (Forall2_length H3) as H5. rewrite length_firstn in H5.
  repeat split; auto.
  rewrite H4, <- H5. unfold Rlhf.max_ppo_steps. lia.
Qed.

Lemma toy_sampler_range (lo hi : Z) (w : @world toy_libraries) :
  (lo < hi)%Z -> (lo <= fst (@length_sampler toy_libraries lo hi w) < hi)%Z.
Proof.
  intros H. simpl.
  pose proof (Z.mod_pos_bound (Z.of_nat w) (hi - lo)). lia.
Qed.

Lemma toy_pipeline_scores (texts : list string) :
  Forall (fun reward =>
            exists d r, nth_error reward Rlhf.not_hate_index = Some d
                        /\ get "score" d = Ok r)
         (@sentiment_pipe toy_libraries texts Rlhf.reward_kwargs).
Proof.
  simpl. induction texts as [|t l IH]; simpl; constructor; auto.
  eexists. eexists. split; reflexivity.
Qed.

Lemma toy_contracts : @Rlhf.contracts toy_libraries.
Proof.
  constructor.
  - exact toy_sampler_range.
  - intros prompt kwargs w H. simpl. rewrite H, length_app. lia.
  - exact toy_pipeline_scores.
  - intros texts. simpl. apply length_map.
  - intros. eexists. reflexivity.
  - intros. eexists. reflexivity.
  - reflexivity.
Qed.

(** The theorem for a data loader of one batch of 16 prompts. *)
Lemma ppo_loop_four_stages_at_most_ten_steps_witness :
  exists gk s' its,
    @Rlhf.fine_tune toy_libraries "flan-t5"
      [ [("input_ids", map VIds (repeat [1; 2]%Z 16));
         ("query", map VStr (repeat "q" 16))] ]
      (@Build_state toy_libraries 0 []) = (Ok gk, s')
    /\ trace s' = [] ++ concat its
    /\ Forall2 (@Rlhf.four_stages toy_libraries "flan-t5")
               (firstn 10 [ [("input_ids", map VIds (repeat [1; 2]%Z 16));
                             ("query", map VStr (repeat "q" 16))] ]) its
    /\ Rlhf.steps (concat its) = length its
    /\ length its = 1
    /\ (Z.of_nat (Rlhf.steps (concat its)) <= Rlhf.max_ppo_steps)%Z.
Proof.
  apply (ppo_loop_four_stages_at_most_ten_steps toy_libraries "flan-t5"
           [ [("input_ids", map VIds (repeat [1; 2]%Z 16));
              ("query", map VStr (repeat "q" 16))] ]
           (@Build_state toy_libraries 0 [])).
  - exact toy_contracts.
  - constructor; [|constructor].
    exists (repeat [1; 2]%Z 16), (repeat "q" 16).
    repeat split; reflexivity.
Defined.

(** ** Tables computed row by row *)

Lemma mapM_map_ok {A B C} (f : B -> result C) (h : A -> B) (g : A -> C)
      (l : list A) :
  (forall a, In a l -> f (h a) = Ok (g a)) ->
  mapM f (map h l) = Ok (map g l).
Proof.
  induction l as [|a l IH]; intros H; simpl; [reflexivity|].
  rewrite (H a (or_introl eq_refl)). simpl.
  rewrite IH; [reflexivity|]. intros x Hx. apply H. right. exact Hx.
Qed.

Lemma map_nth_seq {A} (l : list A) (d : A) :
  map (fun i => nth i l d) (seq 0 (length l)) = l.
Proof.
  induction l as [|a l IH]; simpl; [reflexivity|].
  rewrite <- seq_shift, map_map. simpl. rewrite IH. reflexivity.
Qed.

Lemma map_nth_seq_from {A} (l : list A) (d : A) (a b : nat) :
  a + b <= length l ->
  map (fun i => nth i l d) (seq a b) = firstn b (skipn a l).
Proof.
  revert l b. induction a as [|a IH]; intros l b H.
  - simpl. transitivity (map (fun i => nth i (firstn b l) d)
                             (seq 0 (length (firstn b l)))).
    + rewrite length_firstn, Nat.min_l by lia.
      apply map_ext_in. intros i Hi. apply in_seq in Hi.
      rewrite <- (firstn_skipn b l) at 1. rewrite app_nth1; [reflexivity|].
      rewrite length_firstn. lia.
    + apply map_nth_seq.
  - destruct l as [|x l]; simpl in H; [lia|].
    rewrite <- seq_shift, map_map. simpl. apply IH. lia.
Qed.

Lemma select_map {A B} (f : A -> B) (mask : list bool) (l : list A) :
  select mask (map f l) = map f (select mask l).
Proof.
  revert l. induction mask as [|[|] m IH]; intros [|a l]; simpl;
    try reflexivity; rewrite IH; reflexivity.
Qed.

Lemma select_filter {A} (p : A -> bool) (l : list A) :
  select (map p l) l = filter p l.
Proof.
  induction l as [|a l IH]; simpl; [reflexivity|].
  destruct (p a); rewrite IH; reflexivity.
Qed.

(** The chunks of [k] elements of a list, put together again. *)
Lemma concat_chunks {A} (k : nat) (l : list A) (m : nat) :
  concat (map (fun b => firstn k (skipn (b * k) l)) (seq 0 m))
  = firstn (m * k) l.
Proof.
  induction m as [|m IH]; [reflexivity|].
  rewrite seq_S, map_app, concat_app, IH. simpl. rewrite app_nil_r.
  rewrite <- (firstn_skipn (m * k) (firstn (k + m * k) l)).
  rewrite firstn_firstn, Nat.min_l by lia.
  f_equal.
  replace (k + m * k) with (m * k + k) by lia.
  rewrite skipn_firstn_comm.
  replace (m * k + k - m * k) with k by lia. reflexivity.
Qed.

Section Columns.

Variable R : Type.
Variable fs : schema R.

Lemma slice_rows_cols_of (start n : nat) (rs : list R) :
  slice_rows start n (cols_of fs rs) = cols_of fs (firstn n (skipn start rs)).
Proof.
  unfold slice_rows, cols_of. rewrite map_map. apply map_ext.
  intros [k f]. simpl. rewrite skipn_map, firstn_map. reflexivity.
Qed.

Lemma select_cols_of (mask : list bool) (rs : list R) :
  map (fun kc => (fst kc, select mask (snd kc))) (cols_of fs rs)
  = cols_of fs (select mask rs).
Proof.
  unfold cols_of. rewrite map_map. apply map_ext.
  intros [k f]. simpl. rewrite select_map. reflexivity.
Qed.

Lemma num_rows_cols_of (rs : list R) :
  fs <> [] -> num_rows (cols_of fs rs) = length rs.
Proof.
  destruct fs as [|[k f] s]; [contradiction|]. intros _. simpl.
  apply length_map.
Qed.

Lemma row_at_cols_of (rs : list R) (i : nat) (d : R) :
  i < length rs -> row_at (cols_of fs rs) i = row_of fs (nth i rs d).
Proof.
  intros Hi. unfold row_at, cols_of, row_of. rewrite map_map.
  apply map_ext. intros [k f]. simpl. f_equal.
  rewrite (nth_indep _ (VStr "") (f d)) by (rewrite length_map; exact Hi).
  apply map_nth.
Qed.

Lemma rows_cols_of (rs : list R) :
  fs <> [] -> rows (cols_of fs rs) = map (row_of fs) rs.
Proof.
  intros Hfs. unfold rows. rewrite num_rows_cols_of by exact Hfs.
  destruct rs as [|d rs']; [reflexivity|].
  rewrite <- (map_nth_seq (d :: rs') d) at 3. rewrite map_map.
  apply map_ext_in. intros i Hi. apply in_seq in Hi.
  apply row_at_cols_of. lia.
Qed.

Lemma take_rows_cols_of (idx : list nat) (rs : list R) (d : R) :
  (forall i, In i idx -> i < length rs) ->
  Rlhf.take_rows idx (cols_of fs rs) = cols_of fs (map (fun i => nth i rs d) idx).
Proof.
  intros Hidx. unfold Rlhf.take_rows, cols_of. rewrite map_map.
  apply map_ext. intros [k f]. simpl. f_equal. rewrite map_map.
  apply map_ext_in. intros i Hi.
  rewrite (nth_indep _ (VStr "") (f d)) by (rewrite length_map; auto).
  apply map_nth.
Qed.

Hypothesis distinct : NoDup (map fst fs).

Lemma get_cols_of (k : string) (f : R -> value) (rs : list R) :
  In (k, f) fs -> get k (cols_of fs rs) = Ok (map f rs).
Proof.
  unfold cols_of. clear -distinct.
  induction fs as [|[k0 f0] s IH]; intros Hin; simpl in *; [contradiction|].
  inversion distinct as [|? ? Hnot Hrest]; subst.
  destruct (String.eqb_spec k k0) as [->|Hne].
  - destruct Hin as [Heq|Hin]; [inversion Heq; reflexivity|].
    exfalso. apply Hnot. apply in_map_iff. exists (k0, f). auto.
  - destruct Hin as [Heq|Hin]; [inversion Heq; subst; contradiction|].
    apply IH; auto.
Qed.

Lemma get_row_of (k : string) (f : R -> value) (r : R) :
  In (k, f) fs -> get k (row_of fs r) = Ok (f r).
Proof.
  unfold row_of. clear -distinct.
  induction fs as [|[k0 f0] s IH]; intros Hin; simpl in *; [contradiction|].
  inversion distinct as [|? ? Hnot Hrest]; subst.
  destruct (String.eqb_spec k k0) as [->|Hne].
  - destruct Hin as [Heq|Hin]; [inversion Heq; reflexivity|].
    exfalso. apply Hnot. apply in_map_iff. exists (k0, f). auto.
  - destruct Hin as [Heq|Hin]; [inversion Heq; subst; contradiction|].
    apply IH; auto.
Qed.

(** The columns collected again from the outputs, for part of the
    schema. *)
Lemma collect_columns (fs' : schema R) (outs : list table)
      (chunks : list (list R)) :
  incl fs' fs -> outs = map (cols_of fs) chunks ->
  mapM (fun k => cs <- mapM (get k) outs ;; Ok (k, concat cs)) (map fst fs')
  = Ok (cols_of fs' (concat chunks)).
Proof.
  intros Hincl ->. induction fs' as [|[k f] s IH]; simpl; [reflexivity|].
  rewrite (mapM_map_ok (get k) (cols_of fs) (map f)).
  - simpl. rewrite IH.
    + simpl. rewrite concat_map. reflexivity.
    + intros x Hx. apply Hincl. right. exact Hx.
  - intros c _. apply get_cols_of. apply Hincl. left. reflexivity.
Qed.

Lemma concat_tables_cols_of (chunks : list (list R)) :
  chunks <> [] ->
  concat_tables (map (cols_of fs) chunks) = Ok (cols_of fs (concat chunks)).
Proof.
  destruct chunks as [|c cs]; [contradiction|]. intros _.
  unfold concat_tables.
  change (map (cols_of fs) (c :: cs)) with (cols_of fs c :: map (cols_of fs) cs).
  cbv iota beta.
  replace (keys (cols_of fs c)) with (map fst fs)
    by (unfold keys, cols_of; rewrite map_map; reflexivity).
  apply (collect_columns fs (cols_of fs c :: map (cols_of fs) cs) (c :: cs)).
  - apply incl_refl.
  - reflexivity.
Qed.

Lemma collect_rows (fs' : schema R) (rs : list R) :
  incl fs' fs ->
  mapM (fun k => c <- mapM (get k) (map (row_of fs) rs) ;; Ok (k, c))
       (map fst fs')
  = Ok (cols_of fs' rs).
Proof.
  intros Hincl. induction fs' as [|[k f] s IH]; simpl; [reflexivity|].
  rewrite (mapM_map_ok (get k) (row_of fs) f).
  - simpl. rewrite IH; [reflexivity|].
    intros x Hx. apply Hincl. right. exact Hx.
  - intros r _. apply get_row_of. apply Hincl. left. reflexivity.
Qed.

Lemma of_rows_row_of (rs : list R) :
  rs <> [] -> of_rows (map (row_of fs) rs) = Ok (cols_of fs rs).
Proof.
  destruct rs as [|r rs']; [contradiction|]. intros _.
  unfold of_rows.
  change (map (row_of fs) (r :: rs')) with (row_of fs r :: map (row_of fs) rs').
  cbv iota beta.
  replace (keys (row_of fs r)) with (map fst fs)
    by (unfold keys, row_of; rewrite map_map; reflexivity).
  apply (collect_rows fs (r :: rs')). apply incl_refl.
Qed.

End Columns.

(** ** The tokenized dataset of the fine-tuning notebook *)

Ltac distinct_keys :=
  repeat (constructor;
          [simpl; intros H;
           repeat (destruct H as [H|H]; [discriminate H|]); exact H|]);
  constructor.

Lemma batches_cols_of {R} (fs : schema R) (rs : list R) :
  fs <> [] ->
  batches (cols_of fs rs)
  = map (cols_of fs)
        (map (fun b => firstn batch_size (skipn (b * batch_size) rs))
             (seq 0 ((length rs + (batch_size - 1)) / batch_size))).
Proof.
  intros Hfs. unfold batches. rewrite num_rows_cols_of by exact Hfs.
  rewrite map_map. apply map_ext. intros b. apply slice_rows_cols_of.
Qed.

Lemma chunks_cover {A} (l : list A) :
  concat (map (fun b => firstn batch_size (skipn (b * batch_size) l))
              (seq 0 ((length l + (batch_size - 1)) / batch_size)))
  = l.
Proof.
  rewrite concat_chunks. apply firstn_all2.
  unfold batch_size.
  pose proof (Nat.div_mod_eq (length l + (1000 - 1)) 1000) as H.
  pose proof (Nat.mod_upper_bound (length l + (1000 - 1)) 1000) as H'.
  lia.
Qed.

Lemma chunks_nonempty {A} (l : list A) :
  l <> [] ->
  map (fun b => firstn batch_size (skipn (b * batch_size) l))
      (seq 0 ((length l + (batch_size - 1)) / batch_size)) <> [].
Proof.
  intros Hl Hmap. apply map_eq_nil in Hmap.
  assert (Hz : (length l + (batch_size - 1)) / batch_size = 0).
  { destruct ((length l + (batch_size - 1)) / batch_size); [reflexivity|].
    discriminate Hmap. }
  destruct l as [|a l]; [contradiction|].
  unfold batch_size in Hz. simpl length in Hz.
  pose proof (Nat.div_mod_eq (S (length l) + (1000 - 1)) 1000) as H.
  pose proof (Nat.mod_upper_bound (S (length l) + (1000 - 1)) 1000) as H'.
  lia.
Qed.

Section Tokenized.

Context {L : Libraries}.

Variable tokenizer : tokenizer.

Lemma texts_of_column_strings (texts : list string) :
  Peft.texts_of_column (map VStr texts) = Ok texts.
Proof.
  unfold Peft.texts_of_column.
  rewrite (mapM_map_ok as_str VStr (fun t => t)) by reflexivity.
  rewrite map_id. destruct texts; reflexivity.
Qed.

Lemma tokenize_function_table_of (rs : list DialogSum) :
  Peft.tokenize_function tokenizer (table_of rs)
  = Ok (cols_of (dialogsum ++ Peft.tokenized tokenizer) rs).
Proof.
  unfold Peft.tokenize_function, table_of, cols_of, dialogsum. simpl.
  rewrite (mapM_map_ok _ (fun r : DialogSum => VStr (dialogue r))
             (fun r => (Peft.start_prompt ++ dialogue r ++ Peft.end_prompt)%string))
    by reflexivity.
  simpl.
  rewrite <- (map_map summary VStr), texts_of_column_strings.
  simpl. unfold Peft.tokenizer_call. rewrite !map_map. reflexivity.
Qed.

Lemma map_batched_table_of (rs : list DialogSum) :
  rs <> [] ->
  map_batched (Peft.tokenize_function tokenizer) (table_of rs)
  = Ok (cols_of (dialogsum ++ Peft.tokenized tokenizer) rs).
Proof.
  intros Hrs. unfold map_batched, table_of.
  rewrite batches_cols_of by discriminate.
  pose proof (chunks_nonempty rs Hrs) as Hne.
  pose proof (chunks_cover rs) as Hcover.
  set (chunks := map (fun b => firstn batch_size (skipn (b * batch_size) rs))
                     (seq 0 ((length rs + (batch_size - 1)) / batch_size))) in *.
  destruct chunks as [|c cs] eqn:E; [contradiction|].
  change (map (cols_of dialogsum) (c :: cs))
    with (cols_of dialogsum c :: map (cols_of dialogsum) cs).
  cbv iota beta.
  change (cols_of dialogsum c :: map (cols_of dialogsum) cs)
    with (map (cols_of dialogsum) (c :: cs)).
  rewrite (mapM_map_ok _ (cols_of dialogsum)
             (cols_of (dialogsum ++ Peft.tokenized tokenizer)))
    by (intros; apply tokenize_function_table_of).
  cbv beta iota delta [rbind].
  rewrite concat_tables_cols_of.
  - rewrite Hcover. reflexivity.
  - unfold dialogsum, Peft.tokenized. distinct_keys.
  - discriminate.
Qed.

Lemma remove_columns_tokenized (rs : list DialogSum) :
  remove_columns ["id"; "topic"; "dialogue"; "summary"]
                 (cols_of (dialogsum ++ Peft.tokenized tokenizer) rs)
  = Ok (cols_of (Peft.tokenized tokenizer) rs).
Proof. reflexivity. Qed.

Lemma filter_with_indices_tokenized (rs : list DialogSum) :
  filter_with_indices (fun example index => Ok ((index mod 100 =? 0)%Z))
                      (cols_of (Peft.tokenized tokenizer) rs)
  = Ok (cols_of (Peft.tokenized tokenizer) (Peft.every_100th rs)).
Proof.
  unfold filter_with_indices.
  rewrite num_rows_cols_of by discriminate.
  rewrite (mapM_ok _ (fun i => (Z.of_nat i mod 100 =? 0)%Z)) by reflexivity.
  cbv beta iota delta [rbind]. rewrite select_cols_of. reflexivity.
Qed.

Lemma tokenized_split (rs : list DialogSum) :
  (t1 <- map_batched (Peft.tokenize_function tokenizer) (table_of rs) ;;
   t2 <- remove_columns ["id"; "topic"; "dialogue"; "summary"] t1 ;;
   filter_with_indices (fun example index => Ok ((index mod 100 =? 0)%Z)) t2)
  = Ok (Peft.expected tokenizer rs).
Proof.
  destruct rs as [|r rs'].
  - reflexivity.
  - rewrite map_batched_table_of by discriminate. cbv beta iota delta [rbind].
    rewrite remove_columns_tokenized. cbv beta iota delta [rbind].
    rewrite filter_with_indices_tokenized. reflexivity.
Qed.

End Tokenized.

(** The [j]-th element kept is the element of index [100 * j]. *)
Lemma select_every_100th_from {A} (l : list A) :
  forall s j,
    nth_error (select (map (fun i => (Z.of_nat i mod 100 =? 0)%Z)
                           (seq s (length l))) l) j
    = nth_error l (100 * j + (100 - s mod 100) mod 100).
Proof.
  induction l as [|a l IH]; intros s j.
  - destruct (100 * j + (100 - s mod 100) mod 100); destruct j; reflexivity.
  - simpl length. simpl seq. simpl map.
    destruct (Z.eqb_spec (Z.of_nat s mod 100) 0) as [Hz|Hnz]; simpl select.
    + destruct j as [|j].
      * replace (100 * 0 + (100 - s mod 100) mod 100) with 0
          by (zify; Z.div_mod_to_equations; lia).
        reflexivity.
      * simpl nth_error at 1. rewrite IH.
        replace (100 * S j + (100 - s mod 100) mod 100)
          with (S (100 * j + (100 - S s mod 100) mod 100))
          by (zify; Z.div_mod_to_equations; lia).
        reflexivity.
    + rewrite IH.
      replace (100 * j + (100 - s mod 100) mod 100)
        with (S (100 * j + (100 - S s mod 100) mod 100))
        by (zify; Z.div_mod_to_equations; lia).
      reflexivity.
Qed.

Lemma every_100th_nth {A} (l : list A) (j : nat) :
  nth_error (Peft.every_100th l) j = nth_error l (100 * j).
Proof.
  unfold Peft.every_100th. rewrite select_every_100th_from.
  f_equal. change ((100 - 0 mod 100) mod 100) with 0. lia.
Qed.

(** C5.  On a batch of DialogSum records [tokenize_function] adds the
    column [input_ids], the ids of ['Summarize the following
    conversation.\n\n' + dialogue + '\n\nSummary: '] with
    [padding="max_length"] and [truncation=True], and the column [labels],
    the ids of the summary with the same options.  For a dataset of
    DialogSum splits, the tokenized dataset after [map], [remove_columns] and
    [filter] holds in each split the columns [input_ids] and [labels] only
    (no column at all when the split is empty), and its [j]-th example is
    the example of index [100 * j] of the split: the examples kept are
    those whose index is a multiple of 100. *)
Theorem tokenized_dataset_columns_and_every_100th :
  forall (L : Libraries) (tokenizer : tokenizer)
         (dataset : list (string * list DialogSum)),
    (forall rs,
        Peft.tokenize_function tokenizer (table_of rs)
        = Ok (table_of rs
              ++ [("input_ids",
                   map (fun r => VIds (tokenize_text tokenizer (KStr "max_length") true
                                         ("Summarize the following conversation."
                                            ++ nl ++ nl ++ dialogue r
                                            ++ nl ++ nl ++ "Summary: "))) rs);
                  ("labels",
                   map (fun r => VIds (tokenize_text tokenizer (KStr "max_length") true
                                         (summary r))) rs)]))
    /\ Peft.tokenized_datasets tokenizer
         (map (fun sp => (fst sp, table_of (snd sp))) dataset)
       = Ok (map (fun sp => (fst sp, Peft.expected tokenizer (snd sp))) dataset)
    /\ (forall rs,
           (forall c, In c (column_names (Peft.expected tokenizer rs)) ->
                      ~ In c ["id"; "topic"; "dialogue"; "summary"])
           /\ (rs <> [] ->
               column_names (Peft.expected tokenizer rs) = ["input_ids"; "labels"])
           /\ (forall input_ids labels j,
                  get "input_ids" (Peft.expected tokenizer rs) = Ok input_ids ->
                  get "labels" (Peft.expected tokenizer rs) = Ok labels ->
                  nth_error input_ids j
                  = option_map
                      (fun r => VIds (tokenize_text tokenizer (KStr "max_length") true
                                        ("Summarize the following conversation."
                                           ++ nl ++ nl ++ dialogue r
                                           ++ nl ++ nl ++ "Summary: ")))
                      (nth_error rs (100 * j))
                  /\ nth_error labels j
                     = option_map
                         (fun r => VIds (tokenize_text tokenizer (KStr "max_length")
                                           true (summary r)))
                         (nth_error rs (100 * j)))).
Proof.
  intros L tokenizer dataset. split; [|split].
  - intros rs. rewrite tokenize_function_table_of.
    unfold cols_of, table_of, cols_of, Peft.tokenized. rewrite map_app.
    simpl. unfold Peft.start_prompt, Peft.end_prompt.
    reflexivity.
  - unfold Peft.tokenized_datasets.
    assert (H1 : on_splits (map_batched (Peft.tokenize_function tokenizer))
                   (map (fun sp => (fst sp, table_of (snd sp))) dataset)
                 = Ok (map (fun sp => (fst sp,
                                       match snd sp with
                                       | [] => table_of []
                                       | rs => cols_of (dialogsum ++ Peft.tokenized tokenizer) rs
                                       end)) dataset)).
    { unfold on_splits. apply mapM_map_ok. intros [name rs] _. simpl.
      destruct rs as [|r rs']; [reflexivity|].
      rewrite map_batched_table_of by discriminate. reflexivity. }
    rewrite H1. cbv beta iota delta [rbind].
    assert (H2 : on_splits (remove_columns ["id"; "topic"; "dialogue"; "summary"])
                   (map (fun sp : string * list DialogSum =>
                           (fst sp,
                            match snd sp with
                            | [] => table_of []
                            | rs => cols_of (dialogsum ++ Peft.tokenized tokenizer) rs
                            end)) dataset)
                 = Ok (map (fun sp => (fst sp,
                                       match snd sp with
                                       | [] => []
                                       | rs => cols_of (Peft.tokenized tokenizer) rs
                                       end)) dataset)).
    { unfold on_splits. apply mapM_map_ok. intros [name rs] _. simpl.
      destruct rs as [|r rs']; reflexivity. }
    rewrite H2. cbv beta iota delta [rbind].
    unfold on_splits. apply mapM_map_ok. intros [name rs] _. cbn [fst snd].
    destruct rs as [|r rs']; [reflexivity|].
    rewrite filter_with_indices_tokenized. reflexivity.
  - intros rs. split; [|split].
    + intros c Hc. destruct rs as [|r rs']; simpl in Hc; [contradiction|].
      intros Hin. simpl in Hin.
      repeat (destruct Hc as [Hc|Hc]; [subst c;
        repeat (destruct Hin as [Hin|Hin]; [discriminate Hin|]); exact Hin|]).
      exact Hc.
    + intros Hrs. destruct rs as [|r rs']; [contradiction|]. reflexivity.
    + intros input_ids labels j Hi Hl.
      destruct rs as [|r rs']; [discriminate Hi|].
      unfold Peft.expected in Hi, Hl.
      rewrite (get_cols_of _ (Peft.tokenized tokenizer)) with
        (f := fun r => VIds (tokenize_text tokenizer (KStr "max_length") true
                               (Peft.start_prompt ++ dialogue r ++ Peft.end_prompt)))
        in Hi; [|unfold Peft.tokenized; distinct_keys|left; reflexivity].
      rewrite (get_cols_of _ (Peft.tokenized tokenizer)) with
        (f := fun r => VIds (tokenize_text tokenizer (KStr "max_length") true
                               (summary r)))
        in Hl; [|unfold Peft.tokenized; distinct_keys|right; left; reflexivity].
      assert (Ei : input_ids
                   = map (fun r => VIds (tokenize_text tokenizer (KStr "max_length") true
                                           (Peft.start_prompt ++ dialogue r
                                              ++ Peft.end_prompt)))
                         (Peft.every_100th (r :: rs'))) by congruence.
      assert (El : labels
                   = map (fun r => VIds (tokenize_text tokenizer (KStr "max_length") true
                                           (summary r)))
                         (Peft.every_100th (r :: rs'))) by congruence.
      rewrite Ei, El.
      rewrite !nth_error_map, !every_100th_nth.
      split; [|reflexivity].
      destruct (nth_error (r :: rs') (100 * j)); [|reflexivity].
      reflexivity.
Qed.

(** The theorem for a split of two records: its first example is kept. *)
Lemma tokenized_dataset_columns_and_every_100th_witness :
  nth_error
    [VIds (@tokenize_text toy_libraries "flan-t5" (KStr "max_length") true
             ("Summarize the following conversation." ++ nl ++ nl
                ++ "#Person1#: Hi." ++ nl ++ nl ++ "Summary: "))] 0
  = option_map
      (fun r => VIds (@tokenize_text toy_libraries "flan-t5" (KStr "max_length") true
                        ("Summarize the following conversation." ++ nl ++ nl
                           ++ dialogue r ++ nl ++ nl ++ "Summary: ")))
      (nth_error sample_records (100 * 0))
  /\ nth_error
       [VIds (@tokenize_text toy_libraries "flan-t5" (KStr "max_length") true
                "A greeting.")] 0
     = option_map
         (fun r => VIds (@tokenize_text toy_libraries "flan-t5" (KStr "max_length")
                           true (summary r)))
         (nth_error sample_records (100 * 0)).
Proof.
  destruct (proj2 (proj2 (tokenized_dataset_columns_and_every_100th
                            toy_libraries "flan-t5" [("train", sample_records)]))
                  sample_records) as [_ [_ H]].
  apply (H _ _ 0); reflexivity.
Defined.

(** ** [build_dataset] *)
Section BuildDataset.

Context {L : Libraries}.

Variable input_min_text_length input_max_text_length : Z.

Lemma filter_examples_table_of (rs : list DialogSum) :
  filter_examples
    (fun x =>
       d <- get "dialogue" x ;;
       if (py_len d >? input_min_text_length)%Z
       then d' <- get "dialogue" x ;;
            Ok (py_len d' <=? input_max_text_length)%Z
       else Ok false)
    (table_of rs)
  = Ok (table_of (filter (Rlhf.in_range input_min_text_length
                                        input_max_text_length) rs)).
Proof.
  unfold filter_examples, table_of.
  rewrite rows_cols_of by discriminate.
  rewrite (mapM_map_ok _ (row_of dialogsum)
             (Rlhf.in_range input_min_text_length input_max_text_length)).
  - cbv beta iota delta [rbind].
    rewrite select_cols_of, select_filter. reflexivity.
  - intros r _. unfold Rlhf.in_range. simpl.
    destruct (Z.of_nat (String.length (dialogue r)) >? input_min_text_length)%Z;
      reflexivity.
Qed.

Lemma tokenize_row_of (tokenizer : tokenizer) (r : DialogSum) :
  Rlhf.tokenize tokenizer (row_of dialogsum r)
  = Ok (row_of (Rlhf.with_query tokenizer) r).
Proof. reflexivity. Qed.

Lemma map_examples_table_of (tokenizer : tokenizer) (rs : list DialogSum) :
  rs <> [] ->
  map_examples (Rlhf.tokenize tokenizer) (table_of rs)
  = Ok (cols_of (Rlhf.with_query tokenizer) rs).
Proof.
  intros Hrs. unfold map_examples, table_of.
  rewrite rows_cols_of by discriminate.
  destruct rs as [|r rs']; [contradiction|].
  change (map (row_of dialogsum) (r :: rs'))
    with (row_of dialogsum r :: map (row_of dialogsum) rs').
  cbv iota beta.
  change (row_of dialogsum r :: map (row_of dialogsum) rs')
    with (map (row_of dialogsum) (r :: rs')).
  rewrite (mapM_map_ok _ (row_of dialogsum) (row_of (Rlhf.with_query tokenizer)))
    by (intros; apply tokenize_row_of).
  cbv beta iota delta [rbind].
  apply of_rows_row_of.
  - unfold Rlhf.with_query, dialogsum. simpl. distinct_keys.
  - discriminate.
Qed.

Lemma train_test_split_cols_of {R} (fs : schema R) (rs : list R)
      (test_size : string) (seed : Z) :
  fs <> [] ->
  let n := length rs in
  let n_test := ceil_mul test_size n in
  Rlhf.train_test_split test_size false seed (cols_of fs rs)
  = match rs with
    | [] => Ok [("train", cols_of fs []); ("test", cols_of fs [])]
    | _ => if (n_test <? n)%nat
           then Ok [("train", cols_of fs (firstn (n - n_test) rs));
                    ("test", cols_of fs (skipn (n - n_test) rs))]
           else Raise ValueError
    end.
Proof.
  intros Hfs n n_test. unfold Rlhf.train_test_split.
  rewrite num_rows_cols_of by exact Hfs. fold n. fold n_test.
  destruct rs as [|r0 rs0]; [reflexivity|].
  set (rs := r0 :: rs0) in *.
  destruct (Nat.eqb_spec n 0) as [Hz|_]; [discriminate Hz|].
  destruct (Nat.ltb_spec n_test n) as [Hlt|Hge].
  - destruct (Nat.ltb_spec n n_test) as [Habs|_]; [lia|].
    destruct (Nat.eqb_spec (n - n_test) 0) as [Habs|_]; [lia|].
    cbv beta iota delta [orb].
    rewrite !(take_rows_cols_of _ fs _ _ r0)
      by (intros i Hi; apply in_seq in Hi; fold n; lia).
    rewrite !map_nth_seq_from by (fold n; lia).
    simpl skipn at 1.
    rewrite (firstn_all2 (n := n_test) (skipn (n - n_test) rs))
      by (rewrite length_skipn; fold n; lia).
    reflexivity.
  - destruct (Nat.ltb_spec n n_test) as [_|Hle]; [reflexivity|].
    destruct (Nat.eqb_spec (n - n_test) 0) as [_|Habs]; [reflexivity|lia].
Qed.

End BuildDataset.

(** C10.  When the hub returns the DialogSum records [rs] for the train
    split, [build_dataset] keeps the records whose dialogue length [len]
    satisfies [input_min_text_length < len <= input_max_text_length] and no
    other, in their order; gives each the field [input_ids], the encoding of
    the prompt around its dialogue, and the field [query], the decoding of
    these ids; and returns as [train] the first and as [test] the last of
    them, so that [train] followed by [test] is the kept records in their
    order, the test set having [ceil(0.2 * n)] of the [n] records.  When no
    record is kept there is nothing to tokenize or to split, and both
    splits are the dataset without rows, with the columns it came with.
    (When records are kept and that leaves none for [train],
    [train_test_split] raises [ValueError].) *)
Theorem build_dataset_filters_tokenizes_and_splits :
  forall (L : Libraries) (model_name dataset_name : string)
         (input_min_text_length input_max_text_length : Z)
         (rs : list DialogSum),
    hub_dataset dataset_name "train" = table_of rs ->
    let kept := filter (Rlhf.in_range input_min_text_length input_max_text_length) rs in
    let n := length kept in
    let n_test := ceil_mul "0.2" n in
    let tokenizer := auto_tokenizer model_name in
    Rlhf.build_dataset model_name dataset_name
                       input_min_text_length input_max_text_length
    = match kept with
      | [] => Ok [("train", table_of []); ("test", table_of [])]
      | _ =>
          if (n_test <? n)%nat
          then Ok [("train", cols_of (Rlhf.with_query tokenizer)
                                     (firstn (n - n_test) kept));
                   ("test", cols_of (Rlhf.with_query tokenizer)
                                    (skipn (n - n_test) kept))]
          else Raise ValueError
      end
    /\ (forall r, In r kept <->
                  In r rs
                  /\ (input_min_text_length
                      < Z.of_nat (String.length (dialogue r))
                      <= input_max_text_length)%Z)
    /\ firstn (n - n_test) kept ++ skipn (n - n_test) kept = kept
    /\ (forall r,
           row_of (Rlhf.with_query tokenizer) r
           = [("id", VStr (id r)); ("dialogue", VStr (dialogue r));
              ("summary", VStr (summary r)); ("topic", VStr (topic r));
              ("input_ids",
               VIds (encode tokenizer
                       (nl ++ "Summarize the following conversation." ++ nl ++ nl
                           ++ dialogue r ++ nl ++ nl ++ "Summary:" ++ nl)));
              ("query",
               VStr (decode tokenizer false
                       (encode tokenizer
                          (nl ++ "Summarize the following conversation." ++ nl ++ nl
                              ++ dialogue r ++ nl ++ nl ++ "Summary:" ++ nl))))]).
Proof.
  intros L model_name dataset_name lo hi rs Hhub kept n n_test tokenizer.
  split; [|split; [|split]].
  - unfold Rlhf.build_dataset. rewrite Hhub.
    rewrite filter_examples_table_of. cbv beta iota delta [rbind]. fold kept.
    destruct kept as [|r kept'] eqn:E.
    + change (map_examples (Rlhf.tokenize (auto_tokenizer model_name)) (table_of []))
        with (Ok (cols_of dialogsum (@nil DialogSum))).
      cbv beta iota delta [rbind].
      rewrite train_test_split_cols_of by discriminate.
      reflexivity.
    + rewrite map_examples_table_of by discriminate.
      cbv beta iota delta [rbind]. fold tokenizer.
      rewrite train_test_split_cols_of
        by (unfold Rlhf.with_query, dialogsum; discriminate).
      fold n. fold n_test. destruct (n_test <? n)%nat; reflexivity.
  - intros r. unfold kept. rewrite filter_In. unfold Rlhf.in_range.
    rewrite andb_true_iff, Z.gtb_lt, Z.leb_le. tauto.
  - apply firstn_skipn.
  - intros r. reflexivity.
Qed.

(** The theorem for the six records of the small instance and the bounds 2
    and 5: three records are kept, two for [train] and one for [test]. *)
Lemma build_dataset_filters_tokenizes_and_splits_witness :
  @hub_dataset toy_libraries "knkarthick/dialogsum" "train" = table_of toy_records
  /\ @Rlhf.build_dataset toy_libraries "google/flan-t5-base" "knkarthick/dialogsum" 2 5
     = Ok [("train",
            cols_of (@Rlhf.with_query toy_libraries "google/flan-t5-base")
              [ {| id := "train_1"; dialogue := "abcd"; summary := "s1"; topic := "t1" |};
                {| id := "train_2"; dialogue := "abc"; summary := "s2"; topic := "t2" |} ]);
           ("test",
            cols_of (@Rlhf.with_query toy_libraries "google/flan-t5-base")
              [ {| id := "train_4"; dialogue := "abcde"; summary := "s4"; topic := "t4" |} ])].
Proof.
  split; [reflexivity|].
  rewrite (proj1 (build_dataset_filters_tokenizes_and_splits
                    toy_libraries "google/flan-t5-base" "knkarthick/dialogsum" 2 5
                    toy_records eq_refl)).
  reflexivity.
Defined.

(** ** The S3 paths of the setup and data-quality notebooks *)

Lemma lookup_cons {A} (x y : string) (v : A) (d : list (string * A)) :
  lookup x ((y, v) :: d) = if String.eqb x y then Some v else lookup x d.
Proof.
  unfold lookup. simpl. destruct (String.eqb x y); reflexivity.
Qed.

Lemma lookup_forget (names : list string) (x : string)
      (env : list (string * string)) :
  lookup x (forget names env) = if mem x names then None else lookup x env.
Proof.
  induction env as [|[y v] env IH]; simpl.
  - destruct (mem x names); reflexivity.
  - destruct (mem y names) eqn:My; simpl.
    + rewrite IH, lookup_cons. destruct (String.eqb_spec x y) as [->|_].
      * rewrite My. reflexivity.
      * reflexivity.
    + rewrite !lookup_cons. destruct (String.eqb_spec x y) as [->|_].
      * rewrite My. reflexivity.
      * exact IH.
Qed.

Lemma included_forget (names : list string) (env env' : list (string * string)) :
  included env env' -> included (forget names env) (forget names env').
Proof.
  intros H x v. rewrite !lookup_forget. destruct (mem x names); [discriminate|].
  apply H.
Qed.

Lemma eval_atom_mono (env env' : list (string * string)) (e : expr) (v : string) :
  included env env' -> eval_atom env e = Some v -> eval_atom env' e = Some v.
Proof.
  intros H. destruct e; simpl; auto.
Qed.

Lemma atoms_mono (env env' : list (string * string)) (args : list expr) :
  included env env' ->
  forall vs, all_some (map (eval_atom env) args) = Some vs ->
             all_some (map (eval_atom env') args) = Some vs.
Proof.
  intros H. induction args as [|a args IH]; intros vs; simpl; [auto|].
  destruct (eval_atom env a) as [v|] eqn:Ea; [|discriminate].
  rewrite (eval_atom_mono env env' a v H Ea).
  destruct (all_some (map (eval_atom env) args)) as [vs'|]; [|discriminate].
  rewrite (IH vs' eq_refl). auto.
Qed.

Lemma eval_string_mono (lib lib' : expr -> option string)
      (env env' : list (string * string)) (e : expr) (v : string) :
  (forall v, lib e = Some v -> lib' e = Some v) ->
  included env env' ->
  eval_string lib env e = Some v -> eval_string lib' env' e = Some v.
Proof.
  intros Hl He.
  destruct e as [x|s| | | | | |func args keywords| | | | | | | | | | | ];
    simpl; auto.
  destruct func as [| | | |value method| | | | | | | | | | | | | | ]; auto.
  destruct value; auto.
  destruct keywords; auto.
  destruct (String.eqb method "format"); auto.
  destruct (all_some (map (eval_atom env) args)) as [vs|] eqn:E; [|discriminate].
  rewrite (atoms_mono env env' args He vs E). auto.
Qed.

Lemma app_map_some {A} (a b : list (option A)) :
  forall rs, a ++ b = map Some rs ->
             exists r1 r2, rs = r1 ++ r2 /\ a = map Some r1 /\ b = map Some r2.
Proof.
  induction a as [|x a IHa]; intros rs Hab; simpl in *.
  - exists [], rs. auto.
  - destruct rs as [|r rs]; [discriminate|]. simpl in Hab.
    injection Hab as Hx Hab. destruct (IHa rs Hab) as [r1 [r2 [E1 [E2 E3]]]].
    exists (r :: r1), r2. subst. auto.
Qed.

Section Monotone.

Variables lib lib' : nat -> expr -> option string.

Hypothesis lib_included : forall k e v, lib k e = Some v -> lib' k e = Some v.

Lemma assign_strings_mono (k : nat) (s : stmt) (env env' : list (string * string)) :
  included env env' ->
  included (assign_strings lib k s env) (assign_strings lib' k s env').
Proof.
  intros He.
  destruct s as [| |targets e| | | | | | | | | | | | ];
    try (apply included_forget; exact He).
  destruct targets as [|t targets];
    try (apply included_forget; exact He).
  destruct t; try (apply included_forget; exact He).
  destruct targets; try (apply included_forget; exact He).
  unfold assign_strings.
  destruct (eval_string (lib k) env e) as [v|] eqn:E.
  - rewrite (eval_string_mono (lib k) (lib' k) env env' e v
               (lib_included k e) He E).
    intros x w. rewrite !lookup_cons, !lookup_forget.
    destruct (String.eqb x id0); [auto|]. destruct (mem x [id0]); [discriminate|].
    apply He.
  - intros x w. rewrite lookup_forget.
    destruct (mem x [id0]) eqn:Mx; [discriminate|]. intros Hx.
    destruct (eval_string (lib' k) env' e).
    + rewrite lookup_cons, lookup_forget, Mx.
      simpl in Mx. rewrite orb_false_r in Mx. rewrite Mx. apply He. exact Hx.
    + rewrite lookup_forget, Mx. apply He. exact Hx.
Qed.

Lemma run_strings_mono (ss : list (nat * stmt)) :
  forall k env env',
    included env env' ->
    included (run_strings lib k ss env) (run_strings lib' k ss env').
Proof.
  induction ss as [|[c s] ss IH]; intros k env env' He; simpl; [exact He|].
  apply IH. apply assign_strings_mono. exact He.
Qed.

Lemma expand_mono (env env' : list (string * string)) (s : string) :
  included env env' ->
  forall skip r, expand env skip s = Some r -> expand env' skip s = Some r.
Proof.
  intros He. induction s as [|c s IH]; intros skip r; simpl; [auto|].
  destruct skip as [|n]; [|apply IH].
  destruct (Ascii.eqb c "$").
  - destruct (lookup (take_name s) env) as [v|] eqn:Ev; [|discriminate].
    rewrite (He _ _ Ev).
    destruct (expand env (String.length (take_name s)) s) as [r'|] eqn:Er;
      [|discriminate].
    rewrite (IH _ _ Er). auto.
  - destruct (Ascii.eqb c "'" || Ascii.eqb c "{" || Ascii.eqb c "}");
      [discriminate|].
    destruct (expand env 0 s) as [r'|] eqn:Er; [|discriminate].
    rewrite (IH _ _ Er). auto.
Qed.

Lemma expand_all_mono (env env' : list (string * string)) (ls rs : list string) :
  included env env' ->
  map (expand env 0) ls = map Some rs -> map (expand env' 0) ls = map Some rs.
Proof.
  intros He. revert rs. induction ls as [|l ls IH]; intros [|r rs] H;
    simpl in *; try discriminate; auto.
  injection H as H1 H2. rewrite (expand_mono env env' l He 0 r H1).
  rewrite (IH rs H2). reflexivity.
Qed.

Lemma shell_lines_mono (c : nat) (ss : list (nat * stmt)) :
  forall k env env' rs,
    included env env' ->
    shell_lines lib c k ss env = map Some rs ->
    shell_lines lib' c k ss env' = map Some rs.
Proof.
  induction ss as [|[c' s] ss IH]; intros k env env' rs He H; simpl in *;
    [exact H|].
  destruct (app_map_some _ _ _ H) as [r1 [r2 [-> [H1 H2]]]].
  rewrite map_app. f_equal.
  - destruct s; auto. destruct (Nat.eqb c c'); auto.
    apply (expand_all_mono env env'); assumption.
  - apply (IH (S k) (assign_strings lib k s env)); [|exact H2].
    apply assign_strings_mono. exact He.
Qed.

End Monotone.

Lemma is_default_bucket_eq (e : expr) :
  is_default_bucket e = true -> e = default_bucket.
Proof.
  destruct e as [| | | | | | |func args keywords| | | | | | | | | | | ];
    try discriminate.
  destruct func as [| | | |value method| | | | | | | | | | | | | | ];
    try discriminate.
  destruct value; try discriminate.
  destruct args; try discriminate. destruct keywords; try discriminate.
  simpl. intros H. apply andb_prop in H. destruct H as [H1 H2].
  apply String.eqb_eq in H1, H2. subst. reflexivity.
Qed.

Lemma is_timestamp_eq (e : expr) : is_timestamp e = true -> e = timestamp.
Proof.
  unfold is_timestamp. intros H.
  repeat match type of H with
         | match ?x with _ => _ end = true => destruct x; try discriminate H
         end.
  apply andb_prop in H. destruct H as [H H3].
  apply andb_prop in H. destruct H as [H1 H2].
  apply String.eqb_eq in H1, H2, H3. subst. reflexivity.
Qed.

Lemma session_lib_included (lib : nat -> expr -> option string)
      (bucket : string) (time : option string) :
  (forall k, lib k default_bucket = Some bucket) ->
  (forall k t, time = Some t -> lib k timestamp = Some t) ->
  forall k e v, session_lib bucket time k e = Some v -> lib k e = Some v.
Proof.
  intros Hb Ht k e v. unfold session_lib.
  destruct (is_default_bucket e) eqn:B.
  - apply is_default_bucket_eq in B. subst. intros H. injection H as <-. apply Hb.
  - destruct (is_timestamp e) eqn:T; [|discriminate].
    apply is_timestamp_eq in T. subst. apply Ht.
Qed.

Lemma string_app_nil_r (a : string) : (a ++ "")%string = a.
Proof.
  induction a as [|x a IH]; simpl; [reflexivity|]. rewrite IH. reflexivity.
Qed.

(** Two strings built from the same pieces. *)
Ltac same_string :=
  vm_compute; fold append;
  rewrite ?string_app_assoc; cbn [append]; rewrite ?string_app_nil_r;
  reflexivity.

Lemma included_refl (env : list (string * string)) : included env env.
Proof. intros x v H. exact H. Qed.

(** X1.  Whatever the libraries return, when [sess.default_bucket()] is
    the same bucket in the setup notebook and in the data-quality notebook,
    the three [aws s3 cp] commands of the setup notebook (cell 45) copy the
    public reviews to the very prefix the data-quality notebook takes as
    [s3_input_data] and lists (cell 14):
    [s3://<bucket>/amazon-reviews-pds/tsv/], the private path of the setup
    notebook followed by a slash. *)
Theorem setup_copies_reviews_to_data_quality_input :
  forall (lib_setup lib_dq : nat -> expr -> option string) (bucket : string),
    (forall k, lib_setup k default_bucket = Some bucket) ->
    (forall k, lib_dq k default_bucket = Some bucket) ->
    let private := ("s3://" ++ bucket ++ "/amazon-reviews-pds/tsv")%string in
    let input := ("s3://" ++ bucket ++ "/amazon-reviews-pds/tsv/")%string in
    lookup "s3_private_path_tsv" (strings_of lib_setup setup_notebook)
    = Some private
    /\ input = (private ++ "/")%string
    /\ shell_of lib_setup setup_notebook 45
       = map (fun file =>
                Some ("aws s3 cp --recursive s3://dsoaws/amazon-reviews-pds/tsv/ "
                        ++ input ++ " --exclude " ++ dq ++ "*" ++ dq
                        ++ " --include " ++ dq ++ file ++ dq)%string)
             ["amazon_reviews_us_Digital_Software_v1_00.tsv.gz";
              "amazon_reviews_us_Digital_Video_Games_v1_00.tsv.gz";
              "amazon_reviews_us_Gift_Card_v1_00.tsv.gz"]
    /\ lookup "s3_input_data" (strings_of lib_dq data_quality_notebook)
       = Some input
    /\ shell_of lib_dq data_quality_notebook 14
       = [Some ("aws s3 ls " ++ input)%string].
Proof.
  intros lib_setup lib_dq bucket Hs Hd private input.
  pose proof (session_lib_included lib_setup bucket None Hs
                (fun k t H => False_ind _ (eq_ind None (fun o => match o with
                                                              | None => True
                                                              | Some _ => False
                                                              end) I _ H)))
    as Is.
  pose proof (session_lib_included lib_dq bucket None Hd
                (fun k t H => False_ind _ (eq_ind None (fun o => match o with
                                                              | None => True
                                                              | Some _ => False
                                                              end) I _ H)))
    as Id.
  split; [|split; [|split; [|split]]].
  - apply (run_strings_mono _ _ Is (toplevel setup_notebook) 0 [] []
             (included_refl [])).
    vm_compute. reflexivity.
  - subst private input. simpl. rewrite string_app_assoc. reflexivity.
  - apply (shell_lines_mono _ _ Is 45 (toplevel setup_notebook) 0 [] []
             [ _; _; _ ] (included_refl [])).
    subst input. same_string.
  - apply (run_strings_mono _ _ Id (toplevel data_quality_notebook) 0 [] []
             (included_refl [])).
    vm_compute. reflexivity.
  - apply (shell_lines_mono _ _ Id 14 (toplevel data_quality_notebook) 0 [] []
             [ _ ] (included_refl [])).
    same_string.
Qed.

(** The theorem for the bucket [sagemaker-us-east-1-0123]. *)
Lemma setup_copies_reviews_to_data_quality_input_witness :
  lookup "s3_private_path_tsv"
         (strings_of (fun _ _ => Some "sagemaker-us-east-1-0123") setup_notebook)
  = Some "s3://sagemaker-us-east-1-0123/amazon-reviews-pds/tsv"
  /\ shell_of (fun _ _ => Some "sagemaker-us-east-1-0123") data_quality_notebook 14
     = [Some "aws s3 ls s3://sagemaker-us-east-1-0123/amazon-reviews-pds/tsv/"].
Proof.
  pose proof (setup_copies_reviews_to_data_quality_input
                (fun _ _ => Some "sagemaker-us-east-1-0123")
                (fun _ _ => Some "sagemaker-us-east-1-0123")
                "sagemaker-us-east-1-0123"
                (fun _ => eq_refl) (fun _ => eq_refl)) as H.
  split; [exact (proj1 H)|exact (proj2 (proj2 (proj2 (proj2 H))))].
Defined.

(** X2.  Whatever else the libraries return, with [bucket] the session's
    bucket and [time] the text of [strftime("%Y-%m-%d-%H-%M-%S", gmtime())],
    the data-quality notebook gives the job the output path
    [s3://<bucket>/amazon-reviews-spark-analyzer-<time>/output]; the prefix
    under which the job's output is looked up is the one inside that path,
    and cells 28 and 30 list and download the reports from that same
    path. *)
Theorem data_quality_reports_read_from_job_output :
  forall (lib : nat -> expr -> option string) (bucket time : string),
    (forall k, lib k default_bucket = Some bucket) ->
    (forall k, lib k timestamp = Some time) ->
    let prefix := ("amazon-reviews-spark-analyzer-" ++ time)%string in
    let output := ("s3://" ++ bucket ++ "/" ++ prefix ++ "/output")%string in
    lookup "s3_output_analyze_data" (strings_of lib data_quality_notebook)
    = Some output
    /\ lookup "s3_job_output_prefix" (strings_of lib data_quality_notebook)
       = Some prefix
    /\ shell_of lib data_quality_notebook 28
       = [Some ("aws s3 ls --recursive " ++ output ++ "/")%string]
    /\ shell_of lib data_quality_notebook 30
       = [Some ("aws s3 cp --recursive " ++ output
                  ++ " ./amazon-reviews-spark-analyzer/ --exclude=" ++ dq ++ "*"
                  ++ dq ++ " --include=" ++ dq ++ "*.csv" ++ dq)%string].
Proof.
  intros lib bucket time Hb Ht prefix output.
  assert (I : forall k e v,
             session_lib bucket (Some time) k e = Some v -> lib k e = Some v).
  { apply session_lib_included; [exact Hb|].
    intros k t H. injection H as <-. apply Ht. }
  split; [|split; [|split]].
  - apply (run_strings_mono _ _ I (toplevel data_quality_notebook) 0 [] []
             (included_refl [])).
    subst output prefix. same_string.
  - apply (run_strings_mono _ _ I (toplevel data_quality_notebook) 0 [] []
             (included_refl [])).
    subst prefix. same_string.
  - apply (shell_lines_mono _ _ I 28 (toplevel data_quality_notebook) 0 [] []
             [ _ ] (included_refl [])).
    subst output prefix. same_string.
  - apply (shell_lines_mono _ _ I 30 (toplevel data_quality_notebook) 0 [] []
             [ _ ] (included_refl [])).
    subst output prefix. same_string.
Qed.

(** The theorem for the bucket [b] at the time [t]. *)
Lemma data_quality_reports_read_from_job_output_witness :
  shell_of (fun _ e => if is_timestamp e then Some "t" else Some "b")
           data_quality_notebook 28
  = [Some "aws s3 ls --recursive s3://b/amazon-reviews-spark-analyzer-t/output/"].
Proof.
  exact (proj1 (proj2 (proj2
           (data_quality_reports_read_from_job_output
              (fun _ e => if is_timestamp e then Some "t" else Some "b")
              "b" "t" (fun _ => eq_refl) (fun _ => eq_refl))))).
Defined.

(** ** The data collator *)

Lemma get_missing {A} (k : string) (d : dict A) :
  ~ In k (keys d) -> get k d = Raise (KeyError k).
Proof.
  induction d as [|[k' v] d IH]; simpl; intros H; [reflexivity|].
  destruct (String.eqb_spec k k') as [->|_].
  - exfalso. apply H. left. reflexivity.
  - apply IH. intros Hin. apply H. right. exact Hin.
Qed.

Lemma get_present {A} (k : string) (d : dict A) :
  In k (keys d) -> exists v, get k d = Ok v.
Proof.
  induction d as [|[k' v] d IH]; simpl; intros H; [contradiction|].
  destruct (String.eqb_spec k k') as [->|Hne].
  - exists v. reflexivity.
  - destruct H as [H|H]; [congruence|]. apply IH. exact H.
Qed.

Lemma get_raises {A} (k : string) (d : dict A) (e : pyexn) :
  get k d = Raise e -> e = KeyError k /\ ~ In k (keys d).
Proof.
  induction d as [|[k' v] d IH]; simpl; intros H.
  - split; [congruence|]. intros [].
  - destruct (String.eqb_spec k k') as [->|Hne]; [discriminate|].
    destruct (IH H) as [He Hn]. split; [exact He|].
    intros [Hk|Hk]; [congruence|contradiction].
Qed.

Lemma get_in {A} (k : string) (v : A) (d : dict A) :
  NoDup (keys d) -> In (k, v) d -> get k d = Ok v.
Proof.
  induction d as [|[k' v'] d IH]; simpl; intros Hd Hin; [contradiction|].
  inversion Hd as [|? ? Hnot Hrest]; subst.
  destruct (String.eqb_spec k k') as [->|Hne].
  - destruct Hin as [Heq|Hin]; [congruence|].
    exfalso. apply Hnot. apply in_map_iff. exists (k', v). auto.
  - destruct Hin as [Heq|Hin]; [congruence|]. apply IH; assumption.
Qed.

Lemma get_map_values {A B} (g : A -> B) (k : string) (d : dict A) :
  get k (map (fun kv => (fst kv, g (snd kv))) d) = (v <- get k d ;; Ok (g v)).
Proof.
  induction d as [|[k' v] d IH]; simpl; [reflexivity|].
  destruct (String.eqb k k'); [reflexivity|exact IH].
Qed.

Lemma set_fresh {A} (k : string) (v : A) (d : dict A) :
  ~ In k (keys d) -> set k v d = d ++ [(k, v)].
Proof.
  induction d as [|[k' v'] d IH]; simpl; intros H; [reflexivity|].
  destruct (String.eqb_spec k k') as [->|_].
  - exfalso. apply H. left. reflexivity.
  - rewrite IH; [reflexivity|]. intros Hin. apply H. right. exact Hin.
Qed.

Lemma dict_of_from {A} (pairs : dict A) :
  forall acc, NoDup (keys acc ++ keys pairs) ->
              fold_left (fun d kv => set (fst kv) (snd kv) d) pairs acc
              = acc ++ pairs.
Proof.
  induction pairs as [|[k v] pairs IH]; intros acc H; simpl.
  - rewrite app_nil_r. reflexivity.
  - simpl in H. rewrite set_fresh.
    + rewrite IH.
      * rewrite <- app_assoc. reflexivity.
      * unfold keys in *. rewrite map_app, <- app_assoc. exact H.
    + intros Hin. apply (NoDup_remove_2 _ _ _ H). apply in_or_app. left. exact Hin.
Qed.

Lemma dict_of_distinct {A} (pairs : dict A) :
  NoDup (keys pairs) -> RlhfCells.dict_of pairs = pairs.
Proof.
  intros H. unfold RlhfCells.dict_of. apply (dict_of_from pairs []). exact H.
Qed.

Lemma mapM_raises {A B} (f : A -> result B) (l : list A) (e : pyexn) :
  mapM f l = Raise e -> exists a, In a l /\ f a = Raise e.
Proof.
  induction l as [|a l IH]; simpl; [discriminate|].
  destruct (f a) as [b|e'] eqn:Fa; simpl.
  - destruct (mapM f l) as [bs|e'']; simpl; [discriminate|].
    intros H. destruct (IH H) as [x [Hx Hf]]. exists x. auto.
  - intros H. exists a. split; [left; reflexivity|congruence].
Qed.

Lemma rebuild (d : example) :
  NoDup (keys d) -> map (fun k => (k, at_key k d)) (keys d) = d.
Proof.
  induction d as [|[k v] d IH]; intros H; simpl; [reflexivity|].
  inversion H as [|? ? Hnot Hrest]; subst.
  unfold at_key at 1. simpl. rewrite String.eqb_refl. f_equal.
  rewrite <- (IH Hrest) at 2. apply map_ext_in. intros k' Hk'.
  unfold at_key. simpl.
  destruct (String.eqb_spec k' k) as [->|_]; [contradiction|reflexivity].
Qed.

Section Collator.

Context {L : Libraries}.

Lemma collect_table (t sub : table) :
  NoDup (column_names t) ->
  (forall k c, In (k, c) t -> length c = num_rows t) ->
  incl sub t ->
  mapM (fun key => column <- mapM (get key) (rows t) ;; Ok (key, column))
       (keys sub)
  = Ok sub.
Proof.
  intros Hd Hlen. induction sub as [|[k c] sub IH]; intros Hincl;
    [reflexivity|].
  assert (Hin : In (k, c) t) by (apply Hincl; left; reflexivity).
  assert (Ec : mapM (get k) (rows t) = Ok c).
  { unfold rows.
    rewrite (mapM_map_ok (get k) (row_at t) (fun i => nth i c (VStr ""))).
    - rewrite <- (Hlen k c Hin), map_nth_seq. reflexivity.
    - intros i _. unfold row_at.
      rewrite (get_map_values (fun c0 : list value => nth i c0 (VStr "")) k t).
      rewrite (get_in k c t Hd Hin). reflexivity. }
  change (keys ((k, c) :: sub)) with (k :: keys sub). cbn [mapM].
  rewrite Ec, IH; [reflexivity|].
  intros x Hx. apply Hincl. right. exact Hx.
Qed.

Lemma collator_rows (t : table) :
  NoDup (column_names t) ->
  num_rows t <> 0 ->
  (forall k c, In (k, c) t -> length c = num_rows t) ->
  RlhfCells.collator (rows t) = Ok t.
Proof.
  intros Hd Hn Hlen. unfold RlhfCells.collator.
  assert (E : Rlhf.item (rows t) 0 = Ok (row_at t 0)).
  { unfold rows. destruct (num_rows t); [contradiction|]. reflexivity. }
  rewrite E, rbind_Ok.
  replace (keys (row_at t 0)) with (keys t)
    by (unfold keys, row_at; rewrite map_map; reflexivity).
  rewrite (collect_table t t Hd Hlen (incl_refl t)), rbind_Ok.
  rewrite dict_of_distinct; [reflexivity|exact Hd].
Qed.

Lemma collator_uniform (first : example) (rest : list example) :
  keys first <> [] ->
  NoDup (keys first) ->
  Forall (fun d => keys d = keys first) rest ->
  let t := map (fun k => (k, map (at_key k) (first :: rest))) (keys first) in
  RlhfCells.collator (first :: rest) = Ok t
  /\ rows t = first :: rest.
Proof.
  intros Hne Hd Hsame t.
  assert (Hall : forall d, In d (first :: rest) -> keys d = keys first).
  { intros d [<-|Hin]; [reflexivity|].
    exact (proj1 (Forall_forall _ _) Hsame d Hin). }
  split.
  - unfold RlhfCells.collator.
    change (Rlhf.item (first :: rest) 0) with (Ok first). rewrite rbind_Ok.
    rewrite (mapM_ok _ (fun k => (k, map (at_key k) (first :: rest)))).
    + rewrite rbind_Ok, dict_of_distinct; [reflexivity|].
      unfold keys at 1. rewrite map_map. simpl. rewrite map_id. exact Hd.
    + intros k Hk.
      rewrite (mapM_ok (get k) (at_key k)); [reflexivity|].
      intros d Hin. unfold at_key.
      destruct (get_present k d) as [v Hv]; [rewrite (Hall d Hin); exact Hk|].
      rewrite Hv. reflexivity.
  - unfold rows.
    assert (Hn : num_rows t = length (first :: rest)).
    { subst t. destruct (keys first); [contradiction|].
      simpl. f_equal. apply length_map. }
    rewrite Hn. rewrite <- (map_nth_seq (first :: rest) first) at 2.
    apply map_ext_in. intros i Hi. apply in_seq in Hi.
    assert (En : forall k, nth i (map (at_key k) (first :: rest)) (VStr "")
                           = at_key k (nth i (first :: rest) first)).
    { intros k. rewrite (nth_indep _ (VStr "") (at_key k first)).
      - apply map_nth.
      - rewrite length_map. lia. }
    assert (Ek : keys (nth i (first :: rest) first) = keys first)
      by (apply Hall; apply nth_In; lia).
    unfold row_at. subst t. rewrite map_map.
    rewrite <- (rebuild (nth i (first :: rest) first)) by (rewrite Ek; exact Hd).
    rewrite Ek. apply map_ext. intros k. cbn [fst snd]. rewrite En. reflexivity.
Qed.

End Collator.

(** X3.  The collator puts the rows of a table together again: for a table
    with distinct column names, columns of one length and at least one row,
    collating its rows gives the table back. *)
Theorem collator_of_the_rows_of_a_table :
  forall (t : table),
    NoDup (column_names t) ->
    num_rows t <> 0 ->
    (forall k c, In (k, c) t -> length c = num_rows t) ->
    RlhfCells.collator (rows t) = Ok t.
Proof.
  intros t. apply collator_rows.
Qed.

(** The theorem for a table of two columns and two rows. *)
Lemma collator_of_the_rows_of_a_table_witness :
  RlhfCells.collator
    (rows [("input_ids", [VIds [1; 2]%Z; VIds [3]%Z]);
           ("query", [VStr "q1"; VStr "q2"])])
  = Ok [("input_ids", [VIds [1; 2]%Z; VIds [3]%Z]);
        ("query", [VStr "q1"; VStr "q2"])].
Proof.
  apply collator_of_the_rows_of_a_table.
  - unfold column_names. simpl. distinct_keys.
  - simpl. discriminate.
  - simpl. intros k c [H|[H|[]]]; inversion H; reflexivity.
Defined.

(** X4.  Samples that all have the keys of the first one, in its order and
    without repetition, are collated into a table with these keys as
    columns and one row per sample, and the rows of that table are the
    samples. *)
Theorem rows_of_the_collated_samples :
  forall (first : example) (rest : list example),
    keys first <> [] ->
    NoDup (keys first) ->
    Forall (fun d => keys d = keys first) rest ->
    exists t,
      RlhfCells.collator (first :: rest) = Ok t
      /\ column_names t = keys first
      /\ num_rows t = S (length rest)
      /\ rows t = first :: rest.
Proof.
  intros first rest Hne Hd Hsame.
  destruct (collator_uniform first rest Hne Hd Hsame) as [H1 H2].
  eexists. split; [exact H1|]. split; [|split; [|exact H2]].
  - unfold column_names, keys. rewrite map_map. simpl. apply map_id.
  - destruct (keys first); [contradiction|]. simpl. rewrite length_map. reflexivity.
Qed.

(** The theorem for two samples. *)
Lemma rows_of_the_collated_samples_witness :
  exists t,
    RlhfCells.collator [ [("input_ids", VIds [1]%Z); ("query", VStr "a")];
                         [("input_ids", VIds [2]%Z); ("query", VStr "b")] ]
    = Ok t
    /\ column_names t = ["input_ids"; "query"]
    /\ num_rows t = 2
    /\ rows t = [ [("input_ids", VIds [1]%Z); ("query", VStr "a")];
                  [("input_ids", VIds [2]%Z); ("query", VStr "b")] ].
Proof.
  apply (rows_of_the_collated_samples
           [("input_ids", VIds [1]%Z); ("query", VStr "a")]
           [ [("input_ids", VIds [2]%Z); ("query", VStr "b")] ]).
  - simpl. discriminate.
  - simpl. distinct_keys.
  - constructor; [reflexivity|constructor].
Defined.

(** X5.  The collator fails in two ways only: on no sample at all, with
    [IndexError] from [data[0]], and with [KeyError k] when a sample after
    the first lacks the key [k] of the first sample.  Keys that only later
    samples have are never looked up. *)
Theorem collator_fails_on_empty_or_missing_key :
  forall (data : list example) (e : pyexn),
    RlhfCells.collator data = Raise e ->
    (data = [] /\ e = IndexError)
    \/ exists first rest k d,
        data = first :: rest /\ e = KeyError k /\ In k (keys first)
        /\ In d rest /\ ~ In k (keys d).
Proof.
  intros data e. unfold RlhfCells.collator.
  destruct data as [|first rest].
  - intros H. left. split; [reflexivity|]. simpl in H. congruence.
  - change (Rlhf.item (first :: rest) 0) with (Ok first).
    rewrite rbind_Ok. intros H. right.
    destruct (mapM _ (keys first)) as [pairs|e'] eqn:E; [discriminate|].
    assert (e' = e) by (unfold rbind in H; congruence). subst e'.
    destruct (mapM_raises _ _ _ E) as [k [Hk Hf]]. cbv beta in Hf.
    destruct (mapM (get k) (first :: rest)) as [column|e'] eqn:E2;
      [discriminate|].
    assert (e' = e) by (unfold rbind in Hf; congruence). subst e'.
    destruct (mapM_raises _ _ _ E2) as [d [Hd Hg]].
    destruct (get_raises k d e Hg) as [-> Hn].
    exists first, rest, k, d. repeat split; auto.
    destruct Hd as [<-|Hd]; [contradiction|exact Hd].
Qed.

(** The theorem for a second sample without [query]. *)
Lemma collator_fails_on_empty_or_missing_key_witness :
  RlhfCells.collator [ [("input_ids", VIds [1]%Z); ("query", VStr "a")];
                       [("input_ids", VIds [2]%Z)] ]
  = Raise (KeyError "query")
  /\ ( ([ [("input_ids", VIds [1]%Z); ("query", VStr "a")];
          [("input_ids", VIds [2]%Z)] ] = [] /\ KeyError "query" = IndexError)
       \/ exists first rest k d,
           [ [("input_ids", VIds [1]%Z); ("query", VStr "a")];
             [("input_ids", VIds [2]%Z)] ] = first :: rest
           /\ KeyError "query" = KeyError k /\ In k (keys first)
           /\ In d rest /\ ~ In k (keys d)).
Proof.
  split; [reflexivity|].
  apply collator_fails_on_empty_or_missing_key. reflexivity.
Defined.

(** ** From [build_dataset] through the collator to the fine-tuning loop *)

Section Dataloader.

Context {L : Libraries}.

Variable tokenizer : tokenizer.

Lemma with_query_distinct : NoDup (map fst (Rlhf.with_query tokenizer)).
Proof. unfold Rlhf.with_query, dialogsum. simpl. distinct_keys. Qed.

Lemma with_query_well_formed (chunk : list DialogSum) :
  length chunk = Rlhf.batch_size ->
  Rlhf.well_formed (cols_of (Rlhf.with_query tokenizer) chunk).
Proof.
  intros Hlen.
  exists (map (fun r => encode tokenizer (Rlhf.prompt_of (dialogue r))) chunk),
    (map (fun r => decode tokenizer false
                     (encode tokenizer (Rlhf.prompt_of (dialogue r)))) chunk).
  rewrite !map_map, !length_map.
  split; [|split; [|split; exact Hlen]].
  - apply (get_cols_of _ (Rlhf.with_query tokenizer) with_query_distinct
             "input_ids"
             (fun r => VIds (encode tokenizer (Rlhf.prompt_of (dialogue r))))).
    unfold Rlhf.with_query, dialogsum. simpl. auto 10.
  - apply (get_cols_of _ (Rlhf.with_query tokenizer) with_query_distinct
             "query"
             (fun r => VStr (decode tokenizer false
                               (encode tokenizer (Rlhf.prompt_of (dialogue r)))))).
    unfold Rlhf.with_query, dialogsum. simpl. auto 10.
Qed.

Lemma collator_with_query (chunk : list DialogSum) :
  chunk <> [] ->
  RlhfCells.collator (map (row_of (Rlhf.with_query tokenizer)) chunk)
  = Ok (cols_of (Rlhf.with_query tokenizer) chunk).
Proof.
  intros Hne.
  rewrite <- (rows_cols_of _ (Rlhf.with_query tokenizer) chunk)
    by (unfold Rlhf.with_query; discriminate).
  apply collator_rows.
  - unfold column_names, keys, cols_of. rewrite map_map. simpl.
    exact with_query_distinct.
  - rewrite num_rows_cols_of by (unfold Rlhf.with_query; discriminate).
    destruct chunk; [contradiction|discriminate].
  - intros k c Hin.
    rewrite num_rows_cols_of by (unfold Rlhf.with_query; discriminate).
    unfold cols_of in Hin. apply in_map_iff in Hin.
    destruct Hin as [[k' f] [Heq _]]. inversion Heq. apply length_map.
Qed.

Lemma collate_all (chunks : list (list DialogSum)) :
  Forall (fun chunk => chunk <> []) chunks ->
  mapM (fun chunk =>
          RlhfCells.collator (map (row_of (Rlhf.with_query tokenizer)) chunk))
       chunks
  = Ok (map (cols_of (Rlhf.with_query tokenizer)) chunks).
Proof.
  intros H. apply mapM_ok. intros chunk Hin.
  apply collator_with_query. exact (proj1 (Forall_forall _ _) H chunk Hin).
Qed.

End Dataloader.

(** X6.  The examples [build_dataset] produces go through the collator
    into batches the fine-tuning loop accepts.  For any grouping of such
    examples into chunks of [batch_size = 16], the collator turns each chunk
    into the table of its columns, which has the column [input_ids] of 16
    prompt tensors and the column [query] of 16 strings; and when the
    libraries keep their contracts (the length sampler draws from its
    range, a generation is not a single token, the reward pipeline returns
    the scores of the labels for each text, [ppo_trainer.step] and
    [log_stats] return for a full batch), the loop over these batches ends
    normally after [min 10 (number of chunks)] calls of
    [ppo_trainer.step]. *)
Theorem collated_examples_run_the_fine_tuning_loop :
  forall (L : Libraries) (tokenizer : tokenizer)
         (chunks : list (list DialogSum)) (s : state),
    Rlhf.contracts ->
    Forall (fun chunk => length chunk = Rlhf.batch_size) chunks ->
    let dataloader := map (cols_of (Rlhf.with_query tokenizer)) chunks in
    mapM (fun chunk =>
            RlhfCells.collator (map (row_of (Rlhf.with_query tokenizer)) chunk))
         chunks
    = Ok dataloader
    /\ Forall Rlhf.well_formed dataloader
    /\ exists gk s' evs,
        Rlhf.fine_tune tokenizer dataloader s = (Ok gk, s')
        /\ trace s' = trace s ++ evs
        /\ Rlhf.steps evs = Nat.min 10 (length chunks).
Proof.
  intros L tokenizer chunks s Hc Hfull dataloader.
  assert (Hwf : Forall Rlhf.well_formed dataloader).
  { subst dataloader. apply Forall_forall. intros b Hb.
    apply in_map_iff in Hb. destruct Hb as [chunk [<- Hin]].
    apply with_query_well_formed.
    exact (proj1 (Forall_forall _ _) Hfull chunk Hin). }
  split.
  { apply collate_all. apply Forall_forall. intros chunk Hin Hnil.
    pose proof (proj1 (Forall_forall _ _) Hfull chunk Hin) as Hlen.
    subst chunk. discriminate Hlen. }
  split; [exact Hwf|].
  destruct (ppo_loop_ok tokenizer Hc dataloader 0 Rlhf.generation_kwargs s Hwf
                        eq_refl)
    as [gk [s' [its [H1 [H2 H3]]]]].
  change (Z.to_nat (Rlhf.max_ppo_steps - 0)) with 10 in H3.
  exists gk, s', (concat its). split; [exact H1|]. split; [exact H2|].
  rewrite (steps_concat tokenizer _ _ H3).
  rewrite <- (Forall2_length H3), length_firstn.
  subst dataloader. rewrite length_map. reflexivity.
Qed.

(** The theorem for one chunk of 16 records. *)
Lemma collated_examples_run_the_fine_tuning_loop_witness :
  exists gk s' evs,
    @Rlhf.fine_tune toy_libraries "flan-t5"
      (map (cols_of (@Rlhf.with_query toy_libraries "flan-t5"))
           [repeat {| id := "train_0"; dialogue := "#Person1#: Hi.";
                      summary := "A greeting."; topic := "greeting" |} 16])
      (@Build_state toy_libraries 0 []) = (Ok gk, s')
    /\ trace s' = [] ++ evs
    /\ Rlhf.steps evs = 1.
Proof.
  apply (collated_examples_run_the_fine_tuning_loop toy_libraries "flan-t5"
           [repeat {| id := "train_0"; dialogue := "#Person1#: Hi.";
                      summary := "A greeting."; topic := "greeting" |} 16]
           (@Build_state toy_libraries 0 [])).
  - exact toy_contracts.
  - repeat constructor.
Defined.

(** ** [evaluate_toxicity] at its edges *)

Section ToxicityEdges.

Context {L : Libraries}.

Variable model : model.
Variable toxicity_evaluator : evaluator.
Variable tokenizer : tokenizer.

(** The loop reaches a sample without [query] after scoring the samples
    before it, when these are not past [num_samples]. *)
Lemma toxicity_loop_missing_query (num_samples max_new_tokens : Z)
      (good : list example) (bad : example) (rest : list example) :
  forall (queries : list string) (i : Z) (toxicities : list float) (s : state),
    Forall2 (fun sample q => get "query" sample = Ok (VStr q)) good queries ->
    ~ In "query" (keys bad) ->
    (i + Z.of_nat (length good) <= num_samples + 1)%Z ->
    Rlhf.toxicity_loop model toxicity_evaluator tokenizer num_samples
                       max_new_tokens i (good ++ bad :: rest) toxicities s
    = (Raise (KeyError "query"),
       snd (Rlhf.score_all model toxicity_evaluator tokenizer max_new_tokens
                           queries s)).
Proof.
  induction good as [|sample good IH]; intros queries i toxicities s HF Hbad Hi;
    inversion HF as [|? q ? qs Hq Hrest]; subst; simpl.
  - unfold bind, lift. rewrite (get_missing "query" bad Hbad). reflexivity.
  - unfold bind at 1, lift at 1. rewrite Hq.
    destruct (Z.gtb_spec i num_samples) as [Hgt|Hle];
      [simpl in Hi; lia|].
    unfold bind at 1. unfold Rlhf.score_sample.
    unfold bind at 1, lift at 1. simpl.
    unfold bind at 1, call at 1.
    destruct (model_generate model _ _ (the_world s)) as [response w] eqn:G.
    unfold pure_call. simpl.
    rewrite (IH qs (i + 1)%Z _ _ Hrest Hbad) by (simpl in Hi; lia).
    match goal with
    | |- context [Rlhf.score_all _ _ _ _ ?l ?s1] =>
        destruct (Rlhf.score_all model toxicity_evaluator tokenizer
                                 max_new_tokens l s1) as [scores s2]
    end.
    reflexivity.
Qed.

(** What the loop adds to the trace, whatever the samples are. *)
Lemma toxicity_loop_trace (num_samples max_new_tokens : Z)
      (dataset : list example) :
  forall (i : Z) (toxicities : list float) (s : state),
  exists evs,
    trace (snd (Rlhf.toxicity_loop model toxicity_evaluator tokenizer
                                   num_samples max_new_tokens i dataset
                                   toxicities s))
    = trace s ++ evs
    /\ length (Rlhf.generated evs) = Rlhf.scorings evs
    /\ Rlhf.scorings evs <= Z.to_nat (num_samples - i + 1)
    /\ Rlhf.scorings evs <= length dataset
    /\ length evs = 2 * Rlhf.scorings evs.
Proof.
  assert (Hnil : forall s : state,
             exists evs, trace s = trace s ++ evs
                         /\ length (Rlhf.generated evs) = Rlhf.scorings evs
                         /\ Rlhf.scorings evs = 0
                         /\ length evs = 2 * Rlhf.scorings evs).
  { intros s. exists []. rewrite app_nil_r. auto. }
  induction dataset as [|sample rest IH]; intros i toxicities s.
  - destruct (Hnil s) as [evs [H1 [H2 [H3 H4]]]]. exists evs. simpl.
    repeat split; auto; lia.
  - cbn [Rlhf.toxicity_loop]. unfold bind at 1, lift at 1.
    destruct (get "query" sample) as [input_text|e].
    2:{ destruct (Hnil s) as [evs [H1 [H2 [H3 H4]]]]. exists evs. simpl.
        repeat split; auto; lia. }
    destruct (Z.gtb_spec i num_samples) as [Hgt|Hle].
    { destruct (Hnil s) as [evs [H1 [H2 [H3 H4]]]]. exists evs. simpl.
      repeat split; auto; lia. }
    unfold bind at 1. unfold Rlhf.score_sample.
    unfold bind at 1, lift at 1.
    destruct (as_str input_text) as [text|e].
    2:{ destruct (Hnil s) as [evs [H1 [H2 [H3 H4]]]]. exists evs. simpl.
        repeat split; auto; lia. }
    unfold bind at 1, call at 1.
    destruct (model_generate model _ _ (the_world s)) as [response w] eqn:G.
    unfold pure_call. cbn [fst snd the_world trace].
    match goal with
    | |- context [Rlhf.toxicity_loop _ _ _ _ _ _ rest ?acc ?s1] =>
        destruct (IH (i + 1)%Z acc s1) as [evs [H1 [H2 [H3 [H4 H5]]]]]
    end.
    cbn [trace] in H1.
    exists ([EvModelGenerate model
               (tokenize_text tokenizer (KBool true) false text)
               (Rlhf.generation_config max_new_tokens);
             EvToxicity toxicity_evaluator
               [(text ++ " " ++ decode tokenizer true response)%string]] ++ evs).
    rewrite H1, <- !app_assoc. split; [reflexivity|].
    unfold Rlhf.generated, Rlhf.scorings in *.
    rewrite flat_map_app, filter_app, !length_app. simpl.
    repeat split; lia.
Qed.

End ToxicityEdges.

(** X7.  [evaluate_toxicity] on any dataset whose [query] fields are
    strings, for any [num_samples]: it scores the first
    [min (num_samples + 1) (len dataset)] samples and returns the mean and
    the standard deviation of these scores.  So a dataset shorter than
    [num_samples + 1] is scored whole, and for an empty dataset or a
    negative [num_samples] nothing is generated and the result is the mean
    and the deviation of the empty list, with the state left as it was. *)
Theorem evaluate_toxicity_scores_a_prefix :
  forall (L : Libraries) (model : model) (toxicity_evaluator : evaluator)
         (tokenizer : tokenizer) (dataset : list example)
         (queries : list string) (num_samples : Z) (s : state),
    Forall2 (fun sample q => get "query" sample = Ok (VStr q)) dataset queries ->
    let texts := firstn (Z.to_nat (num_samples + 1)) queries in
    let r := Rlhf.score_all model toxicity_evaluator tokenizer 100 texts s in
    Rlhf.evaluate_toxicity model toxicity_evaluator tokenizer dataset num_samples s
    = (Ok (np_mean (fst r), np_std (fst r)), snd r)
    /\ length texts = Nat.min (Z.to_nat (num_samples + 1)) (length dataset)
    /\ ((num_samples < 0)%Z \/ dataset = [] -> r = ([], s)).
Proof.
  intros L model toxicity_evaluator tokenizer dataset queries num_samples s
         HF texts r.
  assert (Hq : length queries = length dataset)
    by (symmetry; eapply Forall2_length; eauto).
  split; [|split].
  - unfold Rlhf.evaluate_toxicity. unfold bind.
    rewrite (toxicity_loop_scores model toxicity_evaluator tokenizer num_samples
               100 dataset queries 0 [] s HF).
    replace (Z.to_nat (num_samples - 0 + 1)) with (Z.to_nat (num_samples + 1))
      by lia.
    reflexivity.
  - subst texts. rewrite length_firstn, Hq. reflexivity.
  - intros [Hneg| ->].
    + subst r texts. replace (Z.to_nat (num_samples + 1)) with 0 by lia.
      reflexivity.
    + subst r texts. destruct queries; [|discriminate].
      rewrite firstn_nil. reflexivity.
Qed.

(** The theorem for two samples and [num_samples = 5]. *)
Lemma evaluate_toxicity_scores_a_prefix_witness :
  @Rlhf.evaluate_toxicity toy_libraries "ppo_model" "toxicity" "flan-t5"
    (rows [("query", [VStr "a"; VStr "b"])]) 5
    (@Build_state toy_libraries 0 [])
  = (Ok (3%Z, 0%Z),
     @Build_state toy_libraries 2
       [@EvModelGenerate toy_libraries "ppo_model" [97%Z] (Rlhf.generation_config 100);
        @EvToxicity toy_libraries "toxicity" ["a a"];
        @EvModelGenerate toy_libraries "ppo_model" [98%Z] (Rlhf.generation_config 100);
        @EvToxicity toy_libraries "toxicity" ["b b"]]).
Proof.
  destruct (evaluate_toxicity_scores_a_prefix
              toy_libraries "ppo_model" "toxicity" "flan-t5"
              (rows [("query", [VStr "a"; VStr "b"])])
              ["a"; "b"] 5 (@Build_state toy_libraries 0 []))
    as [H _].
  - vm_compute. repeat constructor.
  - rewrite H. reflexivity.
Defined.

(** X8.  The loop reads [sample["query"]] before it tests the index: a
    sample without [query] makes [evaluate_toxicity] raise [KeyError] even
    at index [num_samples + 1], where the loop would have stopped.  When
    the samples before it are not more than [num_samples + 1] they have all
    been scored by then, and their scores are lost. *)
Theorem evaluate_toxicity_reads_query_before_the_index_test :
  forall (L : Libraries) (model : model) (toxicity_evaluator : evaluator)
         (tokenizer : tokenizer) (good : list example) (bad : example)
         (rest : list example) (queries : list string) (num_samples : Z)
         (s : state),
    Forall2 (fun sample q => get "query" sample = Ok (VStr q)) good queries ->
    ~ In "query" (keys bad) ->
    (Z.of_nat (length good) <= num_samples + 1)%Z ->
    let r := Rlhf.score_all model toxicity_evaluator tokenizer 100 queries s in
    Rlhf.evaluate_toxicity model toxicity_evaluator tokenizer
                           (good ++ bad :: rest) num_samples s
    = (Raise (KeyError "query"), snd r)
    /\ exists evs,
        trace (snd r) = trace s ++ evs
        /\ Rlhf.scorings evs = length good.
Proof.
  intros L model toxicity_evaluator tokenizer good bad rest queries num_samples s
         HF Hbad Hlen r.
  split.
  - unfold Rlhf.evaluate_toxicity. unfold bind.
    rewrite (toxicity_loop_missing_query model toxicity_evaluator tokenizer
               num_samples 100 good bad rest queries 0 [] s HF Hbad)
      by lia.
    reflexivity.
  - destruct (score_all_trace model toxicity_evaluator tokenizer 100 queries s)
      as [evs [H1 [_ H3]]].
    exists evs. split; [exact H1|].
    rewrite H3. symmetry. eapply Forall2_length; eauto.
Qed.

(** The theorem for [num_samples = 0] and a second sample without
    [query]. *)
Lemma evaluate_toxicity_reads_query_before_the_index_test_witness :
  @Rlhf.evaluate_toxicity toy_libraries "ppo_model" "toxicity" "flan-t5"
    ([ [("query", VStr "a")] ] ++ [("dialogue", VStr "b")] :: []) 0
    (@Build_state toy_libraries 0 [])
  = (Raise (KeyError "query"),
     @Build_state toy_libraries 1
       [@EvModelGenerate toy_libraries "ppo_model" [97%Z] (Rlhf.generation_config 100);
        @EvToxicity toy_libraries "toxicity" ["a a"]]).
Proof.
  destruct (evaluate_toxicity_reads_query_before_the_index_test
              toy_libraries "ppo_model" "toxicity" "flan-t5"
              [ [("query", VStr "a")] ] [("dialogue", VStr "b")] [] ["a"] 0
              (@Build_state toy_libraries 0 []))
    as [H _].
  - repeat constructor.
  - simpl. intros [H|[]]. discriminate H.
  - simpl. lia.
  - exact H.
Defined.

(** X9.  Whatever the samples hold and whether it returns or raises,
    [evaluate_toxicity] calls nothing but [model.generate] and the toxicity
    evaluator, one scoring after each generation, at most
    [num_samples + 1] times and at most once per sample. *)
Theorem evaluate_toxicity_generates_and_scores_in_pairs :
  forall (L : Libraries) (model : model) (toxicity_evaluator : evaluator)
         (tokenizer : tokenizer) (dataset : list example) (num_samples : Z)
         (s : state),
  exists evs,
    trace (snd (Rlhf.evaluate_toxicity model toxicity_evaluator tokenizer
                                       dataset num_samples s))
    = trace s ++ evs
    /\ length (Rlhf.generated evs) = Rlhf.scorings evs
    /\ length evs = 2 * Rlhf.scorings evs
    /\ Rlhf.scorings evs <= Z.to_nat (num_samples + 1)
    /\ Rlhf.scorings evs <= length dataset.
Proof.
  intros L model toxicity_evaluator tokenizer dataset num_samples s.
  destruct (toxicity_loop_trace model toxicity_evaluator tokenizer num_samples
              100 dataset 0 [] s) as [evs [H1 [H2 [H3 [H4 H5]]]]].
  exists evs. unfold Rlhf.evaluate_toxicity, bind.
  destruct (Rlhf.toxicity_loop model toxicity_evaluator tokenizer num_samples
                               100 0 dataset [] s) as [[toxicities|e] s'];
    simpl in *; repeat split; auto; lia.
Qed.

(** ** The fine-tuning loop on any data loader *)

Lemma steps_app {L : Libraries} (a b : list event) :
  Rlhf.steps (a ++ b) = Rlhf.steps a + Rlhf.steps b.
Proof.
  unfold Rlhf.steps. rewrite filter_app, length_app. reflexivity.
Qed.

Lemma set_set {A} (k : string) (v1 v2 : A) (d : dict A) :
  set k v2 (set k v1 d) = set k v2 d.
Proof.
  induction d as [|[k' v'] d IH]; simpl.
  - rewrite String.eqb_refl. reflexivity.
  - destruct (String.eqb k k') eqn:E; simpl.
    + rewrite String.eqb_refl. reflexivity.
    + rewrite E, IH. reflexivity.
Qed.

Section AnyDataLoader.

Context {L : Libraries}.

Variable tokenizer : tokenizer.

Lemma last_sampled_from (evs : list event) (init : option Z) :
  fold_left (fun last e => match e with
                           | EvLengthSampler n => Some n
                           | _ => last
                           end) evs init
  = match RlhfCells.last_sampled evs with
    | Some n => Some n
    | None => init
    end.
Proof.
  unfold RlhfCells.last_sampled. revert init.
  induction evs as [|e evs IH]; intros init; [reflexivity|].
  cbn [fold_left]. rewrite IH. rewrite (IH (match e with
                                            | EvLengthSampler n => Some n
                                            | _ => None
                                            end)).
  destruct (fold_left _ evs None); [reflexivity|].
  destruct e; reflexivity.
Qed.

Lemma last_sampled_app (a b : list event) :
  RlhfCells.last_sampled (a ++ b)
  = match RlhfCells.last_sampled b with
    | Some n => Some n
    | None => RlhfCells.last_sampled a
    end.
Proof.
  unfold RlhfCells.last_sampled at 1. rewrite fold_left_app.
  apply last_sampled_from.
Qed.

Lemma after_sampling_app (gk : dict kwarg) (a b : list event) :
  RlhfCells.after_sampling (RlhfCells.after_sampling gk a) b
  = RlhfCells.after_sampling gk (a ++ b).
Proof.
  unfold RlhfCells.after_sampling. rewrite last_sampled_app.
  destruct (RlhfCells.last_sampled b) as [n|]; [|reflexivity].
  destruct (RlhfCells.last_sampled a) as [m|]; [|reflexivity].
  apply set_set.
Qed.

(** The inner loop never steps; when it ends normally it leaves the last
    sampled length in [generation_kwargs]. *)
Lemma generate_summaries_trace (prompts : list (list Z)) :
  forall (gk : dict kwarg) (acc : list (list Z)) (s : state)
         (res : result (list (list Z) * dict kwarg) * state),
    Rlhf.generate_summaries prompts gk acc s = res ->
    exists evs,
      trace (snd res) = trace s ++ evs
      /\ Rlhf.steps evs = 0
      /\ match fst res with
         | Ok r => snd r = RlhfCells.after_sampling gk evs
         | Raise _ => True
         end.
Proof.
  induction prompts as [|p rest IH]; intros gk acc s res;
    cbn [Rlhf.generate_summaries].
  - intros <-. exists []. unfold ret. simpl. rewrite app_nil_r. auto.
  - unfold bind at 1, call at 1.
    destruct (length_sampler _ _ (the_world s)) as [n w1].
    cbv beta iota zeta.
    unfold bind at 1, call at 1. cbn [the_world trace].
    destruct (trainer_generate p _ w1) as [row w2].
    cbv beta iota zeta.
    unfold bind at 1, lift at 1.
    destruct (Rlhf.squeeze_last n row) as [summary|e].
    + intros Hres. destruct (IH _ _ _ res Hres) as [evs [H1 [H2 H3]]].
      cbn [trace] in H1.
      exists ([EvLengthSampler n;
               EvTrainerGenerate p (set "max_new_tokens" (KInt n) gk) row]
                ++ evs).
      split; [rewrite H1, <- !app_assoc; reflexivity|].
      split; [rewrite steps_app, H2; reflexivity|].
      destruct (fst res) as [r|]; [|exact I].
      rewrite H3. rewrite <- after_sampling_app. reflexivity.
    + intros <-. cbn [fst snd trace].
      exists [EvLengthSampler n;
              EvTrainerGenerate p (set "max_new_tokens" (KInt n) gk) row].
      rewrite <- !app_assoc. auto.
Qed.

(** [ppo_trainer.step] is called at most once in an iteration, and once
    when the iteration ends normally. *)
Lemma ppo_iteration_trace (batch : table) (gk : dict kwarg) (s : state)
      (res : result (dict kwarg) * state) :
  Rlhf.ppo_iteration tokenizer batch gk s = res ->
  exists evs,
    trace (snd res) = trace s ++ evs
    /\ Rlhf.steps evs <= 1
    /\ match fst res with
       | Ok gk' => Rlhf.steps evs = 1
                   /\ gk' = RlhfCells.after_sampling gk evs
       | Raise _ => True
       end.
Proof.
  unfold Rlhf.ppo_iteration.
  unfold bind at 1, lift at 1.
  destruct (c <- get "input_ids" batch ;; mapM Rlhf.as_ids c) as [prompts|e].
  2:{ intros <-. exists []. simpl. rewrite app_nil_r. auto. }
  unfold bind at 1.
  destruct (Rlhf.generate_summaries prompts gk [] s) as [[r|e] s1] eqn:E;
    destruct (generate_summaries_trace prompts gk [] s _ E)
      as [evs1 [H1 [H2 H3]]];
    cbn [fst snd] in H1, H3.
  2:{ intros <-. exists evs1. cbn [fst snd]. rewrite H2. auto. }
  unfold bind at 1, lift at 1.
  match goal with
  | |- match ?m with _ => _ end = _ -> _ => destruct m as [pairs|e]
  end.
  2:{ intros <-. exists evs1. cbn [fst snd]. rewrite H2. auto. }
  unfold bind at 1, pure_call at 1.
  unfold bind at 1, lift at 1.
  match goal with
  | |- match ?m with _ => _ end = _ -> _ => destruct m as [rewards|e]
  end.
  2:{ intros <-. eexists. cbn [fst snd trace]. rewrite H1, <- app_assoc.
      split; [reflexivity|]. rewrite steps_app, H2. simpl. auto. }
  unfold bind at 1, try_call at 1. cbn [the_world trace].
  match goal with
  | |- context [trainer_step ?a ?b ?c ?w] =>
      destruct (trainer_step a b c w) as [[st|e] w2]
  end.
  2:{ intros <-. eexists. cbn [fst snd trace]. rewrite H1, <- !app_assoc.
      split; [reflexivity|]. rewrite steps_app, H2. simpl. auto. }
  unfold bind at 1, try_call at 1. cbn [the_world trace].
  match goal with
  | |- context [trainer_log_stats ?a ?b ?c ?w] =>
      destruct (trainer_log_stats a b c w) as [[u|e] w3]
  end.
  2:{ intros <-. eexists. cbn [fst snd trace]. rewrite H1, <- !app_assoc.
      split; [reflexivity|]. rewrite steps_app, H2. simpl. auto. }
  unfold bind at 1, lift at 1.
  destruct (stat_text st "objective/kl") as [kl|e].
  2:{ intros <-. eexists. cbn [fst snd trace]. rewrite H1, <- !app_assoc.
      split; [reflexivity|]. rewrite steps_app, H2. simpl. auto. }
  unfold bind at 1, print at 1, pure_call at 1. cbn [the_world trace].
  unfold bind at 1, lift at 1.
  destruct (stat_text st "ppo/returns/mean") as [rm|e].
  2:{ intros <-. eexists. cbn [fst snd trace]. rewrite H1, <- !app_assoc.
      split; [reflexivity|]. rewrite steps_app, H2. simpl. auto. }
  unfold bind at 1, print at 1, pure_call at 1. cbn [the_world trace].
  unfold bind at 1, lift at 1.
  destruct (stat_text st "ppo/policy/advantages_mean") as [am|e].
  2:{ intros <-. eexists. cbn [fst snd trace]. rewrite H1, <- !app_assoc.
      split; [reflexivity|]. rewrite steps_app, H2. simpl. auto. }
  unfold bind, print, pure_call, ret. cbn [the_world trace].
  intros <-. cbn [fst snd trace].
  eexists. rewrite H1, <- !app_assoc. split; [reflexivity|].
  rewrite steps_app, H2. split; [simpl; auto|]. split; [reflexivity|].
  rewrite H3, <- after_sampling_app. reflexivity.
Qed.

Lemma ppo_loop_trace (dataloader : list table) :
  forall (step : Z) (gk : dict kwarg) (s : state)
         (res : result (dict kwarg) * state),
    Rlhf.ppo_loop tokenizer step dataloader gk s = res ->
    exists evs,
      trace (snd res) = trace s ++ evs
      /\ let n := Nat.min (Z.to_nat (Rlhf.max_ppo_steps - step))
                          (length dataloader) in
         Rlhf.steps evs <= n
         /\ match fst res with
            | Ok gk' => Rlhf.steps evs = n
                        /\ gk' = RlhfCells.after_sampling gk evs
            | Raise _ => True
            end.
Proof.
  induction dataloader as [|batch rest IH]; intros step gk s res;
    remember (Z.to_nat (Rlhf.max_ppo_steps - step)) as k eqn:Hk.
  - intros <-. exists []. simpl. rewrite app_nil_r, Nat.min_0_r. auto.
  - cbn [Rlhf.ppo_loop].
    destruct (Z.geb_spec step Rlhf.max_ppo_steps) as [Hge|Hlt].
    + intros <-. exists []. simpl. rewrite app_nil_r.
      replace k with 0 by lia. auto.
    + unfold bind.
      destruct (Rlhf.ppo_iteration tokenizer batch gk s) as [[gk1|e] s1] eqn:E;
        destruct (ppo_iteration_trace batch gk s _ E) as [evs1 [H1 [H2 H3]]];
        cbn [fst snd] in H1, H3.
      * intros Hres. destruct H3 as [H3 H3'].
        destruct (IH (step + 1)%Z gk1 s1 res Hres) as [evs [H4 H5]].
        exists (evs1 ++ evs). rewrite H4, H1, app_assoc. split; [reflexivity|].
        cbn zeta in H5 |- *.
        replace (Z.to_nat (Rlhf.max_ppo_steps - (step + 1))) with (k - 1)
          in H5 by lia.
        assert (Hk1 : 1 <= k) by lia.
        destruct H5 as [H5 H6]. rewrite steps_app, H3. cbn [length].
        split; [lia|].
        destruct (fst res); [|exact I].
        destruct H6 as [H6 H7]. split; [lia|].
        rewrite H7, H3'. apply after_sampling_app.
      * intros <-. cbn [fst snd]. exists evs1. split; [exact H1|].
        cbn [length]. split; [lia|exact I].
Qed.

End AnyDataLoader.

(** X10.  Whatever the batches hold and whatever the libraries return or
    raise, the fine-tuning loop calls [ppo_trainer.step] at most
    [min 10 (number of batches)] times; it calls it exactly so many times,
    or it raises. *)
Theorem fine_tuning_never_steps_more_than_ten_times :
  forall (L : Libraries) (tokenizer : tokenizer) (dataloader : list table)
         (s : state),
  exists evs,
    trace (snd (Rlhf.fine_tune tokenizer dataloader s)) = trace s ++ evs
    /\ Rlhf.steps evs <= Nat.min 10 (length dataloader)
    /\ (Rlhf.steps evs = Nat.min 10 (length dataloader)
        \/ exists e, fst (Rlhf.fine_tune tokenizer dataloader s) = Raise e).
Proof.
  intros L tokenizer dataloader s.
  destruct (ppo_loop_trace tokenizer dataloader 0 Rlhf.generation_kwargs s
              _ eq_refl) as [evs [H1 H2]].
  exists evs. unfold Rlhf.fine_tune. split; [exact H1|].
  change (Z.to_nat (Rlhf.max_ppo_steps - 0)) with 10 in H2. cbn zeta in H2.
  destruct H2 as [H2 H3]. split; [exact H2|].
  destruct (fst (Rlhf.ppo_loop tokenizer 0 dataloader Rlhf.generation_kwargs s))
    as [gk|e].
  - left. exact (proj1 H3).
  - right. exists e. reflexivity.
Qed.

(** X11.  The loop writes into the notebook's global [generation_kwargs]:
    when it ends normally the dictionary is as cell 32 defined it if no
    length was sampled (no prompt was reached), and otherwise has one more
    entry, [max_new_tokens], holding the length sampled last, for the last
    prompt of the last batch.  The other four entries are never
    changed. *)
Theorem fine_tuning_leaves_max_new_tokens_in_generation_kwargs :
  forall (L : Libraries) (tokenizer : tokenizer) (dataloader : list table)
         (s s' : state) (gk : dict kwarg),
    Rlhf.fine_tune tokenizer dataloader s = (Ok gk, s') ->
    exists evs,
      trace s' = trace s ++ evs
      /\ gk = match RlhfCells.last_sampled evs with
              | Some n => Rlhf.generation_kwargs ++ [("max_new_tokens", KInt n)]
              | None => Rlhf.generation_kwargs
              end
      /\ forall k, k <> "max_new_tokens" -> get k gk = get k Rlhf.generation_kwargs.
Proof.
  intros L tokenizer dataloader s s' gk H.
  destruct (ppo_loop_trace tokenizer dataloader 0 Rlhf.generation_kwargs s
              _ H) as [evs [H1 [_ H2]]].
  cbn [fst snd] in H1, H2. destruct H2 as [_ H2].
  exists evs. split; [exact H1|].
  unfold RlhfCells.after_sampling in H2.
  destruct (RlhfCells.last_sampled evs) as [n|]; subst gk.
  - split; [reflexivity|]. intros k Hk. apply get_set_other. exact Hk.
  - split; [reflexivity|]. reflexivity.
Qed.

(** The theorem for a data loader of one batch of 16 prompts. *)
Lemma fine_tuning_leaves_max_new_tokens_in_generation_kwargs_witness :
  exists gk s',
    @Rlhf.fine_tune toy_libraries "flan-t5"
      [ [("input_ids", map VIds (repeat [1; 2]%Z 16));
         ("query", map VStr (repeat "q" 16))] ]
      (@Build_state toy_libraries 0 []) = (Ok gk, s')
    /\ exists evs,
        trace s' = [] ++ evs
        /\ gk = match RlhfCells.last_sampled evs with
                | Some n => Rlhf.generation_kwargs ++ [("max_new_tokens", KInt n)]
                | None => Rlhf.generation_kwargs
                end
        /\ forall k, k <> "max_new_tokens" ->
                     get k gk = get k Rlhf.generation_kwargs.
Proof.
  destruct (@ppo_loop_ok toy_libraries "flan-t5" toy_contracts
              [ [("input_ids", map VIds (repeat [1; 2]%Z 16));
                 ("query", map VStr (repeat "q" 16))] ]
              0%Z Rlhf.generation_kwargs (@Build_state toy_libraries 0 []))
    as [gk [s' [its [E _]]]].
  - constructor; [|constructor].
    exists (repeat [1; 2]%Z 16), (repeat "q" 16).
    repeat split; reflexivity.
  - reflexivity.
  - exists gk, s'. split; [exact E|].
    exact (fine_tuning_leaves_max_new_tokens_in_generation_kwargs
             toy_libraries "flan-t5" _ _ _ _ E).
Defined.

(** ** The comparison of the model before and after detoxification *)

Lemma get_slice_rows (k : string) (start n : nat) (t : table) :
  get k (slice_rows start n t)
  = (c <- get k t ;; Ok (firstn n (skipn start c))).
Proof.
  unfold slice_rows.
  apply (get_map_values (fun c : list value => firstn n (skipn start c)) k t).
Qed.

Lemma item_map_VIds (prompts : list (list Z)) (i : nat) :
  i < length prompts ->
  (p <- Rlhf.item (map VIds prompts) i ;; Rlhf.as_ids p) = Ok (nth i prompts []).
Proof.
  intros Hi. unfold Rlhf.item. rewrite nth_error_map.
  rewrite (nth_error_nth' prompts [] Hi). reflexivity.
Qed.

Lemma item_past_the_end {A} (l : list A) (i : nat) :
  length l <= i -> Rlhf.item l i = Raise IndexError.
Proof.
  intros Hi. unfold Rlhf.item.
  rewrite (proj2 (nth_error_None l i) Hi). reflexivity.
Qed.

Section Comparison.

Context {L : Libraries}.

Variables ref_model ppo_model : model.
Variable tokenizer : tokenizer.

Lemma comparisons_set (n : Z) (gk : dict kwarg) (prompts : list (list Z))
      (lengths : list Z) :
  RlhfCells.comparisons ref_model ppo_model
                        (set "max_new_tokens" (KInt n) gk) prompts lengths
  = RlhfCells.comparisons ref_model ppo_model gk prompts lengths.
Proof.
  unfold RlhfCells.comparisons. apply flat_map_ext. intros [p m].
  cbv zeta. rewrite set_set. reflexivity.
Qed.

Lemma summary_of_set (m : model) (n : Z) (gk : dict kwarg) (p : list Z)
      (k : Z) (summary : list Z) :
  RlhfCells.summary_of m (set "max_new_tokens" (KInt n) gk) p k summary ->
  RlhfCells.summary_of m gk p k summary.
Proof.
  intros [w H]. exists w. rewrite set_set in H. exact H.
Qed.

Variable prompts : list (list Z).

Hypothesis sampler_range :
  forall lo hi w, (lo < hi)%Z -> (lo <= fst (length_sampler lo hi w) < hi)%Z.

Hypothesis generation_length :
  forall m p kwargs w,
    In p prompts -> length (fst (model_generate m p kwargs w)) <> 1.

(** The loop over indices that are all in the batch. *)
Lemma comparison_loop_ok (indices : list nat) :
  forall (gk : dict kwarg) (refs sums : list (list Z)) (s : state),
    Forall (fun i => i < length prompts) indices ->
    let ps := map (fun i => nth i prompts []) indices in
    exists lengths refs' sums' s',
      let evs := RlhfCells.comparisons ref_model ppo_model gk ps lengths in
      RlhfCells.comparison_loop ref_model ppo_model (map VIds prompts) indices
                                gk refs sums s
      = (Ok (refs ++ refs', sums ++ sums', RlhfCells.after_sampling gk evs),
         s')
      /\ length lengths = length indices
      /\ Forall2 (fun x r =>
                    RlhfCells.summary_of ref_model gk (fst x) (snd x) r)
                 (combine ps lengths) refs'
      /\ Forall2 (fun x r =>
                    RlhfCells.summary_of ppo_model gk (fst x) (snd x) r)
                 (combine ps lengths) sums'
      /\ trace s' = trace s ++ evs.
Proof.
  induction indices as [|i rest IH]; intros gk refs sums s Hall.
  - exists [], [], [], s. simpl. unfold ret. rewrite !app_nil_r.
    repeat split; auto.
  - inversion Hall as [|? ? Hi Hrest]; subst.
    cbn [RlhfCells.comparison_loop].
    unfold bind at 1, call at 1.
    pose proof (sampler_range Rlhf.output_min_length Rlhf.output_max_length
                  (the_world s) eq_refl) as Hr.
    destruct (length_sampler _ _ (the_world s)) as [n w1].
    cbn [fst] in Hr. unfold Rlhf.output_min_length in Hr.
    cbv beta iota zeta.
    assert (Hin : In (nth i prompts []) prompts) by (apply nth_In; exact Hi).
    unfold bind at 1, lift at 1. rewrite (item_map_VIds prompts i Hi).
    unfold bind at 1, call at 1. cbn [the_world trace].
    pose proof (generation_length
                  ref_model _ (set "max_new_tokens" (KInt n) gk) w1 Hin)
      as Hg1.
    assert (S1 : RlhfCells.summary_of
                   ref_model gk (nth i prompts []) n
                   (Rlhf.last_tokens
                      n (fst (model_generate
                                ref_model (nth i prompts [])
                                (set "max_new_tokens" (KInt n) gk) w1))))
      by (exists w1; reflexivity).
    destruct (model_generate ref_model _ _ w1) as [summary1 w2].
    cbn [fst] in Hg1, S1. cbv beta iota zeta.
    unfold bind at 1, lift at 1.
    rewrite squeeze_last_tokens by (lia || exact Hg1).
    unfold bind at 1, lift at 1.
    unfold bind at 1, call at 1. cbn [the_world trace].
    pose proof (generation_length
                  ppo_model _ (set "max_new_tokens" (KInt n) gk) w2 Hin)
      as Hg2.
    assert (S2 : RlhfCells.summary_of
                   ppo_model gk (nth i prompts []) n
                   (Rlhf.last_tokens
                      n (fst (model_generate
                                ppo_model (nth i prompts [])
                                (set "max_new_tokens" (KInt n) gk) w2))))
      by (exists w2; reflexivity).
    destruct (model_generate ppo_model _ _ w2) as [summary2 w3].
    cbn [fst] in Hg2, S2. cbv beta iota zeta.
    unfold bind at 1, lift at 1.
    rewrite squeeze_last_tokens by (lia || exact Hg2).
    match goal with
    | |- context [RlhfCells.comparison_loop _ _ _ rest ?gk1 ?r1 ?m1 ?s1] =>
        destruct (IH gk1 r1 m1 s1 Hrest)
          as [lengths [refs' [sums' [s' H]]]]
    end.
    cbv zeta in H. destruct H as [H1 [H2 [H3 [H4 H5]]]].
    rewrite comparisons_set in H1, H5.
    exists (n :: lengths), (Rlhf.last_tokens n summary1 :: refs'),
      (Rlhf.last_tokens n summary2 :: sums'), s'.
    cbv zeta. rewrite H1, <- !app_assoc.
    unfold RlhfCells.comparisons at 1 3.
    cbn [map combine flat_map app length fst snd].
    fold (RlhfCells.comparisons
            ref_model ppo_model gk (map (fun i => nth i prompts []) rest)
            lengths).
    split.
    { do 3 f_equal.
      change (set "max_new_tokens" (KInt n) gk)
        with (RlhfCells.after_sampling
                gk [EvLengthSampler n;
                    EvModelGenerate ref_model (nth i prompts [])
                      (set "max_new_tokens" (KInt n) gk);
                    EvModelGenerate ppo_model (nth i prompts [])
                      (set "max_new_tokens" (KInt n) gk)]) at 1.
      rewrite after_sampling_app. reflexivity. }
    split; [rewrite H2; reflexivity|].
    split.
    { constructor; [exact S1|].
      eapply Forall2_impl; [|exact H3].
      intros x r. apply summary_of_set. }
    split.
    { constructor; [exact S2|].
      eapply Forall2_impl; [|exact H4].
      intros x r. apply summary_of_set. }
    rewrite H5. cbn [trace]. rewrite <- !app_assoc. reflexivity.
Qed.

(** The loop stops at the first index past the batch, after sampling a
    length for it. *)
Lemma comparison_loop_short (good : list nat) (bad : nat) (rest : list nat) :
  forall (gk : dict kwarg) (refs sums : list (list Z)) (s : state),
    Forall (fun i => i < length prompts) good ->
    length prompts <= bad ->
    exists lengths last s',
      RlhfCells.comparison_loop ref_model ppo_model (map VIds prompts)
                                (good ++ bad :: rest) gk refs sums s
      = (Raise IndexError, s')
      /\ length lengths = length good
      /\ trace s'
         = trace s
           ++ RlhfCells.comparisons ref_model ppo_model gk
                (map (fun i => nth i prompts []) good) lengths
           ++ [EvLengthSampler last].
Proof.
  induction good as [|i good IH]; intros gk refs sums s Hall Hbad.
  - cbn [app RlhfCells.comparison_loop].
    unfold bind at 1, call at 1.
    destruct (length_sampler _ _ (the_world s)) as [n w1].
    cbv beta iota zeta.
    unfold bind at 1, lift at 1.
    rewrite (item_past_the_end (map VIds prompts) bad)
      by (rewrite length_map; exact Hbad).
    exists [], n. eexists. split; [reflexivity|].
    split; reflexivity.
  - inversion Hall as [|? ? Hi Hrest]; subst.
    cbn [app RlhfCells.comparison_loop].
    unfold bind at 1, call at 1.
    pose proof (sampler_range Rlhf.output_min_length Rlhf.output_max_length
                  (the_world s) eq_refl) as Hr.
    destruct (length_sampler _ _ (the_world s)) as [n w1].
    cbn [fst] in Hr. unfold Rlhf.output_min_length in Hr.
    cbv beta iota zeta.
    assert (Hin : In (nth i prompts []) prompts) by (apply nth_In; exact Hi).
    unfold bind at 1, lift at 1. rewrite (item_map_VIds prompts i Hi).
    unfold bind at 1, call at 1. cbn [the_world trace].
    pose proof (generation_length
                  ref_model _ (set "max_new_tokens" (KInt n) gk) w1 Hin)
      as Hg1.
    destruct (model_generate ref_model _ _ w1) as [summary1 w2].
    cbn [fst] in Hg1. cbv beta iota zeta.
    unfold bind at 1, lift at 1.
    rewrite squeeze_last_tokens by (lia || exact Hg1).
    unfold bind at 1, lift at 1.
    unfold bind at 1, call at 1. cbn [the_world trace].
    pose proof (generation_length
                  ppo_model _ (set "max_new_tokens" (KInt n) gk) w2 Hin)
      as Hg2.
    destruct (model_generate ppo_model _ _ w2) as [summary2 w3].
    cbn [fst] in Hg2. cbv beta iota zeta.
    unfold bind at 1, lift at 1.
    rewrite squeeze_last_tokens by (lia || exact Hg2).
    match goal with
    | |- context [RlhfCells.comparison_loop _ _ _ _ ?gk1 ?r1 ?m1 ?s1] =>
        destruct (IH gk1 r1 m1 s1 Hrest Hbad)
          as [lengths [last [s' [H1 [H2 H3]]]]]
    end.
    rewrite comparisons_set in H3.
    exists (n :: lengths), last, s'. rewrite H1. split; [reflexivity|].
    split; [cbn [length]; rewrite H2; reflexivity|].
    rewrite H3. cbn [trace]. unfold RlhfCells.comparisons.
    cbn [map combine flat_map app fst snd]. rewrite <- !app_assoc.
    reflexivity.
Qed.

Lemma decode_all_ok (tensors : list (list Z)) :
  length tensors = RlhfCells.batch_size ->
  RlhfCells.decode_all tokenizer tensors
  = Ok (map VStr (map (decode tokenizer false) tensors)).
Proof.
  intros Hlen.
  assert (E : map (decode tokenizer false) tensors
              = map (fun i => decode tokenizer false (nth i tensors []))
                    (seq 0 RlhfCells.batch_size)).
  { rewrite <- Hlen.
    rewrite <- (map_map (fun i => nth i tensors []) (decode tokenizer false)).
    f_equal. symmetry. apply map_nth_seq. }
  rewrite E, map_map. unfold RlhfCells.decode_all.
  apply mapM_ok. intros i Hi. apply in_seq in Hi.
  unfold Rlhf.item. rewrite (nth_error_nth' tensors []) by lia. reflexivity.
Qed.

Lemma texts_ok (queries responses : list string) :
  RlhfCells.texts (map VStr queries) (map VStr responses)
  = Ok (map (fun qr => (fst qr ++ snd qr)%string) (combine queries responses)).
Proof.
  unfold RlhfCells.texts.
  revert responses. induction queries as [|q qs IH]; intros [|r rs]; simpl;
    try reflexivity.
  rewrite IH. reflexivity.
Qed.

Lemma scores_ok (rewards : list (list (dict float))) :
  Forall (fun reward =>
            exists d r, nth_error reward Rlhf.not_hate_index = Some d
                        /\ get "score" d = Ok r) rewards ->
  exists rs, RlhfCells.scores rewards = Ok rs /\ length rs = length rewards.
Proof.
  unfold RlhfCells.scores.
  induction 1 as [|reward rest [d [r [Hd Hr]]] _ [rs [IH1 IH2]]]; simpl.
  - exists []. split; reflexivity.
  - exists (r :: rs). unfold Rlhf.item at 1. rewrite Hd. simpl.
    rewrite Hr. simpl. rewrite IH1. simpl. split; [reflexivity|].
    rewrite IH2. reflexivity.
Qed.

End Comparison.

(** X12.  The comparison needs [batch_size = 20] rows in the test split.
    With fewer rows, [n], of prompts for which the models do not generate
    a single token, it raises [IndexError] at [prompt_tensors[n]]: by then,
    for each of the [n] rows in order, a length has been sampled and the
    reference model and then the detoxified model have been called with
    the row's prompt and that length as [max_new_tokens]; a length has been
    sampled for the missing row, and the reward pipeline has not been
    called. *)
Theorem comparison_needs_twenty_test_rows :
  forall (L : Libraries) (ref_model ppo_model : model) (tokenizer : tokenizer)
         (dataset : dataset_dict) (test : table) (prompts : list (list Z))
         (query : list value) (gk : dict kwarg) (s : state),
    get "test" dataset = Ok test ->
    get "input_ids" test = Ok (map VIds prompts) ->
    get "query" test = Ok query ->
    length prompts < RlhfCells.batch_size ->
    (forall lo hi w, (lo < hi)%Z -> (lo <= fst (length_sampler lo hi w) < hi)%Z) ->
    (forall m p kwargs w,
        In p prompts -> length (fst (model_generate m p kwargs w)) <> 1) ->
    exists lengths last s',
      RlhfCells.compare ref_model ppo_model tokenizer dataset gk s
      = (Raise IndexError, s')
      /\ length lengths = length prompts
      /\ trace s'
         = trace s
           ++ RlhfCells.comparisons ref_model ppo_model gk prompts lengths
           ++ [EvLengthSampler last].
Proof.
  intros L ref_model ppo_model tokenizer dataset test prompts query gk s
         Htest Hids Hquery Hlen Hrange Hgen.
  unfold RlhfCells.compare.
  unfold bind at 1, lift at 1. rewrite Htest.
  unfold bind at 1, lift at 1. rewrite get_slice_rows, Hquery, rbind_Ok.
  unfold bind at 1, lift at 1. rewrite get_slice_rows, Hids, rbind_Ok.
  cbn [skipn]. rewrite firstn_all2 by (rewrite length_map; lia).
  assert (Hseq : seq 0 RlhfCells.batch_size
                 = seq 0 (length prompts)
                       ++ length prompts
                       :: seq (S (length prompts))
                              (RlhfCells.batch_size - S (length prompts))).
  { replace RlhfCells.batch_size
      with (length prompts + S (RlhfCells.batch_size - S (length prompts)))
      at 1 by lia.
    rewrite seq_app. reflexivity. }
  rewrite Hseq.
  destruct (comparison_loop_short ref_model ppo_model prompts Hrange Hgen
              (seq 0 (length prompts)) (length prompts)
              (seq (S (length prompts))
                   (RlhfCells.batch_size - S (length prompts)))
              gk [] [] s)
    as [lengths [last [s' [H1 [H2 H3]]]]].
  - apply Forall_forall. intros i Hi. apply in_seq in Hi. lia.
  - lia.
  - exists lengths, last, s'. unfold bind at 1. rewrite H1.
    rewrite length_seq in H2. rewrite map_nth_seq in H3. auto.
Qed.

Lemma toy_generation_length (prompts : list (list Z)) :
  Forall (fun p => length p <> 1) prompts ->
  forall m p kwargs w,
    In p prompts ->
    length (fst (@model_generate toy_libraries m p kwargs w)) <> 1.
Proof.
  intros H m p kwargs w Hp. simpl. rewrite length_rev.
  exact (proj1 (Forall_forall _ _) H p Hp).
Qed.

(** The theorem for a test split of one row. *)
Lemma comparison_needs_twenty_test_rows_witness :
  exists lengths last s',
    @RlhfCells.compare toy_libraries "ref_model" "ppo_model" "flan-t5"
      [("train", []);
       ("test", [("input_ids", [VIds [1; 2]%Z]); ("query", [VStr "q"])])]
      Rlhf.generation_kwargs (@Build_state toy_libraries 0 [])
    = (Raise IndexError, s')
    /\ length lengths = 1
    /\ trace s'
       = [] ++ @RlhfCells.comparisons toy_libraries "ref_model" "ppo_model"
                 Rlhf.generation_kwargs [[1; 2]%Z] lengths
            ++ [EvLengthSampler last].
Proof.
  apply (comparison_needs_twenty_test_rows toy_libraries
           "ref_model" "ppo_model" "flan-t5"
           [("train", []);
            ("test", [("input_ids", [VIds [1; 2]%Z]); ("query", [VStr "q"])])]
           [("input_ids", [VIds [1; 2]%Z]); ("query", [VStr "q"])]
           [[1; 2]%Z] [VStr "q"] Rlhf.generation_kwargs
           (@Build_state toy_libraries 0 [])).
  - reflexivity.
  - reflexivity.
  - reflexivity.
  - unfold RlhfCells.batch_size. simpl. lia.
  - exact toy_sampler_range.
  - apply toy_generation_length. repeat constructor. simpl. lia.
Defined.

(** X13.  With at least 20 rows in the test split, prompt tensors in
    [input_ids] for which the models do not generate a single token,
    strings in [query], and a reward pipeline that returns for every text
    the scores of the labels, the comparison ends normally.  For each of the
    first 20 prompts, in order, a length is sampled and the reference model
    and then the detoxified model are called with the prompt and that
    length as [max_new_tokens]; of each generation the last [max_new_tokens]
    tokens are kept.  [compare_results] has five columns of 20 cells: the
    queries, the decoded summaries of the reference model and of the
    detoxified model, and for each of the two the rewards read at
    [not_hate_index] from what the reward pipeline returns for the queries
    followed by the summaries; the pipeline is called once for each.  The
    length sampled last is left in [generation_kwargs]. *)
Theorem comparison_fills_five_columns_of_twenty :
  forall (L : Libraries) (ref_model ppo_model : model) (tokenizer : tokenizer)
         (dataset : dataset_dict) (test : table) (prompts : list (list Z))
         (queries : list string) (gk : dict kwarg) (s : state),
    get "test" dataset = Ok test ->
    get "input_ids" test = Ok (map VIds prompts) ->
    get "query" test = Ok (map VStr queries) ->
    RlhfCells.batch_size <= length prompts ->
    RlhfCells.batch_size <= length queries ->
    (forall lo hi w, (lo < hi)%Z -> (lo <= fst (length_sampler lo hi w) < hi)%Z) ->
    (forall m p kwargs w,
        In p (firstn 20 prompts) ->
        length (fst (model_generate m p kwargs w)) <> 1) ->
    (forall texts,
        Forall (fun reward =>
                  exists d r, nth_error reward Rlhf.not_hate_index = Some d
                              /\ get "score" d = Ok r)
               (sentiment_pipe texts Rlhf.reward_kwargs)) ->
    (forall texts,
        length (sentiment_pipe texts Rlhf.reward_kwargs) = length texts) ->
    exists lengths refs sums reward_before reward_after s',
      let response_before := map (decode tokenizer false) refs in
      let response_after := map (decode tokenizer false) sums in
      let texts_before := RlhfCells.joined (firstn 20 queries) response_before in
      let texts_after := RlhfCells.joined (firstn 20 queries) response_after in
      let evs :=
        RlhfCells.comparisons ref_model ppo_model gk (firstn 20 prompts) lengths
        ++ [EvSentimentPipe texts_before Rlhf.reward_kwargs;
            EvSentimentPipe texts_after Rlhf.reward_kwargs] in
      RlhfCells.compare ref_model ppo_model tokenizer dataset gk s
      = (Ok ([("query", RlhfCells.Cells (map VStr (firstn 20 queries)));
              ("response_before", RlhfCells.Cells (map VStr response_before));
              ("response_after", RlhfCells.Cells (map VStr response_after));
              ("reward_before", RlhfCells.Rewards reward_before);
              ("reward_after", RlhfCells.Rewards reward_after)],
             RlhfCells.after_sampling gk evs), s')
      /\ length lengths = 20
      /\ Forall2 (fun x r =>
                    RlhfCells.summary_of ref_model gk (fst x) (snd x) r)
                 (combine (firstn 20 prompts) lengths) refs
      /\ Forall2 (fun x r =>
                    RlhfCells.summary_of ppo_model gk (fst x) (snd x) r)
                 (combine (firstn 20 prompts) lengths) sums
      /\ RlhfCells.rewards_of texts_before reward_before
      /\ RlhfCells.rewards_of texts_after reward_after
      /\ length reward_before = 20
      /\ length reward_after = 20
      /\ trace s' = trace s ++ evs.
Proof.
  intros L ref_model ppo_model tokenizer dataset test prompts queries gk s
         Htest Hids Hquery Hlp Hlq Hrange Hgen Hscores Hlength.
  unfold RlhfCells.batch_size in Hlp, Hlq.
  assert (Hp20 : length (firstn 20 prompts) = 20)
    by (rewrite length_firstn; lia).
  assert (Hq20 : length (firstn 20 queries) = 20)
    by (rewrite length_firstn; lia).
  destruct (comparison_loop_ok ref_model ppo_model (firstn 20 prompts)
              Hrange Hgen (seq 0 20) gk [] [] s)
    as [lengths [refs [sums [s1 H]]]].
  { apply Forall_forall. intros i Hi. apply in_seq in Hi. lia. }
  pose proof (map_nth_seq (firstn 20 prompts) []) as Hps.
  rewrite Hp20 in Hps. cbv zeta in H. rewrite Hps in H.
  destruct H as [H1 [H2 [H3 [H4 H5]]]].
  rewrite length_seq in H2. cbn [app] in H1.
  assert (Hr20 : length refs = 20).
  { rewrite <- (Forall2_length H3), length_combine. lia. }
  assert (Hs20 : length sums = 20).
  { rewrite <- (Forall2_length H4), length_combine. lia. }
  unfold RlhfCells.compare. unfold RlhfCells.batch_size.
  unfold bind at 1, lift at 1. rewrite Htest.
  unfold bind at 1, lift at 1. rewrite get_slice_rows, Hquery, rbind_Ok.
  unfold bind at 1, lift at 1. rewrite get_slice_rows, Hids, rbind_Ok.
  cbn [skipn]. rewrite !firstn_map.
  unfold bind at 1. rewrite H1. cbn [fst snd].
  unfold bind at 1, lift at 1. rewrite (decode_all_ok tokenizer refs Hr20).
  unfold bind at 1, lift at 1. rewrite (decode_all_ok tokenizer sums Hs20).
  unfold bind at 1, lift at 1.
  cbn [get set String.eqb Ascii.eqb Bool.eqb andb rbind RlhfCells.cells].
  rewrite !texts_ok.
  fold (RlhfCells.joined (firstn 20 queries) (map (decode tokenizer false) refs)).
  fold (RlhfCells.joined (firstn 20 queries) (map (decode tokenizer false) sums)).
  unfold bind at 1, pure_call at 1.
  unfold bind at 1, lift at 1. unfold RlhfCells.scores at 1.
  destruct (rewards_ok _ (Hscores (RlhfCells.joined
                                     (firstn 20 queries)
                                     (map (decode tokenizer false) refs))))
    as [rb [Hb1 Hb2]].
  rewrite Hb1.
  unfold bind at 1, lift at 1.
  unfold bind at 1, pure_call at 1.
  unfold bind at 1, lift at 1. unfold RlhfCells.scores at 1.
  destruct (rewards_ok _ (Hscores (RlhfCells.joined
                                     (firstn 20 queries)
                                     (map (decode tokenizer false) sums))))
    as [ra [Ha1 Ha2]].
  rewrite Ha1. unfold ret. cbn [the_world trace].
  exists lengths, refs, sums, rb, ra. eexists. cbv zeta.
  split.
  { f_equal. f_equal. f_equal.
    rewrite <- after_sampling_app. reflexivity. }
  split; [exact H2|]. split; [exact H3|]. split; [exact H4|].
  split; [exact Hb2|]. split; [exact Ha2|].
  split.
  { rewrite <- (Forall2_length Hb2), Hlength. unfold RlhfCells.joined.
    rewrite length_map, length_combine, length_map. lia. }
  split.
  { rewrite <- (Forall2_length Ha2), Hlength. unfold RlhfCells.joined.
    rewrite length_map, length_combine, length_map. lia. }
  cbn [trace]. rewrite H5, <- !app_assoc. reflexivity.
Qed.

Lemma toy_pipeline_length (texts : list string) :
  length (@sentiment_pipe toy_libraries texts Rlhf.reward_kwargs) = length texts.
Proof. simpl. apply length_map. Qed.

(** The theorem for a test split of 20 rows. *)
Lemma comparison_fills_five_columns_of_twenty_witness :
  exists lengths refs sums reward_before reward_after s',
    let response_before := map (@decode toy_libraries "flan-t5" false) refs in
    let response_after := map (@decode toy_libraries "flan-t5" false) sums in
    let texts_before :=
      RlhfCells.joined (firstn 20 (repeat "q" 20)) response_before in
    let texts_after :=
      RlhfCells.joined (firstn 20 (repeat "q" 20)) response_after in
    let evs :=
      @RlhfCells.comparisons toy_libraries "ref_model" "ppo_model"
        Rlhf.generation_kwargs (firstn 20 (repeat [1; 2]%Z 20)) lengths
      ++ [EvSentimentPipe texts_before Rlhf.reward_kwargs;
          EvSentimentPipe texts_after Rlhf.reward_kwargs] in
    @RlhfCells.compare toy_libraries "ref_model" "ppo_model" "flan-t5"
      [("test", [("input_ids", map VIds (repeat [1; 2]%Z 20));
                 ("query", map VStr (repeat "q" 20))])]
      Rlhf.generation_kwargs (@Build_state toy_libraries 0 [])
    = (Ok ([("query", RlhfCells.Cells (map VStr (firstn 20 (repeat "q" 20))));
            ("response_before", RlhfCells.Cells (map VStr response_before));
            ("response_after", RlhfCells.Cells (map VStr response_after));
            ("reward_before", RlhfCells.Rewards reward_before);
            ("reward_after", RlhfCells.Rewards reward_after)],
           RlhfCells.after_sampling Rlhf.generation_kwargs evs), s')
    /\ length lengths = 20
    /\ Forall2 (fun x r =>
                  @RlhfCells.summary_of toy_libraries "ref_model"
                    Rlhf.generation_kwargs (fst x) (snd x) r)
               (combine (firstn 20 (repeat [1; 2]%Z 20)) lengths) refs
    /\ Forall2 (fun x r =>
                  @RlhfCells.summary_of toy_libraries "ppo_model"
                    Rlhf.generation_kwargs (fst x) (snd x) r)
               (combine (firstn 20 (repeat [1; 2]%Z 20)) lengths) sums
    /\ RlhfCells.rewards_of texts_before reward_before
    /\ RlhfCells.rewards_of texts_after reward_after
    /\ length reward_before = 20
    /\ length reward_after = 20
    /\ trace s' = [] ++ evs.
Proof.
  apply (comparison_fills_five_columns_of_twenty toy_libraries
           "ref_model" "ppo_model" "flan-t5"
           [("test", [("input_ids", map VIds (repeat [1; 2]%Z 20));
                      ("query", map VStr (repeat "q" 20))])]
           [("input_ids", map VIds (repeat [1; 2]%Z 20));
            ("query", map VStr (repeat "q" 20))]
           (repeat [1; 2]%Z 20) (repeat "q" 20) Rlhf.generation_kwargs
           (@Build_state toy_libraries 0 [])).
  - reflexivity.
  - reflexivity.
  - reflexivity.
  - vm_compute. repeat constructor.
  - vm_compute. repeat constructor.
  - exact toy_sampler_range.
  - apply toy_generation_length. repeat constructor; simpl; lia.
  - exact toy_pipeline_scores.
  - exact toy_pipeline_length.
Defined.

(** ** [tokenize_function] on any batch, and the size of the tokenized
       splits *)

Lemma set_same {A} (k : string) (v : A) (d : dict A) :
  get k d = Ok v -> set k v d = d.
Proof.
  induction d as [|[k' v'] d IH]; simpl; [discriminate|].
  destruct (String.eqb_spec k k') as [->|_].
  - intros H. injection H as ->. reflexivity.
  - intros H. rewrite (IH H). reflexivity.
Qed.

Lemma keys_set_incl {A} (k k0 : string) (v : A) (d : dict A) :
  In k (keys (set k0 v d)) -> k = k0 \/ In k (keys d).
Proof.
  induction d as [|[k' v'] d IH]; simpl.
  - intros [H|[]]. left. congruence.
  - destruct (String.eqb_spec k0 k') as [->|_]; simpl.
    + intros [H|H]; auto.
    + intros [H|H]; auto. destruct (IH H); auto.
Qed.

Section TokenizeFunction.

Context {L : Libraries}.

Variable tokenizer : tokenizer.

Lemma tokenize_function_any (example : table) (dialogues summaries : list string) :
  get "dialogue" example = Ok (map VStr dialogues) ->
  get "summary" example = Ok (map VStr summaries) ->
  Peft.tokenize_function tokenizer example
  = Ok (set "labels" (map (PeftCells.label_ids tokenizer) summaries)
            (set "input_ids" (map (PeftCells.prompt_ids tokenizer) dialogues) example)).
Proof.
  intros Hd Hs. unfold Peft.tokenize_function. rewrite Hd, rbind_Ok.
  rewrite (mapM_map_ok _ VStr
             (fun d => (Peft.start_prompt ++ d ++ Peft.end_prompt)%string))
    by reflexivity.
  rewrite rbind_Ok, get_set_other by discriminate. rewrite Hs, rbind_Ok.
  rewrite texts_of_column_strings, rbind_Ok. unfold Peft.tokenizer_call. rewrite map_map.
  reflexivity.
Qed.

(** The three stages of [tokenized_datasets] on DialogSum splits. *)
Lemma tokenized_datasets_expected (dataset : list (string * list DialogSum)) :
  Peft.tokenized_datasets tokenizer
    (map (fun sp => (fst sp, table_of (snd sp))) dataset)
  = Ok (map (fun sp => (fst sp, Peft.expected tokenizer (snd sp))) dataset).
Proof.
  unfold Peft.tokenized_datasets.
  assert (H1 : on_splits (map_batched (Peft.tokenize_function tokenizer))
                 (map (fun sp => (fst sp, table_of (snd sp))) dataset)
               = Ok (map (fun sp => (fst sp,
                                     match snd sp with
                                     | [] => table_of []
                                     | rs => cols_of (dialogsum ++ Peft.tokenized tokenizer) rs
                                     end)) dataset)).
  { unfold on_splits. apply mapM_map_ok. intros [name rs] _. simpl.
    destruct rs as [|r rs']; [reflexivity|].
    rewrite map_batched_table_of by discriminate. reflexivity. }
  rewrite H1. cbv beta iota delta [rbind].
  assert (H2 : on_splits (remove_columns ["id"; "topic"; "dialogue"; "summary"])
                 (map (fun sp : string * list DialogSum =>
                         (fst sp,
                          match snd sp with
                          | [] => table_of []
                          | rs => cols_of (dialogsum ++ Peft.tokenized tokenizer) rs
                          end)) dataset)
               = Ok (map (fun sp => (fst sp,
                                     match snd sp with
                                     | [] => []
                                     | rs => cols_of (Peft.tokenized tokenizer) rs
                                     end)) dataset)).
  { unfold on_splits. apply mapM_map_ok. intros [name rs] _. simpl.
    destruct rs as [|r rs']; reflexivity. }
  rewrite H2. cbv beta iota delta [rbind].
  unfold on_splits. apply mapM_map_ok. intros [name rs] _. cbn [fst snd].
  destruct rs as [|r rs']; [reflexivity|].
  rewrite filter_with_indices_tokenized. reflexivity.
Qed.

End TokenizeFunction.

Lemma every_100th_length {A} (l : list A) :
  length (Peft.every_100th l) = (length l + 99) / 100.
Proof.
  assert (H : forall j, length (Peft.every_100th l) <= j <-> length l <= 100 * j).
  { intros j. rewrite <- !nth_error_None. rewrite every_100th_nth. reflexivity. }
  pose proof (proj1 (H (length (Peft.every_100th l))) (le_n _)) as H1.
  assert (H2 : forall j, length l <= 100 * j -> length (Peft.every_100th l) <= j)
    by (intros j; apply H).
  specialize (H2 ((length l + 99) / 100)).
  assert (H3 : length (Peft.every_100th l) <= (length l + 99) / 100).
  { apply H2. zify. Z.div_mod_to_equations. lia. }
  zify. Z.div_mod_to_equations. lia.
Qed.

(** X14.  On any batch whose [dialogue] and [summary] columns hold strings,
    [tokenize_function] succeeds; it sets [input_ids] to the ids of the
    prompts and [labels] to the ids of the summaries, and leaves every
    other column as it was, whatever other columns the batch has.  Applied
    to its own result it changes nothing. *)
Theorem tokenize_function_only_sets_input_ids_and_labels :
  forall (L : Libraries) (tokenizer : tokenizer) (example : table)
         (dialogues summaries : list string),
    get "dialogue" example = Ok (map VStr dialogues) ->
    get "summary" example = Ok (map VStr summaries) ->
    exists out,
      Peft.tokenize_function tokenizer example = Ok out
      /\ get "input_ids" out
         = Ok (map (fun d => VIds (tokenize_text tokenizer (KStr "max_length") true
                                     (Peft.start_prompt ++ d ++ Peft.end_prompt)))
                   dialogues)
      /\ get "labels" out
         = Ok (map (fun s => VIds (tokenize_text tokenizer (KStr "max_length")
                                     true s))
                   summaries)
      /\ (forall k, k <> "input_ids" -> k <> "labels" -> get k out = get k example)
      /\ (forall k, In k (column_names out) ->
                    k = "input_ids" \/ k = "labels" \/ In k (column_names example))
      /\ Peft.tokenize_function tokenizer out = Ok out.
Proof.
  intros L tokenizer example dialogues summaries Hd Hs.
  pose proof (tokenize_function_any tokenizer example dialogues summaries Hd Hs)
    as H.
  eexists. split; [exact H|].
  assert (Hother : forall k, k <> "input_ids" -> k <> "labels" ->
                             get k (set "labels" (map (PeftCells.label_ids tokenizer) summaries)
                                        (set "input_ids"
                                             (map (PeftCells.prompt_ids tokenizer) dialogues)
                                             example))
                             = get k example).
  { intros k H1 H2. rewrite !get_set_other by assumption. reflexivity. }
  split; [|split; [|split; [|split]]].
  - rewrite get_set_other by discriminate. apply get_set_same.
  - apply get_set_same.
  - exact Hother.
  - intros k Hk. apply keys_set_incl in Hk. destruct Hk as [Hk|Hk]; [auto|].
    apply keys_set_incl in Hk. destruct Hk as [Hk|Hk]; auto.
  - rewrite (tokenize_function_any tokenizer _ dialogues summaries).
    + f_equal.
      rewrite (set_same "input_ids" (map (PeftCells.prompt_ids tokenizer) dialogues)).
      * apply set_same. apply get_set_same.
      * rewrite get_set_other by discriminate. apply get_set_same.
    + rewrite Hother by discriminate. exact Hd.
    + rewrite Hother by discriminate. exact Hs.
Qed.

(** The theorem for a batch with a column of its own. *)
Lemma tokenize_function_only_sets_input_ids_and_labels_witness :
  exists out,
    @Peft.tokenize_function toy_libraries "flan-t5"
      [("dialogue", [VStr "Hi."]); ("summary", [VStr "A greeting."]);
       ("length", [VIds [3%Z]])]
    = Ok out
    /\ get "length" out = Ok [VIds [3%Z]]
    /\ @Peft.tokenize_function toy_libraries "flan-t5" out = Ok out.
Proof.
  destruct (tokenize_function_only_sets_input_ids_and_labels
              toy_libraries "flan-t5"
              [("dialogue", [VStr "Hi."]); ("summary", [VStr "A greeting."]);
               ("length", [VIds [3%Z]])]
              ["Hi."] ["A greeting."] eq_refl eq_refl)
    as [out [H1 [_ [_ [H4 [_ H6]]]]]].
  exists out. split; [exact H1|]. split; [|exact H6].
  rewrite H4 by discriminate. reflexivity.
Defined.

(** X15.  [tokenize_function] looks up [dialogue] first and [summary]
    after the prompts are tokenized: a batch without [dialogue] raises
    [KeyError] for [dialogue] whatever else it has, a batch with string
    dialogues and without [summary] raises [KeyError] for [summary], and a
    dialogue that is not a string makes the concatenation with the prompt
    raise [TypeError]. *)
Theorem tokenize_function_errors :
  forall (L : Libraries) (tokenizer : tokenizer) (example : table),
    (~ In "dialogue" (column_names example) ->
     Peft.tokenize_function tokenizer example = Raise (KeyError "dialogue"))
    /\ (forall dialogues,
           get "dialogue" example = Ok (map VStr dialogues) ->
           ~ In "summary" (column_names example) ->
           Peft.tokenize_function tokenizer example = Raise (KeyError "summary"))
    /\ (forall dialogues,
           get "dialogue" example = Ok dialogues ->
           (exists ids, In (VIds ids) dialogues) ->
           Peft.tokenize_function tokenizer example = Raise TypeError).
Proof.
  intros L tokenizer example. split; [|split].
  - intros H. unfold Peft.tokenize_function.
    rewrite (get_missing "dialogue" example H). reflexivity.
  - intros dialogues Hd Hs. unfold Peft.tokenize_function. rewrite Hd, rbind_Ok.
    rewrite (mapM_map_ok _ VStr
               (fun d => (Peft.start_prompt ++ d ++ Peft.end_prompt)%string))
      by reflexivity.
    rewrite rbind_Ok, get_set_other by discriminate.
    rewrite (get_missing "summary" example Hs). reflexivity.
  - intros dialogues Hd [ids Hin]. unfold Peft.tokenize_function.
    rewrite Hd, rbind_Ok.
    assert (E : mapM (fun dialogue =>
                        d <- as_str dialogue ;;
                        Ok (Peft.start_prompt ++ d ++ Peft.end_prompt)%string)
                     dialogues = Raise TypeError).
    { clear Hd. induction dialogues as [|v l IH]; [contradiction|].
      destruct Hin as [->|Hin]; [reflexivity|].
      cbn [mapM]. rewrite (IH Hin). destruct v; reflexivity. }
    rewrite E. reflexivity.
Qed.

(** The theorem for a batch without [summary]. *)
Lemma tokenize_function_errors_witness :
  @Peft.tokenize_function toy_libraries "flan-t5" [("dialogue", [VStr "Hi."])]
  = Raise (KeyError "summary").
Proof.
  apply (proj1 (proj2 (tokenize_function_errors toy_libraries "flan-t5"
                         [("dialogue", [VStr "Hi."])])) ["Hi."]).
  - reflexivity.
  - simpl. intros [H|[]]. discriminate H.
Defined.

(** X16.  After [map], [remove_columns] and the filter on the index, a
    split of [n] DialogSum records is left with [ceil(n / 100)] examples:
    every split keeps its name, and a split that is not empty keeps at
    least its first example. *)
Theorem tokenized_splits_keep_one_example_in_a_hundred :
  forall (L : Libraries) (tokenizer : tokenizer)
         (dataset : list (string * list DialogSum)),
  exists out,
    Peft.tokenized_datasets tokenizer
      (map (fun sp => (fst sp, table_of (snd sp))) dataset)
    = Ok out
    /\ map fst out = map fst dataset
    /\ map (fun sp => num_rows (snd sp)) out
       = map (fun sp => (length (snd sp) + 99) / 100) dataset
    /\ Forall2 (fun sp t => snd sp <> [] -> 0 < num_rows (snd t)) dataset out.
Proof.
  intros L tokenizer dataset.
  assert (Hrows : forall rs, num_rows (Peft.expected tokenizer rs)
                             = (length rs + 99) / 100).
  { intros [|r rs]; [reflexivity|]. unfold Peft.expected.
    rewrite num_rows_cols_of by discriminate. apply every_100th_length. }
  eexists. split; [apply tokenized_datasets_expected|].
  rewrite !map_map. cbn [fst snd]. split; [reflexivity|]. split.
  - apply map_ext. intros sp. apply Hrows.
  - induction dataset as [|[name rs] dataset IH]; constructor; [|exact IH].
    cbn [snd]. intros Hne. rewrite Hrows.
    destruct rs as [|r rs]; [contradiction|]. cbn [length].
    zify. Z.div_mod_to_equations. lia.
Qed.

(** ** The comparison of the summaries *)

Lemma zip3_length {A B C} (a : list A) (b : list B) (c : list C) :
  length (PeftCells.zip3 a b c)
  = Nat.min (length a) (Nat.min (length b) (length c)).
Proof.
  revert b c. induction a as [|x a IH]; intros [|y b] [|z c]; simpl;
    try reflexivity.
  rewrite IH. reflexivity.
Qed.

Section Summaries.

Context {L : Libraries}.

Variables original_model instruct_model : model.
Variable tokenizer : tokenizer.

(** The loop never fails: it generates with each model for each
    dialogue. *)
Lemma summaries_loop_ok (dialogues : list value) :
  forall (originals instructs : list string) (s : state),
  exists originals' instructs' s' evs,
    PeftCells.summaries_loop original_model instruct_model tokenizer dialogues
                             originals instructs s
    = (Ok (originals ++ originals', instructs ++ instructs'), s')
    /\ length originals' = length dialogues
    /\ length instructs' = length dialogues
    /\ trace s' = trace s ++ evs
    /\ evs = flat_map
               (fun d =>
                  [EvModelGenerate original_model
                     (tokenize_text tokenizer (KBool false) false
                                    (PeftCells.prompt_of d))
                     PeftCells.generation_config;
                   EvModelGenerate instruct_model
                     (tokenize_text tokenizer (KBool false) false
                                    (PeftCells.prompt_of d))
                     PeftCells.generation_config])
               dialogues.
Proof.
  induction dialogues as [|d rest IH]; intros originals instructs s.
  - exists [], [], s, []. simpl. unfold ret. rewrite !app_nil_r. auto.
  - cbn [PeftCells.summaries_loop]. cbv zeta.
    unfold bind at 1, call at 1.
    destruct (model_generate original_model _ _ (the_world s)) as [out1 w1].
    cbv beta iota zeta.
    unfold bind at 1, call at 1. cbn [the_world trace].
    destruct (model_generate instruct_model _ _ w1) as [out2 w2].
    cbv beta iota zeta.
    match goal with
    | |- context [PeftCells.summaries_loop _ _ _ rest ?o ?i ?s1] =>
        destruct (IH o i s1) as [os [is' [s' [evs [H1 [H2 [H3 [H4 H5]]]]]]]]
    end.
    exists (decode tokenizer true out1 :: os),
      (decode tokenizer true out2 :: is'), s'.
    eexists. rewrite H1, <- !app_assoc. split; [reflexivity|].
    cbn [length]. rewrite H2, H3. split; [reflexivity|]. split; [reflexivity|].
    split.
    + rewrite H4. cbn [trace]. rewrite <- !app_assoc. reflexivity.
    + cbn [flat_map app]. rewrite H5. reflexivity.
Qed.

End Summaries.

(** X17.  For a test split with the columns [dialogue] and [summary], the
    comparison of cell 23 ends normally whatever the cells hold: for each
    of the first 10 dialogues, in order, the original model and then the
    instruct model generate from the same prompt ids with
    [max_new_tokens = 200], and nothing else is called.  The predictions
    and the references handed to [rouge.compute] in cell 24 have the same
    length, the number of these dialogues, and so has the table
    displayed. *)
Theorem summaries_compared_for_the_first_ten_dialogues :
  forall (L : Libraries) (original_model instruct_model : model)
         (tokenizer : tokenizer) (dataset : dataset_dict) (test : table)
         (dialogues summaries : list value) (s : state),
    get "test" dataset = Ok test ->
    get "dialogue" test = Ok dialogues ->
    get "summary" test = Ok summaries ->
    length summaries = length dialogues ->
    exists c s',
      PeftCells.compare_summaries original_model instruct_model tokenizer
                                  dataset s
      = (Ok c, s')
      /\ trace s'
         = trace s
             ++ flat_map
                  (fun d =>
                     [EvModelGenerate original_model
                        (tokenize_text tokenizer (KBool false) false
                                       (PeftCells.prompt_of d))
                        [("max_new_tokens", KInt 200)];
                      EvModelGenerate instruct_model
                        (tokenize_text tokenizer (KBool false) false
                                       (PeftCells.prompt_of d))
                        [("max_new_tokens", KInt 200)]])
                  (firstn 10 dialogues)
      /\ let n := Nat.min 10 (length dialogues) in
         length (PeftCells.original_predictions c) = n
         /\ length (PeftCells.original_references c) = n
         /\ length (PeftCells.instruct_predictions c) = n
         /\ length (PeftCells.instruct_references c) = n
         /\ length (PeftCells.zipped_summaries c) = n
         /\ PeftCells.original_references c = firstn 10 summaries
         /\ PeftCells.instruct_references c = firstn 10 summaries.
Proof.
  intros L original_model instruct_model tokenizer dataset test dialogues
         summaries s Htest Hd Hs Hlen.
  destruct (summaries_loop_ok original_model instruct_model tokenizer
              (firstn 10 dialogues) [] [] s)
    as [os [is' [s' [evs [H1 [H2 [H3 [H4 H5]]]]]]]].
  cbn [app] in H1. rewrite length_firstn in H2, H3.
  unfold PeftCells.compare_summaries.
  rewrite Htest, !rbind_Ok, !get_slice_rows, Hd, Hs, !rbind_Ok.
  unfold bind at 1, lift at 1.
  unfold bind at 1, lift at 1.
  cbn [skipn].
  unfold bind at 1. rewrite H1. unfold ret. cbn [fst snd].
  eexists. eexists. split; [reflexivity|].
  split; [rewrite H4, H5; reflexivity|].
  cbn [PeftCells.original_predictions PeftCells.original_references
       PeftCells.instruct_predictions PeftCells.instruct_references
       PeftCells.zipped_summaries].
  assert (Hf : firstn (Nat.min 10 (length dialogues)) (firstn 10 summaries)
               = firstn 10 summaries).
  { apply firstn_all2. rewrite length_firstn, Hlen. lia. }
  rewrite zip3_length, H2, H3, Hf, !length_firstn, Hlen.
  repeat split; lia.
Qed.

(** The theorem for a test split of two rows. *)
Lemma summaries_compared_for_the_first_ten_dialogues_witness :
  exists c s',
    @PeftCells.compare_summaries toy_libraries "original" "instruct" "flan-t5"
      [("test", [("dialogue", [VStr "a"; VStr "b"]);
                 ("summary", [VStr "x"; VStr "y"])])]
      (@Build_state toy_libraries 0 [])
    = (Ok c, s')
    /\ length (PeftCells.original_predictions c) = 2
    /\ PeftCells.original_references c = [VStr "x"; VStr "y"].
Proof.
  destruct (summaries_compared_for_the_first_ten_dialogues toy_libraries
              "original" "instruct" "flan-t5"
              [("test", [("dialogue", [VStr "a"; VStr "b"]);
                         ("summary", [VStr "x"; VStr "y"])])]
              [("dialogue", [VStr "a"; VStr "b"]);
               ("summary", [VStr "x"; VStr "y"])]
              [VStr "a"; VStr "b"] [VStr "x"; VStr "y"]
              (@Build_state toy_libraries 0 [])
              eq_refl eq_refl eq_refl eq_refl)
    as [c [s' [H1 [_ [H3 [_ [_ [_ [_ [H8 _]]]]]]]]]].
  exists c, s'. split; [exact H1|]. split; [exact H3|exact H8].
Defined.

(** ** The two cells that catch exceptions, whatever the platform does *)

(** X18.  The existence check of the data-quality notebook (cell 6), for
    any behaviour of the platform: when the lookup of
    [setup_dependencies_passed] raises an instance of [NameError] the
    handler prints its three lines, and the cell ends normally unless one
    of the prints raises, in which case that exception is the outcome; an
    exception of any other class leaves the cell at once; without an
    exception the handler does not run. *)
Theorem existence_check_catches_name_error_only :
  forall (exn : Type) (raises : nat -> option exn) (truth : nat -> bool)
         (items : nat -> nat) (isinstance : exn -> expr -> bool) (k : nat),
    exec_cell exn raises truth items isinstance check_cell k
    = match raises k with
      | None => (Normal, S k)
      | Some e =>
          if isinstance e (EName "NameError")
          then match raises (S k) with
               | Some e1 => (Raised e1, S (S k))
               | None =>
                   match raises (S (S k)) with
                   | Some e2 => (Raised e2, S (S (S k)))
                   | None =>
                       match raises (S (S (S k))) with
                       | Some e3 => (Raised e3, S (S (S (S k))))
                       | None => (Normal, S (S (S (S k))))
                       end
                   end
               end
          else (Raised e, S k)
      end.
Proof.
  intros exn raises truth items isinstance k.
  unfold exec_cell, check_cell. cbn [nth data_quality_notebook snd].
  cbn [run_block exec run_handlers catches step].
  unfold step.
  destruct (raises k) as [e|]; [|reflexivity].
  cbn [run_handlers catches].
  destruct (isinstance e (EName "NameError")); [|reflexivity].
  cbn [run_block exec]. unfold step.
  destruct (raises (S k)); [reflexivity|].
  destruct (raises (S (S k))); [reflexivity|].
  destruct (raises (S (S (S k)))); reflexivity.
Qed.

(** X19.  The cell of the setup notebook that asks for the execution role
    (cell 37), for any behaviour of the platform: after the import, an
    exception of [sagemaker.get_execution_role()] or of [print(role)] never
    leaves the cell, whatever its class; the handler prints its hint and
    the cell goes on to [%store role].  The outcome of the cell is then
    that of the hint and of [%store role] alone. *)
Theorem role_cell_swallows_every_exception :
  forall (exn : Type) (raises : nat -> option exn) (truth : nat -> bool)
         (items : nat -> nat) (isinstance : exn -> expr -> bool) (k : nat)
         (e : exn),
    raises k = None ->
    raises (S k) = Some e
    \/ (raises (S k) = None /\ raises (S (S k)) = Some e) ->
    let k' := match raises (S k) with
              | Some _ => S (S k)
              | None => S (S (S k))
              end in
    exec_cell exn raises truth items isinstance role_cell k
    = match raises k' with
      | Some e1 => (Raised e1, S k')
      | None =>
          match raises (S k') with
          | Some e2 => (Raised e2, S (S k'))
          | None => (Normal, S (S k'))
          end
      end.
Proof.
  intros exn raises truth items isinstance k e Hk Hr k'.
  unfold exec_cell, role_cell. cbn [nth setup_notebook snd].
  cbn [run_block exec]. unfold step at 1. rewrite Hk.
  cbn [run_block exec]. unfold step at 1.
  destruct Hr as [Hr|[Hr1 Hr2]].
  - subst k'. rewrite Hr. cbn [run_handlers catches run_block exec].
    unfold step. destruct (raises (S (S k))); [reflexivity|].
    destruct (raises (S (S (S k)))); reflexivity.
  - subst k'. rewrite Hr1. unfold step at 1. rewrite Hr2.
    cbn [run_handlers catches run_block exec].
    unfold step. destruct (raises (S (S (S k)))); [reflexivity|].
    destruct (raises (S (S (S (S k))))); reflexivity.
Qed.

(** The theorem when [get_execution_role] raises and nothing else does. *)
Lemma role_cell_swallows_every_exception_witness :
  exec_cell string (fun k => if Nat.eqb k 1 then Some "KeyboardInterrupt" else None)
            (fun _ => true) (fun _ => 0) class_named role_cell 0
  = (Normal, 4).
Proof.
  exact (role_cell_swallows_every_exception string
           (fun k => if Nat.eqb k 1 then Some "KeyboardInterrupt" else None)
           (fun _ => true) (fun _ => 0) class_named 0 "KeyboardInterrupt"
           eq_refl (or_introl eq_refl)).
Defined.

(** ** Counting the parameters of a model put together from two *)

Lemma sum_Z_app (l1 l2 : list Z) : sum_Z (l1 ++ l2) = (sum_Z l1 + sum_Z l2)%Z.
Proof.
  induction l1 as [|x l1 IH]; simpl; [reflexivity|]. rewrite IH. lia.
Qed.

Lemma filter_none {A} (p : A -> bool) (l : list A) :
  forallb (fun a => negb (p a)) l = true -> filter p l = [].
Proof.
  induction l as [|a l IH]; simpl; [reflexivity|].
  intros H. apply andb_prop in H. destruct H as [H1 H2].
  destruct (p a); [discriminate|]. apply IH. exact H2.
Qed.

Lemma filter_all {A} (p : A -> bool) (l : list A) :
  forallb p l = true -> filter p l = l.
Proof.
  induction l as [|a l IH]; simpl; [reflexivity|].
  intros H. apply andb_prop in H. destruct H as [H1 H2].
  rewrite H1, (IH H2). reflexivity.
Qed.

(** X20.  The counts of a model whose parameters are those of a base model
    followed by those of an adapter are the sums of the counts of the two.
    So when every parameter of the base is frozen the trainable count is
    that of the adapter alone, and a model whose parameters all require a
    gradient has as many trainable parameters as parameters. *)
Theorem parameter_counts_add_up :
  forall (L : Libraries) (base adapter : Peft.named_parameters),
    Peft.count_parameters (base ++ adapter)
    = ((fst (Peft.count_parameters base) + fst (Peft.count_parameters adapter))%Z,
       (snd (Peft.count_parameters base) + snd (Peft.count_parameters adapter))%Z)
    /\ (forallb (fun np => negb (Peft.requires_grad (snd np))) base = true ->
        fst (Peft.count_parameters (base ++ adapter))
        = fst (Peft.count_parameters adapter))
    /\ (forallb (fun np => Peft.requires_grad (snd np)) base = true ->
        fst (Peft.count_parameters base) = snd (Peft.count_parameters base)).
Proof.
  intros L base adapter. unfold Peft.count_parameters.
  rewrite !count_parameters_sums_from. cbn [fst snd].
  rewrite filter_app, !map_app, !sum_Z_app.
  split; [f_equal; lia|]. split.
  - intros Hfrozen.
    rewrite (filter_none (fun np => Peft.requires_grad (snd np)) base Hfrozen).
    reflexivity.
  - intros Hall.
    rewrite (filter_all (fun np => Peft.requires_grad (snd np)) base Hall).
    reflexivity.
Qed.

(** The theorem for a frozen base of 1000 parameters and an adapter of
    10. *)
Lemma parameter_counts_add_up_witness :
  fst (Peft.count_parameters
         ([("base.weight", {| Peft.numel := 1000; Peft.requires_grad := false |})]
            ++ [("lora.weight", {| Peft.numel := 10; Peft.requires_grad := true |})]))
  = fst (Peft.count_parameters
           [("lora.weight", {| Peft.numel := 10; Peft.requires_grad := true |})]).
Proof.
  apply (proj1 (proj2 (parameter_counts_add_up toy_libraries
                         [("base.weight",
                           {| Peft.numel := 1000; Peft.requires_grad := false |})]
                         [("lora.weight",
                           {| Peft.numel := 10; Peft.requires_grad := true |})]))).
  reflexivity.
Defined.

(** ** Generations of a single token, and token ids as summaries *)





(** X23.  [tokenize_function] gives the column [summary] to the tokenizer
    as it is: when the dialogues are strings and the first summary is a
    non-empty list of token ids, the tokenizer refuses the column with
    [ValueError]. *)
Theorem tokenize_function_refuses_token_ids_as_summaries :
  forall (L : Libraries) (tokenizer : tokenizer) (example : table)
         (dialogues : list string) (id : Z) (ids : list Z) (rest : list value),
    get "dialogue" example = Ok (map VStr dialogues) ->
    get "summary" example = Ok (VIds (id :: ids) :: rest) ->
    Peft.tokenize_function tokenizer example = Raise ValueError.
Proof.
  intros L tokenizer example dialogues id ids rest Hd Hs.
  unfold Peft.tokenize_function. rewrite Hd, rbind_Ok.
  rewrite (mapM_map_ok _ VStr
             (fun d => (Peft.start_prompt ++ d ++ Peft.end_prompt)%string))
    by reflexivity.
  rewrite rbind_Ok, get_set_other by discriminate.
  rewrite Hs. reflexivity.
Qed.

(** The theorem for a batch of one record. *)
Lemma tokenize_function_refuses_token_ids_as_summaries_witness :
  @Peft.tokenize_function toy_libraries "flan-t5"
    [("dialogue", [VStr "Hi."]); ("summary", [VIds [1%Z]])]
  = Raise ValueError.
Proof.
  apply (tokenize_function_refuses_token_ids_as_summaries
           toy_libraries "flan-t5"
           [("dialogue", [VStr "Hi."]); ("summary", [VIds [1%Z]])]
           ["Hi."] 1%Z [] []).
  - reflexivity.
  - reflexivity.
Defined.
